(** * Face-recognition attendance tracker: a shallow embedding

    The development follows the three source files of the backend:
    [models.py] (schema, session, day-row maintenance), [face_utils.py]
    (capture, training, recognition) and [app.py] (the Flask routes).

    Conventions of the embedding:
    - a table is the list of its rows, in insertion order;
    - the SQLAlchemy session is a state-and-exception monad over the
      session's view of the tables, its unit of work (objects added or
      modified but not yet flushed), the durable tables and the log of
      the SQL statements issued so far;
    - the camera is the finite list of frames it delivers before
      [cap.read()] fails; every frame carries the face crops found in it
      by the cascade classifier and the key code [cv2.waitKey] returns
      after the frame is shown;
    - a confidence (a Python float) is a rational number: the code only
      compares confidences;
    - a text ([str]) is the string of the bytes of its UTF-8 encoding;
      [strip] removes white-space characters, of one byte or more. *)

From Stdlib Require Import List ZArith QArith Bool Ascii String Lia.
From Stdlib Require Import Sorted Permutation.
Import ListNotations.

Local Open Scope string_scope.
Local Open Scope Z_scope.

(** ** Python built-ins used by the source *)

Module Py.

(** Exceptions the modelled code can raise. *)
Inductive exn : Type :=
| IntegrityError        (* sqlalchemy.exc.IntegrityError *)
| MultipleResultsFound  (* Query.one_or_none on two rows or more *)
| AttributeError        (* attribute access on None *)
| ValueError            (* int() on a non-numeric string *)
| FileExistsError       (* os.makedirs over a regular file *)
| BadRequestKeyError    (* request.form[k] on a missing key *)
| TypeError             (* strptime on None *)
| CvError.              (* cv2.error: predicting with an untrained recognizer *)

Inductive result (A : Type) : Type :=
| Ok (a : A)
| Raise (e : exn).
Arguments Ok {A} a.
Arguments Raise {A} e.

(** A [str] is held as the UTF-8 encoding of its code points: the form
    in which a form field arrives and in which SQLite stores and
    compares a TEXT value. *)
Definition byte (c : ascii) : Z := Z.of_nat (nat_of_ascii c).

(** [str.isspace] on one code point: the characters of bidirectional
    class WS, B or S and those of category Zs. *)
Definition isspace (c : Z) : bool :=
  ((0x09 <=? c) && (c <=? 0x0D)) || ((0x1C <=? c) && (c <=? 0x20)) ||
  (c =? 0x85) || (c =? 0xA0) || (c =? 0x1680) ||
  ((0x2000 <=? c) && (c <=? 0x200A)) || (c =? 0x2028) || (c =? 0x2029) ||
  (c =? 0x202F) || (c =? 0x205F) || (c =? 0x3000).

(** A continuation byte of UTF-8. *)
Definition is_cont (b : Z) : bool := (0x80 <=? b) && (b <=? 0xBF).

(** The code point that two bytes, or three, encode; [None] when they
    are not the encoding of one. *)
Definition code_point2 (b0 b1 : Z) : option Z :=
  if (0xC2 <=? b0) && (b0 <=? 0xDF) && is_cont b1
  then Some ((b0 - 0xC0) * 64 + (b1 - 0x80))
  else None.

Definition code_point3 (b0 b1 b2 : Z) : option Z :=
  let c := (b0 - 0xE0) * 4096 + (b1 - 0x80) * 64 + (b2 - 0x80) in
  if (0xE0 <=? b0) && (b0 <=? 0xEF) && is_cont b1 && is_cont b2 && (0x800 <=? c)
  then Some c
  else None.

Definition is_space_code (c : option Z) : bool :=
  match c with
  | Some c => isspace c
  | None => false
  end.

(** [s.lstrip()]: the leading white-space characters are dropped, one
    code point at a time (no code point of four bytes is white space). *)
Fixpoint lstrip (s : string) : string :=
  match s with
  | EmptyString => s
  | String a s1 =>
      if byte a <? 0x80 then (if isspace (byte a) then lstrip s1 else s)
      else
        match s1 with
        | EmptyString => s
        | String b s2 =>
            if is_space_code (code_point2 (byte a) (byte b)) then lstrip s2
            else
              match s2 with
              | EmptyString => s
              | String c s3 =>
                  if is_space_code (code_point3 (byte a) (byte b) (byte c))
                  then lstrip s3
                  else s
              end
        end
  end.

Fixpoint rev_string (acc s : string) : string :=
  match s with
  | EmptyString => acc
  | String c s' => rev_string (String c acc) s'
  end.

(** [lstrip] on a string read backwards: the bytes of a code point come
    last byte first. *)
Fixpoint rstrip_rev (r : string) : string :=
  match r with
  | EmptyString => r
  | String c r1 =>
      if byte c <? 0x80 then (if isspace (byte c) then rstrip_rev r1 else r)
      else
        match r1 with
        | EmptyString => r
        | String b r2 =>
            if is_space_code (code_point2 (byte b) (byte c)) then rstrip_rev r2
            else
              match r2 with
              | EmptyString => r
              | String a r3 =>
                  if is_space_code (code_point3 (byte a) (byte b) (byte c))
                  then rstrip_rev r3
                  else r
              end
        end
  end.

(** [s.rstrip()] *)
Definition rstrip (s : string) : string :=
  rev_string "" (rstrip_rev (rev_string "" s)).

(** [s.strip()] *)
Definition strip (s : string) : string := rstrip (lstrip s).

(** The byte of a given value. *)
Definition chr_byte (n : Z) : ascii := ascii_of_nat (Z.to_nat n).

(** The UTF-8 encoding of a code point, and of a sequence of them. *)
Definition utf8 (c : Z) : string :=
  if c <? 0x80 then String (chr_byte c) ""
  else if c <? 0x800 then
    String (chr_byte (0xC0 + c / 64)) (String (chr_byte (0x80 + c mod 64)) "")
  else if c <? 0x10000 then
    String (chr_byte (0xE0 + c / 4096))
      (String (chr_byte (0x80 + (c / 64) mod 64))
         (String (chr_byte (0x80 + c mod 64)) ""))
  else
    String (chr_byte (0xF0 + c / 262144))
      (String (chr_byte (0x80 + (c / 4096) mod 64))
         (String (chr_byte (0x80 + (c / 64) mod 64))
            (String (chr_byte (0x80 + c mod 64)) ""))).

Fixpoint encode (points : list Z) : string :=
  match points with
  | [] => ""
  | c :: rest => utf8 c ++ encode rest
  end.

Definition lower_char (c : ascii) : ascii :=
  let n := nat_of_ascii c in
  if ((65 <=? n) && (n <=? 90))%nat then ascii_of_nat (n + 32) else c.

(** [s.lower()] *)
Fixpoint lower (s : string) : string :=
  match s with
  | EmptyString => EmptyString
  | String c s' => String (lower_char c) (lower s')
  end.

(** [s.endswith(suffix)] *)
Definition endswith (s suffix : string) : bool :=
  String.prefix (rev_string "" suffix) (rev_string "" s).

Definition is_digit (c : ascii) : bool :=
  let n := Z.of_nat (nat_of_ascii c) in (48 <=? n) && (n <=? 57).

Definition digit_value (c : ascii) : Z := Z.of_nat (nat_of_ascii c) - 48.

(** The digits of an integer literal: decimal digits, with single
    underscores allowed between two digits. *)
Fixpoint parse_digits (acc : Z) (after_digit : bool) (s : string) : option Z :=
  match s with
  | EmptyString => if after_digit then Some acc else None
  | String c s' =>
      if is_digit c then parse_digits (10 * acc + digit_value c) true s'
      else if Ascii.eqb c "_"%char
           then (if after_digit then parse_digits acc false s' else None)
           else None
  end.

(** [int(s)] for a string [s]: surrounding whitespace, an optional sign,
    then the digits.  [None] stands for [ValueError]. *)
Definition int (s : string) : option Z :=
  match strip s with
  | String "-"%char s' => option_map Z.opp (parse_digits 0 false s')
  | String "+"%char s' => parse_digits 0 false s'
  | s' => parse_digits 0 false s'
  end.

Definition digit_char (d : Z) : ascii := ascii_of_nat (Z.to_nat (48 + d)).

(** The decimal digits of [n >= 0], most significant first; [fuel]
    bounds the number of digits. *)
Fixpoint digits_aux (fuel : nat) (n : Z) (acc : string) : string :=
  match fuel with
  | O => acc
  | S fuel' =>
      let acc' := String (digit_char (n mod 10)) acc in
      if n / 10 =? 0 then acc' else digits_aux fuel' (n / 10) acc'
  end.

Definition digits (n : Z) : string :=
  digits_aux (S (Z.to_nat (Z.log2 n))) n "".

(** [str(n)] for an integer [n]. *)
Definition str (n : Z) : string :=
  if n <? 0 then String "-"%char (digits (- n)) else digits n.

Fixpoint zeros (k : nat) : string :=
  match k with
  | O => ""
  | S k' => String "0"%char (zeros k')
  end.

(** [format(n, "0<width>d")]: the sign, then the digits padded with zeros
    up to [width] characters in all. *)
Definition zfill_d (width : nat) (n : Z) : string :=
  if n <? 0
  then let d := digits (- n) in
       String "-"%char (zeros (width - 1 - String.length d) ++ d)
  else let d := digits n in zeros (width - String.length d) ++ d.

(** [os.path.join(a, b)] for a relative [b] and an [a] that does not end
    with a separator. *)
Definition path_join (a b : string) : string := a ++ "/" ++ b.

(** Computations over a mutable state [S] that may raise; the state at
    the raise is kept (what was written stays written). *)
Definition M (S A : Type) : Type := S -> result A * S.

Definition ret {S A} (a : A) : M S A := fun s => (Ok a, s).
Definition raise {S A} (e : exn) : M S A := fun s => (Raise e, s).
Definition bind {S A B} (m : M S A) (f : A -> M S B) : M S B :=
  fun s => match m s with
           | (Ok a, s') => f a s'
           | (Raise e, s') => (Raise e, s')
           end.
Definition get {S} : M S S := fun s => (Ok s, s).
Definition put {S} (s : S) : M S unit := fun _ => (Ok tt, s).

Fixpoint for_each {S A} (body : A -> M S unit) (l : list A) : M S unit :=
  match l with
  | [] => ret tt
  | x :: l' => bind (body x) (fun _ => for_each body l')
  end.

End Py.

Declare Scope py_scope.
Delimit Scope py_scope with py.
Notation "x <- m ;; k" := (Py.bind m (fun x => k))
  (at level 61, m at next level, right associativity) : py_scope.
Notation "m ;;; k" := (Py.bind m (fun _ => k))
  (at level 61, right associativity) : py_scope.

Import Py.


(** ** models.py: schema, session and day-row maintenance *)

Module Models.

(** A [date] is the ordinal of a calendar day; a [datetime] is a wall
    clock reading in microseconds, counted from the start of day 0. *)
Definition date := Z.
Definition datetime := Z.

Definition microseconds_per_day : Z := 86400000000.

(** [dt.date()] *)
Definition date_of (dt : datetime) : date := dt / microseconds_per_day.

(** [dt.strftime('%H:%M:%S')] *)
Definition strftime_HMS (dt : datetime) : string :=
  let secs := (dt mod microseconds_per_day) / 1000000 in
  zfill_d 2 (secs / 3600) ++ ":" ++ zfill_d 2 ((secs / 60) mod 60)
    ++ ":" ++ zfill_d 2 (secs mod 60).

(** Table [students]. *)
Record Student : Type := mkStudent {
  st_id : Z;
  roll_no : string;
  name : string;
  email : option string;
  klass : option string;
  section : option string;
  image_path : option string
}.

(** Table [attendance]. *)
Record Attendance : Type := mkAttendance {
  att_id : Z;
  student_id : Z;
  day : date;
  status : string;
  timestamp : option datetime
}.

Record Tables : Type := mkTables {
  students : list Student;
  attendance : list Attendance
}.

Definition option_string_dec (a b : option string) : {a = b} + {a <> b}.
Proof. decide equality; apply string_dec. Defined.

Definition option_Z_dec (a b : option Z) : {a = b} + {a <> b}.
Proof. decide equality; apply Z.eq_dec. Defined.

Definition Student_eq_dec (a b : Student) : {a = b} + {a <> b}.
Proof.
  decide equality;
    try apply option_string_dec; try apply string_dec; apply Z.eq_dec.
Defined.

Definition Attendance_eq_dec (a b : Attendance) : {a = b} + {a <> b}.
Proof.
  decide equality;
    try apply option_Z_dec; try apply string_dec; apply Z.eq_dec.
Defined.

(** The rowid SQLite gives to a row inserted without one: one more than
    the largest in the table, [1] for an empty table. *)
Definition next_rowid (ids : list Z) : Z := 1 + fold_right Z.max 0 ids.

(** The unit of work: objects handed to [session.add] and loaded objects
    whose attributes were assigned, in the order this happened. *)
Inductive pending_op : Type :=
| NewStudent (roll name : string) (email klass section : option string)
| NewAttendance (sid : Z) (d : date) (st : string)
| DirtyStudent (s : Student)
| DirtyAttendance (a : Attendance).

(** The SQL statements that reach the database. *)
Inductive sql : Type :=
| INSERT_student (s : Student)
| INSERT_attendance (a : Attendance)
| UPDATE_student (s : Student)
| UPDATE_attendance (a : Attendance)
| COMMIT.

Record Session : Type := mkSession {
  view : Tables;             (* the tables as the open transaction sees them *)
  pending : list pending_op; (* the unit of work *)
  durable : Tables;          (* the tables as of the last commit *)
  log : list sql             (* statements issued, oldest first *)
}.

(** [SessionLocal()] over a database file holding [db]. *)
Definition SessionLocal (db : Tables) : Session :=
  {| view := db; pending := []; durable := db; log := [] |}.

(** Computations in a session. *)
Definition SM (A : Type) : Type := M Session A.

Local Open Scope py_scope.

(** Constraint [UNIQUE (roll_no)] on [students], checked against the
    rows other than the one with identity [self]. *)
Definition roll_no_taken (self : Z) (r : string) (l : list Student) : bool :=
  existsb (fun s => negb (st_id s =? self) && String.eqb (roll_no s) r) l.

(** Constraint [uq_student_day] on [attendance]. *)
Definition student_day_taken (self sid : Z) (d : date) (l : list Attendance) : bool :=
  existsb (fun a => negb (att_id a =? self) && (student_id a =? sid) && (day a =? d)) l.

Definition replace_student (s : Student) (l : list Student) : list Student :=
  map (fun s0 => if st_id s0 =? st_id s then s else s0) l.

Definition replace_attendance (a : Attendance) (l : list Attendance) : list Attendance :=
  map (fun a0 => if att_id a0 =? att_id a then a else a0) l.

Definition find_student (i : Z) (l : list Student) : option Student :=
  find (fun s => st_id s =? i) l.

Definition find_attendance (i : Z) (l : list Attendance) : option Attendance :=
  find (fun a => att_id a =? i) l.

(** One statement of a flush.  Foreign keys are not enforced (SQLite's
    default), uniqueness is. *)
Definition flush_op (op : pending_op) : SM unit :=
  fun s =>
    let t := view s in
    match op with
    | NewStudent r n e k c =>
        let i := next_rowid (map st_id (students t)) in
        if roll_no_taken i r (students t) then (Raise IntegrityError, s)
        else
          let row := mkStudent i r n e k c None in
          (Ok tt, {| view := mkTables (students t ++ [row]) (attendance t);
                     pending := pending s; durable := durable s;
                     log := log s ++ [INSERT_student row] |})
    | NewAttendance sid d st =>
        let i := next_rowid (map att_id (attendance t)) in
        if student_day_taken i sid d (attendance t) then (Raise IntegrityError, s)
        else
          let row := mkAttendance i sid d st None in
          (Ok tt, {| view := mkTables (students t) (attendance t ++ [row]);
                     pending := pending s; durable := durable s;
                     log := log s ++ [INSERT_attendance row] |})
    | DirtyStudent row =>
        match find_student (st_id row) (students t) with
        | None => (Ok tt, s)
        | Some old =>
            if Student_eq_dec old row then (Ok tt, s)
            else if roll_no_taken (st_id row) (roll_no row) (students t)
            then (Raise IntegrityError, s)
            else
              (Ok tt, {| view := mkTables (replace_student row (students t)) (attendance t);
                         pending := pending s; durable := durable s;
                         log := log s ++ [UPDATE_student row] |})
        end
    | DirtyAttendance row =>
        match find_attendance (att_id row) (attendance t) with
        | None => (Ok tt, s)
        | Some old =>
            if Attendance_eq_dec old row then (Ok tt, s)
            else if student_day_taken (att_id row) (student_id row) (day row) (attendance t)
            then (Raise IntegrityError, s)
            else
              (Ok tt, {| view := mkTables (students t) (replace_attendance row (attendance t));
                         pending := pending s; durable := durable s;
                         log := log s ++ [UPDATE_attendance row] |})
        end
    end.

Fixpoint flush_ops (ops : list pending_op) : SM unit :=
  match ops with
  | [] => ret tt
  | op :: ops' => flush_op op ;;; flush_ops ops'
  end.

Definition clear_pending : SM unit :=
  fun s => (Ok tt, {| view := view s; pending := []; durable := durable s;
                      log := log s |}).

(** [session.flush()]: the unit of work is written out; it happens
    before every query (autoflush) and at commit. *)
Definition flush : SM unit :=
  fun s => (flush_ops (pending s) ;;; clear_pending) s.

(** [session.add(obj)] and attribute assignment on a loaded object. *)
Definition add (op : pending_op) : SM unit :=
  fun s => (Ok tt, {| view := view s; pending := pending s ++ [op];
                      durable := durable s; log := log s |}).

(** [session.commit()] *)
Definition commit : SM unit :=
  flush ;;;
  (fun s => (Ok tt, {| view := view s; pending := pending s;
                       durable := view s; log := log s ++ [COMMIT] |})).

(** [Query.one_or_none()] *)
Definition one_or_none {A} (rows : list A) : SM (option A) :=
  match rows with
  | [] => ret None
  | [r] => ret (Some r)
  | _ => raise MultipleResultsFound
  end.

(** [session.query(Student).all()] *)
Definition query_students_all : SM (list Student) :=
  flush ;;; (fun s => (Ok (students (view s)), s)).

(** [session.query(Attendance).filter_by(student_id=sid, day=d)] *)
Definition attendance_of (sid : Z) (d : date) (l : list Attendance) : list Attendance :=
  filter (fun a => (student_id a =? sid) && (day a =? d)) l.

Definition query_attendance_by_student_day (sid : Z) (d : date) : SM (list Attendance) :=
  flush ;;; (fun s => (Ok (attendance_of sid d (attendance (view s))), s)).

(** The body of the [for] loop of [ensure_day_rows]. *)
Definition ensure_day_row (the_day : date) (s : Student) : SM unit :=
  rows <- query_attendance_by_student_day (st_id s) the_day ;;
  exists_ <- one_or_none rows ;;
  match exists_ with
  | Some _ => ret tt
  | None => add (NewAttendance (st_id s) the_day "Absent")
  end.

(** [ensure_day_rows(session, the_day)] *)
Definition ensure_day_rows (the_day : date) : SM unit :=
  students <- query_students_all ;;
  for_each (ensure_day_row the_day) students ;;;
  commit.

End Models.

(** ** face_utils.py: capture, training and recognition *)

Module FaceUtils.

(** [x < y] on floats that are numbers. *)
Definition Qltb (x y : Q) : bool :=
  match (x ?= y)%Q with Lt => true | _ => false end.

Section Engine.

(** A grayscale face crop, resized to 200x200. *)
Variable image : Type.

(** The state of the LBPH recognizer after [train]: it is determined
    by the training set. *)
Record trained : Type := mkTrained {
  train_images : list image;
  train_labels : list Z
}.

(** [RECOGNIZER.predict(roi)]: a label and a confidence. *)
Variable predict : trained -> image -> Z * Q.

(** [FACES_DIR], an absolute path fixed when the module is loaded. *)
Variable FACES_DIR : string.

(** A file of a student directory, with what [cv2.imread] makes of it
    ([None] when it is not a readable image). *)
Record file : Type := mkFile {
  fname : string;
  imread : option image
}.

(** An entry of [os.listdir(FACES_DIR)]. *)
Inductive dirent : Type :=
| RegularFile (n : string)
| Directory (n : string) (files : list file).

Definition dirent_name (e : dirent) : string :=
  match e with RegularFile n => n | Directory n _ => n end.

(** What the engine does to the outside world. *)
Inductive io : Type :=
| MAKEDIRS (folder : string)
| IMWRITE (filepath : string)
| TRAIN
| SAVE_MODEL
| READ_MODEL.

Record Engine : Type := mkEngine {
  faces_dir : list dirent;       (* the content of FACES_DIR *)
  model_file : option trained;   (* the content of MODEL_PATH, if it exists *)
  RECOGNIZER : option trained;   (* the global recognizer; None: untrained *)
  io_log : list io               (* oldest first *)
}.

(** A frame read from the camera: the crops of the faces the cascade
    finds in it, in the order it reports them, and the key code
    [cv2.waitKey(1)] returns once the frame is shown. *)
Record frame : Type := mkFrame {
  faces : list image;
  key : Z
}.

Definition EM (A : Type) : Type := M Engine A.

Local Open Scope py_scope.

(** [cv2.waitKey(1) & 0xFF == ord('q')] *)
Definition q_pressed (k : Z) : bool := Z.land k 255 =? 113.

(** [os.makedirs(folder, exist_ok=True)] for a child of FACES_DIR. *)
Definition makedirs (folder_name : string) : EM unit :=
  fun e =>
    match find (fun d => String.eqb (dirent_name d) folder_name) (faces_dir e) with
    | Some (Directory _ _) => (Ok tt, e)
    | Some (RegularFile _) => (Raise FileExistsError, e)
    | None =>
        (Ok tt, {| faces_dir := faces_dir e ++ [Directory folder_name []];
                   model_file := model_file e; RECOGNIZER := RECOGNIZER e;
                   io_log := io_log e ++ [MAKEDIRS (path_join FACES_DIR folder_name)] |})
    end.

Fixpoint put_file (f : file) (files : list file) : list file :=
  match files with
  | [] => [f]
  | g :: rest => if String.eqb (fname g) (fname f) then f :: rest
                 else g :: put_file f rest
  end.

(** [cv2.imwrite(filepath, roi)] with [filepath] in a student folder. *)
Definition imwrite (folder_name file_name : string) (roi : image) : EM unit :=
  fun e =>
    (Ok tt,
     {| faces_dir :=
          map (fun d => match d with
                        | Directory n files =>
                            if String.eqb n folder_name
                            then Directory n (put_file (mkFile file_name (Some roi)) files)
                            else d
                        | RegularFile _ => d
                        end) (faces_dir e);
        model_file := model_file e; RECOGNIZER := RECOGNIZER e;
        io_log := io_log e ++ [IMWRITE (path_join (path_join FACES_DIR folder_name) file_name)] |}).

(** The [for (x, y, w, h) in faces] loop of [capture_samples]; it
    returns the new [count] and [preview_path]. *)
Fixpoint save_faces (student_id : Z) (rois : list image)
         (count : Z) (preview_path : option string) : EM (Z * option string) :=
  match rois with
  | [] => ret (count, preview_path)
  | roi :: rest =>
      let folder := path_join FACES_DIR (str student_id) in
      let file_name := str student_id ++ "_" ++ zfill_d 3 count ++ ".png" in
      let filepath := path_join folder file_name in
      imwrite (str student_id) file_name roi ;;;
      save_faces student_id rest (count + 1) (Some filepath)
  end.

(** The [while count < samples] loop of [capture_samples]. *)
Fixpoint capture_loop (student_id samples : Z) (cam : list frame)
         (count : Z) (preview_path : option string) : EM (option string) :=
  match cam with
  | [] => ret preview_path
  | fr :: cam' =>
      if count <? samples then
        r <- save_faces student_id (faces fr) count preview_path ;;
        if q_pressed (key fr) then ret (snd r)
        else capture_loop student_id samples cam' (fst r) (snd r)
      else ret preview_path
  end.

(** [capture_samples(student_id, samples)] in front of camera [cam]. *)
Definition capture_samples (student_id samples : Z) (cam : list frame) : EM string :=
  makedirs (str student_id) ;;;
  preview_path <- capture_loop student_id samples cam 0 None ;;
  ret (match preview_path with Some p => p | None => "" end).

(** [f.lower().endswith((".png", ".jpg", ".jpeg"))] *)
Definition has_image_suffix (f : string) : bool :=
  let l := lower f in
  endswith l ".png" || endswith l ".jpg" || endswith l ".jpeg".

(** The inner loop of [_load_dataset], over the files of folder [sid]. *)
Fixpoint load_files (sid : string) (files : list file)
         (images : list image) (labels : list Z) : result (list image * list Z) :=
  match files with
  | [] => Ok (images, labels)
  | f :: rest =>
      if has_image_suffix (fname f) then
        match imread f with
        | None => load_files sid rest images labels
        | Some img =>
            match int sid with
            | None => Raise ValueError
            | Some l => load_files sid rest (images ++ [img]) (labels ++ [l])
            end
        end
      else load_files sid rest images labels
  end.

(** The outer loop of [_load_dataset]. *)
Fixpoint load_entries (entries : list dirent)
         (images : list image) (labels : list Z) : result (list image * list Z) :=
  match entries with
  | [] => Ok (images, labels)
  | RegularFile _ :: rest => load_entries rest images labels
  | Directory sid files :: rest =>
      match load_files sid files images labels with
      | Ok (images', labels') => load_entries rest images' labels'
      | Raise x => Raise x
      end
  end.

(** [_load_dataset()] *)
Definition _load_dataset (e : Engine) : result (list image * list Z) :=
  load_entries (faces_dir e) [] [].

(** [train_or_update_model()] *)
Definition train_or_update_model : EM bool :=
  fun e =>
    match _load_dataset e with
    | Raise x => (Raise x, e)
    | Ok ([], _) => (Ok false, e)
    | Ok (images, labels) =>
        let m := mkTrained images labels in
        (Ok true, {| faces_dir := faces_dir e; model_file := Some m;
                     RECOGNIZER := Some m;
                     io_log := io_log e ++ [TRAIN; SAVE_MODEL] |})
    end.

(** [ensure_model_loaded()] *)
Definition ensure_model_loaded : EM bool :=
  fun e =>
    match model_file e with
    | None => (Ok false, e)
    | Some m =>
        (Ok true, {| faces_dir := faces_dir e; model_file := model_file e;
                     RECOGNIZER := Some m; io_log := io_log e ++ [READ_MODEL] |})
    end.

(** The colour of the box drawn around a face, as (B, G, R). *)
Definition box_color (confidence threshold : Q) : Z * Z * Z :=
  if Qltb confidence threshold then (0, 255, 0) else (0, 0, 255).

(** The [for (x, y, w, h) in faces] loop of [recognize_once]; it
    returns the new [predicted] and [best_conf]. *)
Fixpoint scan_faces (m : trained) (threshold : Q) (rois : list image)
         (predicted : option Z) (best_conf : Q) : option Z * Q :=
  match rois with
  | [] => (predicted, best_conf)
  | roi :: rest =>
      let (label, confidence) := predict m roi in
      if Qltb confidence best_conf && Qltb confidence threshold
      then scan_faces m threshold rest (Some label) confidence
      else scan_faces m threshold rest predicted best_conf
  end.

(** The [while True] loop of [recognize_once]. *)
Fixpoint recognize_loop (m : trained) (threshold : Q) (cam : list frame)
         (predicted : option Z) (best_conf : Q) : option Z :=
  match cam with
  | [] => predicted
  | fr :: cam' =>
      let (predicted', best_conf') :=
        scan_faces m threshold (faces fr) predicted best_conf in
      if q_pressed (key fr) then predicted'
      else recognize_loop m threshold cam' predicted' best_conf'
  end.

(** [recognize_once(threshold)] in front of camera [cam]. *)
Definition recognize_once (threshold : Q) (cam : list frame) : EM (option Z) :=
  loaded <- ensure_model_loaded ;;
  usable <- (if loaded then ret true else train_or_update_model) ;;
  if negb usable then ret None
  else
    e <- get ;;
    match RECOGNIZER e with
    | None => raise CvError
    | Some m => ret (recognize_loop m threshold cam None (999 # 1))
    end.

End Engine.

Arguments mkTrained {image} _ _.
Arguments train_images {image} _.
Arguments train_labels {image} _.
Arguments mkFile {image} _ _.
Arguments fname {image} _.
Arguments imread {image} _.
Arguments RegularFile {image} _.
Arguments Directory {image} _ _.
Arguments mkEngine {image} _ _ _ _.
Arguments faces_dir {image} _.
Arguments model_file {image} _.
Arguments RECOGNIZER {image} _.
Arguments io_log {image} _.
Arguments mkFrame {image} _ _.
Arguments faces {image} _.
Arguments key {image} _.
Arguments capture_samples {image} _ _ _ _.
Arguments train_or_update_model {image}.
Arguments ensure_model_loaded {image}.
Arguments recognize_once {image} _ _ _.
Arguments recognize_loop {image} _ _ _ _ _ _.
Arguments _load_dataset {image} _.

End FaceUtils.


(** ** app.py: the routes

    Authentication is left out: every handler below is the body that
    runs once [login_required] has let the request through.  The [users]
    table, which no handler below touches, is left out with it. *)

Module App.

Import Models FaceUtils.

(** [APP_TZ = ZoneInfo("Asia/Kolkata")]: UTC+05:30, without daylight
    saving time. *)
Definition APP_TZ_utcoffset : Z := 19800 * 1000000.

(** [datetime.now(APP_TZ)] when the system clock reads [utc]
    microseconds: the wall clock of the zone. *)
Definition datetime_now (utc : Z) : datetime := utc + APP_TZ_utcoffset.

(** Values handed to [jsonify], to a template or to a data frame. *)
#[local] Unset Elimination Schemes.
Inductive value : Type :=
| VNone
| VBool (b : bool)
| VInt (z : Z)
| VStr (s : string)
| VDate (d : date)
| VList (l : list value)
| VDict (l : list (string * value)).
#[local] Set Elimination Schemes.

Definition VOptStr (o : option string) : value :=
  match o with Some s => VStr s | None => VNone end.

(** Files written under [EXPORTS_DIR]. *)
Inductive export : Type :=
| students_xlsx
| attendance_xlsx (d : date)
| attendance_pdf (d : date).

Inductive response : Type :=
| render_template (template : string) (context : list (string * value))
| redirect (endpoint : string)
| jsonify (body : value) (status_code : Z)
| send_file (path : export) (rows : list value).

Record request : Type := mkRequest {
  method : string;
  form : list (string * string);
  args : list (string * string)
}.

(** [d.get(k)] *)
Fixpoint dict_get (k : string) (d : list (string * string)) : option string :=
  match d with
  | [] => None
  | (k', v) :: d' => if String.eqb k' k then Some v else dict_get k d'
  end.

(** [d.get(k, '')] *)
Definition dict_get_default (k : string) (d : list (string * string)) : string :=
  match dict_get k d with Some v => v | None => "" end.

(** [ORDER BY students.roll_no] (binary collation), as an insertion
    sort on the key [roll]. *)
Fixpoint insert_by_roll_no {A} (roll : A -> string) (x : A) (l : list A) : list A :=
  match l with
  | [] => [x]
  | y :: l' => if String.leb (roll x) (roll y) then x :: l
               else y :: insert_by_roll_no roll x l'
  end.

Definition order_by_roll_no {A} (roll : A -> string) (l : list A) : list A :=
  fold_right (insert_by_roll_no roll) [] l.

(** [query(Attendance, Student).join(Student, Attendance.student_id ==
    Student.id).filter(Attendance.day == d)] *)
Definition attendance_join (d : date) (t : Tables) : list (Attendance * Student) :=
  flat_map (fun a =>
              if day a =? d
              then map (fun s => (a, s))
                       (filter (fun s => st_id s =? student_id a) (students t))
              else [])
           (attendance t).

(** The query all the attendance listings share. *)
Definition query_attendance_of_day (d : date) : SM (list (Attendance * Student)) :=
  (flush ;;; (fun s => (Ok (order_by_roll_no (fun r => roll_no (snd r))
                            (attendance_join d (view s))), s)))%py.

(** [att.timestamp.strftime('%H:%M:%S') if att.timestamp else ''] *)
Definition timestamp_text (a : Attendance) : string :=
  match timestamp a with Some t => strftime_HMS t | None => "" end.

Definition listing_row (k_roll k_name k_status k_time : string)
           (r : Attendance * Student) : value :=
  VDict [(k_roll, VStr (roll_no (snd r))); (k_name, VStr (name (snd r)));
         (k_status, VStr (status (fst r))); (k_time, VStr (timestamp_text (fst r)))].

Definition is_present (v : value) : bool :=
  match v with
  | VDict (_ :: _ :: (_, VStr st) :: _) => String.eqb st "Present"
  | _ => false
  end.

Section Routes.

Variable image : Type.
Variable predict : trained image -> image -> Z * Q.
Variable FACES_DIR : string.
(** [datetime.strptime(s, '%Y-%m-%d').date()]; [None]: [ValueError]. *)
Variable strptime_date : string -> option date.

(** The process and its files. *)
Record World : Type := mkWorld {
  db : Tables;                      (* attendance.db *)
  engine : Engine image;            (* faces, model file, recognizer *)
  flashes : list (string * string); (* flashed (message, category) *)
  sql_log : list sql                (* statements sent to the database *)
}.

(** Inside [with SessionLocal() as s:]. *)
Definition HM (A : Type) : Type := M (Session * World) A.
Definition WM (A : Type) : Type := M World A.

Local Open Scope py_scope.

Definition in_session {A} (m : SM A) : HM A :=
  fun h => let (r, s') := m (fst h) in (r, (s', snd h)).

Definition in_world {A} (m : WM A) : HM A :=
  fun h => let (r, w') := m (snd h) in (r, (fst h, w')).

Definition in_engine {A} (m : EM image A) : WM A :=
  fun w => let (r, e') := m (engine w) in
           (r, {| db := db w; engine := e'; flashes := flashes w;
                  sql_log := sql_log w |}).

Definition flash (message category : string) : WM unit :=
  fun w => (Ok tt, {| db := db w; engine := engine w;
                      flashes := flashes w ++ [(message, category)];
                      sql_log := sql_log w |}).

(** [with SessionLocal() as s: body]: whatever the body committed is
    in the database afterwards, the rest is rolled back. *)
Definition with_SessionLocal {A} (body : HM A) : WM A :=
  fun w =>
    let (r, h) := body (SessionLocal (db w), w) in
    (r, {| db := durable (fst h); engine := engine (snd h);
           flashes := flashes (snd h);
           sql_log := sql_log (snd h) ++ log (fst h) |}).

(** [request.form[k].strip()] *)
Definition form_strip {S} (req : request) (k : string) : M S string :=
  match dict_get k (form req) with
  | Some v => ret (strip v)
  | None => raise BadRequestKeyError
  end.

(** [request.form.get(k, '').strip()] *)
Definition form_get_strip (req : request) (k : string) : string :=
  strip (dict_get_default k (form req)).

(** Route [/]. *)
Definition dashboard (utc : Z) : WM response :=
  let today := date_of (datetime_now utc) in
  r <- with_SessionLocal
         (in_session (ensure_day_rows today) ;;;
          in_session (flush ;;; (fun s =>
            (Ok (Z.of_nat (List.length (students (view s))),
                 Z.of_nat (List.length
                   (filter (fun a => (day a =? today) && String.eqb (status a) "Present")
                           (attendance (view s))))), s)))) ;;
  ret (render_template "dashboard.html"
         [("total", VInt (fst r)); ("present", VInt (snd r)); ("day", VDate today)]).

(** Route [/register]. *)
Definition register (req : request) (cam : list (frame image)) : WM response :=
  if String.eqb (method req) "POST" then
    roll_no <- form_strip req "roll_no" ;;
    name <- form_strip req "name" ;;
    let email := form_get_strip req "email" in
    let klass := form_get_strip req "klass" in
    let section := form_get_strip req "section" in
    with_SessionLocal
      (rows <- in_session (flush ;;; (fun s =>
                 (Ok (filter (fun st => String.eqb (Models.roll_no st) roll_no)
                             (students (view s))), s))) ;;
       exists_ <- in_session (one_or_none rows) ;;
       match exists_ with
       | Some _ =>
           in_world (flash "Roll No already exists" "warning") ;;;
           ret (redirect "register")
       | None =>
           in_session (add (NewStudent roll_no name (Some email) (Some klass) (Some section))) ;;;
           in_session commit ;;;
           h <- get ;;
           (* [st] now stands for the row just inserted, the last of its table *)
           let st := last (students (view (fst h)))
                          (mkStudent 0 roll_no name (Some email) (Some klass) (Some section) None) in
           preview <- in_world (in_engine (capture_samples FACES_DIR (st_id st) 20 cam)) ;;
           (if String.eqb preview "" then ret tt
            else
              in_session (add (DirtyStudent
                (mkStudent (st_id st) (Models.roll_no st) (Models.name st) (Models.email st)
                           (Models.klass st) (Models.section st) (Some preview)))) ;;;
              in_session commit) ;;;
           trained <- in_world (in_engine train_or_update_model) ;;
           in_world (flash (if (trained : bool) then "Student registered and model updated"
                            else "Student registered (insufficient data to train yet)")
                           "success") ;;;
           ret (redirect "students")
       end)
  else ret (render_template "register.html" []).

Definition value_of_student (st : Student) : value :=
  VDict [("id", VInt (st_id st)); ("roll_no", VStr (roll_no st)); ("name", VStr (name st));
         ("email", VOptStr (email st)); ("klass", VOptStr (klass st));
         ("section", VOptStr (section st)); ("image_path", VOptStr (image_path st))].

(** Route [/student/<sid>/edit]. *)
Definition student_edit (sid : Z) (req : request) (cam : list (frame image)) : WM response :=
  with_SessionLocal
    (h <- get ;;
     match find_student sid (students (view (fst h))) with
     | None =>
         in_world (flash "Student not found" "danger") ;;;
         ret (redirect "students")
     | Some st =>
         if String.eqb (method req) "POST" then
           roll_no <- form_strip req "roll_no" ;;
           name <- form_strip req "name" ;;
           let email := form_get_strip req "email" in
           let klass := form_get_strip req "klass" in
           let section := form_get_strip req "section" in
           image_path <-
             (match dict_get "recapture" (form req) with
              | Some "on" =>
                  preview <- in_world (in_engine (capture_samples FACES_DIR (st_id st) 15 cam)) ;;
                  ret (if String.eqb preview "" then Models.image_path st else Some preview)
              | _ => ret (Models.image_path st)
              end) ;;
           (* the assignments above made [st] dirty; nothing has read
              the database since: they are flushed by the commit *)
           in_session (add (DirtyStudent
             (mkStudent (st_id st) roll_no name (Some email) (Some klass) (Some section)
                        image_path))) ;;;
           in_session commit ;;;
           in_world (in_engine train_or_update_model) ;;;
           in_world (flash "Student updated" "success") ;;;
           ret (redirect "students")
         else ret (render_template "student_edit.html" [("st", value_of_student st)])
     end).

(** Route [/attendance]. *)
Definition attendance_page (utc : Z) : WM response :=
  let today := date_of (datetime_now utc) in
  rows <- with_SessionLocal
            (in_session (ensure_day_rows today) ;;;
             in_session (query_attendance_of_day today)) ;;
  ret (render_template "attendance.html"
         [("today", VDate today);
          ("table", VList (map (listing_row "roll_no" "name" "status" "timestamp") rows))]).

(** Route [/api/mark_attendance]; the clock is read twice. *)
Definition api_mark_attendance (cam : list (frame image)) (utc1 utc2 : Z) : WM response :=
  sid <- in_engine (recognize_once predict (70 # 1) cam) ;;
  match sid with
  | None =>
      ret (jsonify (VDict [("ok", VBool false); ("msg", VStr "No confident face match")]) 400)
  | Some sid =>
      let today := date_of (datetime_now utc1) in
      let now := datetime_now utc2 in
      with_SessionLocal
        (rows <- in_session (query_attendance_by_student_day sid today) ;;
         found <- in_session (one_or_none rows) ;;
         att <- (match found with
                 | Some a => ret a
                 | None =>
                     in_session (add (NewAttendance sid today "Absent")) ;;;
                     in_session commit ;;;
                     h <- get ;;
                     (* the row just inserted, the last of its table *)
                     ret (last (attendance (view (fst h)))
                               (mkAttendance 0 sid today "Absent" None))
                 end) ;;
         in_session (add (DirtyAttendance
           (mkAttendance (att_id att) (student_id att) (day att) "Present" (Some now)))) ;;;
         in_session commit ;;;
         h <- get ;;
         match find_student sid (students (view (fst h))) with
         | None => raise AttributeError
         | Some stu =>
             ret (jsonify (VDict [("ok", VBool true); ("roll_no", VStr (roll_no stu));
                                  ("name", VStr (name stu));
                                  ("time", VStr (strftime_HMS now))]) 200)
         end)
  end.

(** Route [/api/attendance_today]. *)
Definition api_attendance_today (utc : Z) : WM response :=
  let today := date_of (datetime_now utc) in
  rows <- with_SessionLocal (in_session (query_attendance_of_day today)) ;;
  let data := map (listing_row "Roll No" "Name" "Status" "Timestamp") rows in
  let present := Z.of_nat (List.length (filter is_present data)) in
  let total := Z.of_nat (List.length data) in
  ret (jsonify (VDict [("total", VInt total); ("present", VInt present);
                       ("absent", VInt (total - present)); ("rows", VList data)]) 200).

(** [_download_attendance_for_date(d)] *)
Definition _download_attendance_for_date (d : date) : WM response :=
  rows <- with_SessionLocal (in_session (query_attendance_of_day d)) ;;
  ret (send_file (attendance_xlsx d)
         (map (listing_row "Roll No" "Name" "Status" "Timestamp") rows)).

(** Route [/download_attendance]. *)
Definition download_attendance_today (utc : Z) : WM response :=
  _download_attendance_for_date (date_of (datetime_now utc)).

(** Route [/download_attendance_by_date]. *)
Definition download_attendance_by_date (req : request) : WM response :=
  match dict_get "date" (args req) with
  | None => raise TypeError
  | Some dstr =>
      match strptime_date dstr with
      | None => raise ValueError
      | Some d => _download_attendance_for_date d
      end
  end.

(** Route [/download_attendance_pdf]: the rows drawn, in order; their
    layout on pages is left out. *)
Definition download_attendance_pdf (req : request) (utc : Z) : WM response :=
  d <- (match dict_get "date" (args req) with
        | None | Some "" => ret (date_of (datetime_now utc))
        | Some dstr =>
            match strptime_date dstr with
            | None => raise ValueError
            | Some d => ret d
            end
        end) ;;
  rows <- with_SessionLocal (in_session (query_attendance_of_day d)) ;;
  ret (send_file (attendance_pdf d)
         (map (fun r : Attendance * Student =>
                 VList [VStr (roll_no (snd r)); VStr (name (snd r));
                        VStr (status (fst r)); VStr (timestamp_text (fst r))]) rows)).

(** Route [/students]. *)
Definition students_page : WM response :=
  rows <- with_SessionLocal
            (in_session (flush ;;; (fun s =>
               (Ok (order_by_roll_no roll_no (students (view s))), s)))) ;;
  ret (render_template "students.html" [("rows", VList (map value_of_student rows))]).

(** Route [/download_students]. *)
Definition download_students : WM response :=
  rows <- with_SessionLocal
            (in_session (flush ;;; (fun s =>
               (Ok (order_by_roll_no roll_no (students (view s))), s)))) ;;
  ret (send_file students_xlsx
         (map (fun r => VDict [("Roll No", VStr (roll_no r)); ("Name", VStr (name r));
                               ("Email", VOptStr (email r)); ("Class", VOptStr (klass r));
                               ("Section", VOptStr (section r))]) rows)).

End Routes.

Arguments mkWorld {image} _ _ _ _.
Arguments sql_log {image} _.
Arguments db {image} _.
Arguments engine {image} _.
Arguments flashes {image} _.
Arguments with_SessionLocal {image A} _ _.
Arguments in_session {image A} _ _.
Arguments in_world {image A} _ _.
Arguments in_engine {image A} _ _.
Arguments flash {image} _ _ _.
Arguments dashboard {image} _ _.
Arguments register {image} _ _ _ _.
Arguments student_edit {image} _ _ _ _ _.
Arguments attendance_page {image} _ _.
Arguments api_mark_attendance {image} _ _ _ _ _.
Arguments api_attendance_today {image} _ _.
Arguments _download_attendance_for_date {image} _ _.
Arguments download_attendance_today {image} _ _.
Arguments download_attendance_by_date {image} _ _ _.
Arguments download_attendance_pdf {image} _ _ _ _.
Arguments students_page {image} _.
Arguments download_students {image} _.

End App.

Import Models FaceUtils App.
Local Open Scope py_scope.
Local Open Scope list_scope.

(** * Properties *)

(** ** The monad *)

Lemma bind_Ok {S A B} (m : M S A) (f : A -> M S B) s a s' :
  m s = (Ok a, s') -> bind m f s = f a s'.
Proof. intros H. unfold bind. now rewrite H. Qed.

(** ** The schema's constraints *)

Definition student_day (a : Attendance) : Z * date := (student_id a, day a).

(** Primary keys and UNIQUE constraints of the two tables. *)
Record wf_tables (t : Tables) : Prop := {
  wf_student_pk : NoDup (map st_id (students t));
  wf_roll_no : NoDup (map roll_no (students t));
  wf_attendance_pk : NoDup (map att_id (attendance t));
  wf_student_day : NoDup (map student_day (attendance t))
}.

Section DayRows.

Variable the_day : date.

(** The row [ensure_day_rows] adds for student [x] to the rows [att]. *)
Definition absent_row (x : Student) (att : list Attendance) : Attendance :=
  mkAttendance (next_rowid (map att_id att)) (st_id x) the_day "Absent" None.

(** The rows missing for the students [studs], in the order the loop
    meets them. *)
Fixpoint missing_rows (studs : list Student) (att : list Attendance) : list Attendance :=
  match studs with
  | [] => []
  | x :: rest =>
      match attendance_of (st_id x) the_day att with
      | [] => absent_row x att :: missing_rows rest (att ++ [absent_row x att])
      | _ => missing_rows rest att
      end
  end.

Lemma attendance_of_app sid d l1 l2 :
  attendance_of sid d (l1 ++ l2) = attendance_of sid d l1 ++ attendance_of sid d l2.
Proof. apply filter_app. Qed.

Lemma attendance_of_In sid d l a :
  In a (attendance_of sid d l) <-> In a l /\ student_day a = (sid, d).
Proof.
  unfold attendance_of, student_day. rewrite filter_In.
  rewrite andb_true_iff, !Z.eqb_eq. intuition congruence.
Qed.

Lemma attendance_of_nil sid d l :
  attendance_of sid d l = [] <-> ~ In (sid, d) (map student_day l).
Proof.
  split.
  - intros H Hin. apply in_map_iff in Hin as [a [Ha Hin]].
    assert (In a (attendance_of sid d l)) by (apply attendance_of_In; auto).
    rewrite H in H0. contradiction.
  - intros H. destruct (attendance_of sid d l) as [|a r] eqn:E; [reflexivity|].
    exfalso. apply H.
    assert (In a (attendance_of sid d l)) by (rewrite E; now left).
    apply attendance_of_In in H0 as [Hin Hk]. rewrite <- Hk. now apply in_map.
Qed.

(** Under [uq_student_day] a (student, day) query finds one row at most. *)
Lemma attendance_of_unique sid d l :
  NoDup (map student_day l) -> (List.length (attendance_of sid d l) <= 1)%nat.
Proof.
  induction l as [|a l IH]; intros Hnd; [simpl; lia|].
  cbn [map] in Hnd. inversion Hnd as [|k ks Hnotin Hnd']; subst.
  change (attendance_of sid d (a :: l))
    with (if (student_id a =? sid) && (day a =? d)
          then a :: attendance_of sid d l else attendance_of sid d l).
  destruct ((student_id a =? sid) && (day a =? d)) eqn:E.
  - apply andb_true_iff in E as [E1 E2]. apply Z.eqb_eq in E1, E2.
    assert (Hnil : attendance_of sid d l = []).
    { apply attendance_of_nil. unfold student_day in Hnotin at 1.
      now rewrite E1, E2 in Hnotin. }
    rewrite Hnil. simpl. lia.
  - now apply IH.
Qed.

Lemma student_day_taken_false i sid d l :
  attendance_of sid d l = [] -> student_day_taken i sid d l = false.
Proof.
  intros H. unfold student_day_taken.
  destruct (existsb _ l) eqn:E; [|reflexivity].
  apply existsb_exists in E as [a [Hin Ha]].
  apply andb_true_iff in Ha as [Ha Hd]. apply andb_true_iff in Ha as [_ Hs].
  assert (In a (attendance_of sid d l)).
  { apply attendance_of_In. split; [assumption|]. unfold student_day.
    apply Z.eqb_eq in Hs, Hd. congruence. }
  rewrite H in H0. contradiction.
Qed.

End DayRows.

Section DayRowsSession.

Variable the_day : date.

Definition lacks_row (att : list Attendance) (x : Student) : bool :=
  match attendance_of (st_id x) the_day att with [] => true | _ => false end.

Lemma missing_rows_cons x rest att :
  missing_rows the_day (x :: rest) att =
  missing_rows the_day [x] att
    ++ missing_rows the_day rest (att ++ missing_rows the_day [x] att).
Proof.
  cbn [missing_rows]. destruct (attendance_of (st_id x) the_day att).
  - reflexivity.
  - now rewrite app_nil_r.
Qed.

Lemma missing_rows_one_keeps_unique x att :
  NoDup (map student_day att) ->
  NoDup (map student_day (att ++ missing_rows the_day [x] att)).
Proof.
  intros Hnd. cbn [missing_rows].
  destruct (attendance_of (st_id x) the_day att) eqn:E.
  - rewrite map_app. cbn [map]. apply NoDup_app; [assumption| |].
    + constructor; [intros []|constructor].
    + intros k Hin [Hk|[]]. subst k.
      apply attendance_of_nil in E. now apply E.
  - now rewrite app_nil_r.
Qed.

Lemma missing_rows_keep_unique studs : forall att,
  NoDup (map student_day att) ->
  NoDup (map student_day (att ++ missing_rows the_day studs att)).
Proof.
  induction studs as [|x rest IH]; intros att Hnd.
  - cbn [missing_rows]. now rewrite app_nil_r.
  - rewrite missing_rows_cons, app_assoc.
    apply IH. now apply missing_rows_one_keeps_unique.
Qed.

(** Every added row is a default one: this day, [Absent], no timestamp. *)
Lemma missing_rows_absent studs : forall att a,
  In a (missing_rows the_day studs att) ->
  day a = the_day /\ status a = "Absent" /\ timestamp a = None.
Proof.
  induction studs as [|x rest IH]; intros att a Hin; [contradiction|].
  cbn [missing_rows] in Hin.
  destruct (attendance_of (st_id x) the_day att).
  - destruct Hin as [<-|Hin]; [now cbn|]. now apply IH in Hin.
  - now apply IH in Hin.
Qed.

(** A row is added exactly for the students that lack one. *)
Lemma missing_rows_students studs : forall att,
  NoDup (map st_id studs) ->
  map student_id (missing_rows the_day studs att) =
  map st_id (filter (lacks_row att) studs).
Proof.
  induction studs as [|x rest IH]; intros att Hnd; [reflexivity|].
  cbn [map] in Hnd. inversion Hnd as [|i is_ Hnotin Hnd']; subst.
  cbn [missing_rows filter]. unfold lacks_row at 1.
  destruct (attendance_of (st_id x) the_day att) eqn:E.
  - cbn [map]. f_equal. rewrite IH by assumption. f_equal.
    apply filter_ext_in. intros y Hy. unfold lacks_row.
    rewrite attendance_of_app.
    replace (attendance_of (st_id y) the_day [absent_row the_day x att]) with (@nil Attendance);
      [now rewrite app_nil_r|].
    unfold attendance_of. cbn [filter absent_row student_id day].
    destruct (st_id x =? st_id y) eqn:Exy; [|reflexivity].
    apply Z.eqb_eq in Exy. exfalso. apply Hnotin. rewrite Exy. now apply in_map.
  - now apply IH.
Qed.

Lemma missing_rows_covers studs : forall att x,
  In x studs ->
  attendance_of (st_id x) the_day (att ++ missing_rows the_day studs att) <> [].
Proof.
  induction studs as [|y rest IH]; intros att x Hin; [contradiction|].
  rewrite missing_rows_cons, app_assoc. destruct Hin as [->|Hin].
  - rewrite !attendance_of_app. cbn [missing_rows].
    destruct (attendance_of (st_id x) the_day att) eqn:E.
    + cbn [app]. unfold attendance_of.
      cbn [filter absent_row student_id day].
      rewrite !Z.eqb_refl. cbn. discriminate.
    + cbn. discriminate.
  - now apply IH.
Qed.

(** After the routine every student has exactly one row for the day. *)
Lemma missing_rows_exactly_one studs att x :
  NoDup (map student_day att) -> In x studs ->
  List.length (attendance_of (st_id x) the_day
                 (att ++ missing_rows the_day studs att)) = 1%nat.
Proof.
  intros Hnd Hin.
  pose proof (attendance_of_unique (st_id x) the_day _
                (missing_rows_keep_unique studs att Hnd)) as Hle.
  pose proof (missing_rows_covers studs att x Hin) as Hne.
  destruct (attendance_of (st_id x) the_day (att ++ missing_rows the_day studs att));
    [contradiction|]. cbn in *. lia.
Qed.

(** Nothing is missing once everybody has a row. *)
Lemma missing_rows_none studs : forall att,
  (forall x, In x studs -> attendance_of (st_id x) the_day att <> []) ->
  missing_rows the_day studs att = [].
Proof.
  induction studs as [|x rest IH]; intros att H; [reflexivity|].
  cbn [missing_rows].
  destruct (attendance_of (st_id x) the_day att) eqn:E.
  - exfalso. apply (H x); [now left|assumption].
  - apply IH. intros y Hy. apply H. now right.
Qed.

Lemma flush_nil v dur lg :
  flush (mkSession v [] dur lg) = (Ok tt, mkSession v [] dur lg).
Proof. reflexivity. Qed.

Lemma flush_new_attendance v dur lg sid d st :
  attendance_of sid d (attendance v) = [] ->
  let row := mkAttendance (next_rowid (map att_id (attendance v))) sid d st None in
  flush (mkSession v [NewAttendance sid d st] dur lg) =
  (Ok tt, mkSession (mkTables (students v) (attendance v ++ [row])) [] dur
                    (lg ++ [INSERT_attendance row])).
Proof.
  intros H row. unfold flush. cbn [pending flush_ops].
  unfold bind, flush_op. cbn [view].
  rewrite (student_day_taken_false _ _ _ _ H). reflexivity.
Qed.

(** One turn of the loop, seen after the next flush. *)
Lemma ensure_day_row_settles x s v dur lg :
  flush s = (Ok tt, mkSession v [] dur lg) ->
  NoDup (map student_day (attendance v)) ->
  exists s',
    ensure_day_row the_day x s = (Ok tt, s') /\
    flush s' =
    (Ok tt, mkSession
              (mkTables (students v)
                        (attendance v ++ missing_rows the_day [x] (attendance v)))
              [] dur
              (lg ++ map INSERT_attendance (missing_rows the_day [x] (attendance v)))).
Proof.
  intros Hfl Hnd. unfold ensure_day_row, query_attendance_by_student_day.
  pose proof (attendance_of_unique (st_id x) the_day _ Hnd) as Hle.
  cbn [missing_rows].
  unfold bind at 1. unfold bind at 1. rewrite Hfl. cbn [view attendance].
  destruct (attendance_of (st_id x) the_day (attendance v)) as [|r [|r' rs]] eqn:E.
  - exists (mkSession v [NewAttendance (st_id x) the_day "Absent"] dur lg).
    split; [reflexivity|].
    now rewrite (flush_new_attendance v dur lg _ _ "Absent" E).
  - exists (mkSession v [] dur lg). split; [reflexivity|].
    cbn [map]. rewrite !app_nil_r. destruct v; reflexivity.
  - cbn in Hle. lia.
Qed.

Lemma for_each_ensure_day_row_settles studs : forall s v dur lg,
  flush s = (Ok tt, mkSession v [] dur lg) ->
  NoDup (map student_day (attendance v)) ->
  exists s',
    for_each (ensure_day_row the_day) studs s = (Ok tt, s') /\
    flush s' =
    (Ok tt, mkSession
              (mkTables (students v)
                        (attendance v ++ missing_rows the_day studs (attendance v)))
              [] dur
              (lg ++ map INSERT_attendance (missing_rows the_day studs (attendance v)))).
Proof.
  induction studs as [|x rest IH]; intros s v dur lg Hfl Hnd.
  - exists s. split; [reflexivity|]. cbn [missing_rows map].
    rewrite !app_nil_r. destruct v; exact Hfl.
  - destruct (ensure_day_row_settles x s v dur lg Hfl Hnd) as [s1 [H1 Hfl1]].
    destruct (IH s1 _ _ _ Hfl1) as [s2 [H2 Hfl2]].
    { cbn [attendance]. now apply missing_rows_one_keeps_unique. }
    exists s2. split.
    + cbn [for_each]. now rewrite (bind_Ok _ _ _ _ _ H1).
    + rewrite Hfl2. cbn [students attendance].
      rewrite (missing_rows_cons x rest), map_app, !app_assoc. reflexivity.
Qed.

End DayRowsSession.

(** The whole routine on a fresh session: the missing rows are inserted,
    then one commit makes them durable. *)
Lemma ensure_day_rows_run (d : date) (t : Tables) :
  NoDup (map student_day (attendance t)) ->
  let new := missing_rows d (students t) (attendance t) in
  let t' := mkTables (students t) (attendance t ++ new) in
  ensure_day_rows d (SessionLocal t) =
  (Ok tt, mkSession t' [] t' (map INSERT_attendance new ++ [COMMIT])).
Proof.
  intros Hnd new t'. unfold ensure_day_rows, query_students_all, SessionLocal.
  unfold bind at 1. unfold bind at 1. rewrite flush_nil. cbn [view].
  destruct (for_each_ensure_day_row_settles d (students t) _ t t [] (flush_nil t t []) Hnd)
    as [s' [Hrun Hfl]].
  rewrite (bind_Ok _ _ _ _ _ Hrun). unfold commit.
  rewrite (bind_Ok _ _ _ _ _ Hfl). reflexivity.
Qed.

(** C1: on a database that meets the schema's constraints,
    [ensure_day_rows d] returns without error, leaves exactly one
    attendance row of day [d] for every student, inserts an [Absent] row
    (no timestamp) for exactly the students that had none, and commits
    once, after the insertions.  A second call for the same day inserts
    nothing and returns without error. *)
Theorem ensure_day_rows_idempotent (d : date) (t : Tables) :
  wf_tables t ->
  exists new : list Attendance,
    let t' := mkTables (students t) (attendance t ++ new) in
    ensure_day_rows d (SessionLocal t) =
      (Ok tt, mkSession t' [] t' (map INSERT_attendance new ++ [COMMIT])) /\
    (forall x, In x (students t) ->
               List.length (attendance_of (st_id x) d (attendance t')) = 1%nat) /\
    map student_id new = map st_id (filter (lacks_row d (attendance t)) (students t)) /\
    (forall a, In a new -> day a = d /\ status a = "Absent" /\ timestamp a = None) /\
    ensure_day_rows d (SessionLocal t') = (Ok tt, mkSession t' [] t' [COMMIT]).
Proof.
  intros [Hpk _ _ Hsd].
  exists (missing_rows d (students t) (attendance t)). cbv zeta.
  split; [now apply ensure_day_rows_run|].
  split; [intros x Hx; cbn [attendance]; now apply missing_rows_exactly_one|].
  split; [now apply missing_rows_students|].
  split; [apply missing_rows_absent|].
  pose proof (missing_rows_keep_unique d (students t) (attendance t) Hsd) as Hsd'.
  rewrite ensure_day_rows_run by exact Hsd'.
  cbn [students attendance].
  rewrite (missing_rows_none d (students t)
             (attendance t ++ missing_rows d (students t) (attendance t))).
  - cbn [map app]. now rewrite app_nil_r.
  - intros x Hx. now apply missing_rows_covers.
Qed.

Definition db_two_students : Tables :=
  mkTables [mkStudent 1 "21" "Asha" None None None None;
            mkStudent 2 "22" "Ravi" None None None None]
           [mkAttendance 5 2 10 "Present" (Some 36000000000)].

Lemma ensure_day_rows_idempotent_witness :
  exists new : list Attendance,
    let t' := mkTables (students db_two_students) (attendance db_two_students ++ new) in
    ensure_day_rows 10 (SessionLocal db_two_students) =
      (Ok tt, mkSession t' [] t' (map INSERT_attendance new ++ [COMMIT])) /\
    (forall x, In x (students db_two_students) ->
               List.length (attendance_of (st_id x) 10 (attendance t')) = 1%nat) /\
    map student_id new =
      map st_id (filter (lacks_row 10 (attendance db_two_students)) (students db_two_students)) /\
    (forall a, In a new -> day a = 10 /\ status a = "Absent" /\ timestamp a = None) /\
    ensure_day_rows 10 (SessionLocal t') = (Ok tt, mkSession t' [] t' [COMMIT]).
Proof.
  apply (ensure_day_rows_idempotent 10 db_two_students).
  split; cbn; repeat constructor; cbn; intuition discriminate.
Defined.

(** ** Recognition *)

Lemma Qltb_lt (x y : Q) : Qltb x y = true <-> (x < y)%Q.
Proof.
  unfold Qltb. rewrite Qlt_alt. destruct (x ?= y)%Q; intuition discriminate.
Qed.

Section Recognition.

Variable image : Type.
Variable predict : trained image -> image -> Z * Q.

(** The frames the loop of [recognize_once] works on: all those read up
    to the one on display when the operator presses [q]. *)
Fixpoint frames_seen (cam : list (frame image)) : list (frame image) :=
  match cam with
  | [] => []
  | fr :: cam' => if q_pressed (key fr) then [fr] else fr :: frames_seen cam'
  end.

(** The (label, confidence) pairs predicted on those frames, in order. *)
Definition detections (m : trained image) (cam : list (frame image)) : list (Z * Q) :=
  map (predict m) (flat_map faces (frames_seen cam)).

Lemma scan_faces_app m th l1 : forall l2 p b,
  scan_faces image predict m th (l1 ++ l2) p b =
  scan_faces image predict m th l2
    (fst (scan_faces image predict m th l1 p b))
    (snd (scan_faces image predict m th l1 p b)).
Proof.
  induction l1 as [|roi l1 IH]; intros l2 p b; [reflexivity|].
  cbn [app scan_faces]. destruct (predict m roi) as [l c].
  destruct (Qltb c b && Qltb c th); apply IH.
Qed.

Lemma recognize_loop_scan m th cam : forall p b,
  recognize_loop predict m th cam p b =
  fst (scan_faces image predict m th (flat_map faces (frames_seen cam)) p b).
Proof.
  induction cam as [|fr cam IH]; intros p b; [reflexivity|].
  cbn [recognize_loop frames_seen].
  destruct (scan_faces image predict m th (faces fr) p b) as [p' b'] eqn:E.
  destruct (q_pressed (key fr)).
  - cbn [flat_map]. rewrite app_nil_r, E. reflexivity.
  - cbn [flat_map]. rewrite scan_faces_app, E. apply IH.
Qed.

(** What one pass over the faces does to [predicted] and [best_conf]:
    nothing, when no confidence is below both [best_conf] and the
    threshold; otherwise they become the first detection of lowest
    confidence among those below both. *)
Lemma scan_faces_spec m th rois : forall p b,
  let ds := map (predict m) rois in
  (scan_faces image predict m th rois p b = (p, b) /\
   forall d, In d ds -> ~ ((snd d < b)%Q /\ (snd d < th)%Q)) \/
  (exists pre l c post,
     ds = pre ++ (l, c) :: post /\
     scan_faces image predict m th rois p b = (Some l, c) /\
     (c < b)%Q /\ (c < th)%Q /\
     (forall d, In d pre -> (snd d < th)%Q -> (c < snd d)%Q) /\
     (forall d, In d post -> (snd d < th)%Q -> (c <= snd d)%Q)).
Proof.
  induction rois as [|roi rois IH]; intros p b ds.
  - left. split; [reflexivity|]. intros d [].
  - subst ds. cbn [map scan_faces]. destruct (predict m roi) as [l c] eqn:Ep.
    destruct (Qltb c b && Qltb c th) eqn:E.
    + apply andb_true_iff in E as [Eb Eth]. apply Qltb_lt in Eb, Eth.
      right. destruct (IH (Some l) c) as [[Hsame Hnone]|(pre & l2 & c2 & post & Hds & Hres & Hc & Hth & Hpre & Hpost)].
      * exists [], l, c, (map (predict m) rois). repeat split; try assumption.
        -- intros d [].
        -- intros d Hd Hd'. apply Qnot_lt_le. intros Hlt. now apply (Hnone d Hd).
      * exists ((l, c) :: pre), l2, c2, post. rewrite Hds. repeat split; try assumption.
        -- now apply Qlt_trans with c.
        -- intros d [<-|Hd] Hd'; [exact Hc|now apply Hpre].
    + assert (Hrej : ~ ((c < b)%Q /\ (c < th)%Q)).
      { intros [H1 H2]. apply Qltb_lt in H1, H2. rewrite H1, H2 in E. discriminate. }
      destruct (IH p b) as [[Hsame Hnone]|(pre & l2 & c2 & post & Hds & Hres & Hc & Hth & Hpre & Hpost)].
      * left. split; [assumption|]. intros d [<-|Hd]; [exact Hrej|now apply Hnone].
      * right. exists ((l, c) :: pre), l2, c2, post. rewrite Hds.
        repeat split; try assumption.
        intros d [<-|Hd] Hd'; [|now apply Hpre]. cbn [snd] in *.
        apply Qlt_le_trans with b; [assumption|].
        apply Qnot_lt_le. intros Hlt. now apply Hrej.
Qed.

(** The first two steps of [recognize_once]: load the model file, or
    train when there is none. *)
Definition prepare_model : EM image bool :=
  loaded <- ensure_model_loaded ;;
  (if loaded then ret true else train_or_update_model).

Lemma recognize_once_prepare th cam e :
  recognize_once predict th cam e =
  (usable <- prepare_model ;;
   if negb usable then ret None
   else e <- get ;;
        match RECOGNIZER e with
        | None => raise CvError
        | Some m => ret (recognize_loop predict m th cam None (999 # 1))
        end) e.
Proof.
  unfold recognize_once, prepare_model, bind.
  destruct (ensure_model_loaded e) as [[[|]|x] e1]; try reflexivity.
Qed.

Lemma prepare_model_true e e1 :
  prepare_model e = (Ok true, e1) -> exists m, RECOGNIZER e1 = Some m.
Proof.
  unfold prepare_model, bind, ensure_model_loaded, train_or_update_model.
  destruct (model_file e) as [m|].
  - intros H. injection H as <-. now exists m.
  - destruct (_load_dataset e) as [[[|img imgs] labels]|x]; try discriminate.
    intros H. injection H as <-. eexists. reflexivity.
Qed.

End Recognition.

Arguments frames_seen {image} _.
Arguments detections {image} _ _ _.
Arguments prepare_model {image}.

(** C4, as the code has it: for a threshold of at most 999.0 (the
    default is 70.0), a detection is accepted exactly when its confidence
    is strictly below the threshold, and [recognize_once] returns the
    label of the first detection of lowest confidence among the accepted
    ones, over all the frames seen until the operator stops; it returns
    [None] exactly when no detection is accepted (no frame, no face, or no
    confidence below the threshold).  This is so whenever there is a
    model to predict with: the model file, or else the model trained from
    the samples on disk.  When there is neither, [None] is returned; an
    exception raised by the training is passed on. *)
Theorem recognize_once_lowest_accepted
        (image : Type) (predict : trained image -> image -> Z * Q)
        (threshold : Q) (cam : list (frame image)) (e : Engine image) :
  (threshold <= 999 # 1)%Q ->
  match prepare_model e with
  | (Ok true, e1) =>
      exists m r,
        RECOGNIZER e1 = Some m /\
        recognize_once predict threshold cam e = (Ok r, e1) /\
        match r with
        | Some l =>
            exists pre c post,
              detections predict m cam = pre ++ (l, c) :: post /\
              (c < threshold)%Q /\
              (forall d, In d pre -> (snd d < threshold)%Q -> (c < snd d)%Q) /\
              (forall d, In d post -> (snd d < threshold)%Q -> (c <= snd d)%Q)
        | None =>
            forall d, In d (detections predict m cam) -> ~ (snd d < threshold)%Q
        end
  | (Ok false, e1) => recognize_once predict threshold cam e = (Ok None, e1)
  | (Raise x, e1) => recognize_once predict threshold cam e = (Raise x, e1)
  end.
Proof.
  intros Hth. rewrite recognize_once_prepare.
  destruct (prepare_model e) as [[[|]|x] e1] eqn:Hprep;
    [|unfold bind; now rewrite Hprep|unfold bind; now rewrite Hprep].
  destruct (prepare_model_true _ e e1 Hprep) as [m Hm].
  exists m. eexists. split; [exact Hm|].
  rewrite (bind_Ok _ _ _ _ _ Hprep). cbn [negb].
  unfold bind, get. rewrite Hm. unfold ret. split; [reflexivity|].
  rewrite recognize_loop_scan.
  destruct (scan_faces_spec image predict m threshold
              (flat_map faces (frames_seen cam)) None (999 # 1))
    as [[Hsame Hnone]|(pre & l & c & post & Hds & Hres & Hc & Hlt & Hpre & Hpost)].
  - rewrite Hsame. cbn [fst]. intros d Hd Hlt. apply (Hnone d Hd). split; [|assumption].
    now apply Qlt_le_trans with threshold.
  - rewrite Hres. cbn [fst]. exists pre, c, post. repeat split; assumption.
Qed.

(** A camera whose crops are tagged with what the recognizer predicts
    for them. *)
Definition tagged_predict (m : trained (Z * Q)) (roi : Z * Q) : Z * Q := roi.

Definition engine_with_model : Engine (Z * Q) :=
  mkEngine [] (Some (mkTrained [(1, (0 # 1)%Q)] [1])) None [].

Definition q_key : Z := 113.
Definition no_key : Z := -1.

Lemma recognize_once_lowest_accepted_witness :
  exists m r,
    RECOGNIZER (mkEngine [] (model_file engine_with_model) (model_file engine_with_model)
                         [READ_MODEL]) = Some m /\
    recognize_once tagged_predict (70 # 1)
      [mkFrame [(1, 80 # 1); (2, 40 # 1)] no_key; mkFrame [(3, 55 # 1)] q_key]
      engine_with_model
    = (Ok r, mkEngine [] (model_file engine_with_model) (model_file engine_with_model)
                      [READ_MODEL]) /\
    match r with
    | Some l =>
        exists pre c post,
          detections tagged_predict m
            [mkFrame [(1, 80 # 1); (2, 40 # 1)] no_key; mkFrame [(3, 55 # 1)] q_key]
          = pre ++ (l, c) :: post /\
          (c < 70 # 1)%Q /\
          (forall d, In d pre -> (snd d < 70 # 1)%Q -> (c < snd d)%Q) /\
          (forall d, In d post -> (snd d < 70 # 1)%Q -> (c <= snd d)%Q)
    | None =>
        forall d, In d (detections tagged_predict m
            [mkFrame [(1, 80 # 1); (2, 40 # 1)] no_key; mkFrame [(3, 55 # 1)] q_key])
                  -> ~ (snd d < 70 # 1)%Q
    end.
Proof.
  apply (recognize_once_lowest_accepted (Z * Q) tagged_predict (70 # 1)
           [mkFrame [(1, 80 # 1); (2, 40 # 1)] no_key; mkFrame [(3, 55 # 1)] q_key]
           engine_with_model).
  vm_compute. discriminate.
Defined.

(** The spec's examples: threshold 70 accepts 65 and rejects 75 and 70;
    among 80, 40 and 55 the label of the 40 is returned. *)
Example recognize_once_threshold_examples :
  fst (recognize_once tagged_predict (70 # 1) [mkFrame [(7, 65 # 1)] q_key] engine_with_model)
    = Ok (Some 7) /\
  fst (recognize_once tagged_predict (70 # 1) [mkFrame [(7, 75 # 1)] q_key] engine_with_model)
    = Ok None /\
  fst (recognize_once tagged_predict (70 # 1) [mkFrame [(7, 70 # 1)] q_key] engine_with_model)
    = Ok None /\
  fst (recognize_once tagged_predict (70 # 1)
         [mkFrame [(1, 80 # 1)] no_key; mkFrame [(2, 40 # 1); (3, 55 # 1)] q_key]
         engine_with_model)
    = Ok (Some 2).
Proof. repeat split. Qed.

(** C4 as stated fails for a threshold above 999.0, the value
    [best_conf] starts from: with threshold 1000 a face of confidence
    999.5 is strictly below the threshold, is the only detection and is
    boxed in the colour of a match, yet nothing is returned. *)
Lemma recognize_once_above_999_rejected :
  (9995 # 10 < 1000 # 1)%Q /\
  detections tagged_predict (mkTrained [(1, (0 # 1)%Q)] [1]) [mkFrame [(7, 9995 # 10)] q_key]
    = [(7, 9995 # 10)] /\
  box_color (9995 # 10) (1000 # 1) = (0, 255, 0) /\
  fst (recognize_once tagged_predict (1000 # 1) [mkFrame [(7, 9995 # 10)] q_key]
         engine_with_model)
    = Ok None.
Proof. repeat split. Qed.

(** ** Training *)

Section Training.

Variable image : Type.

(** The face samples of a student folder: the files with an image
    suffix that [cv2.imread] can read. *)
Definition samples_of (files : list (file image)) : list image :=
  flat_map (fun f => if has_image_suffix (fname f)
                     then match imread f with Some img => [img] | None => [] end
                     else []) files.

(** The samples of the whole dataset, each with the name of its folder. *)
Definition all_samples (entries : list (dirent image)) : list (image * string) :=
  flat_map (fun d => match d with
                     | Directory n files => map (fun img => (img, n)) (samples_of files)
                     | RegularFile _ => []
                     end) entries.

Definition sample_count (entries : list (dirent image)) : nat :=
  List.length (all_samples entries).

Definition label_of (sid : string) : Z :=
  match int sid with Some l => l | None => 0 end.

(** The layout [capture_samples] produces: a folder that holds samples
    is named by an integer. *)
Definition int_named (entries : list (dirent image)) : Prop :=
  forall img n, In (img, n) (all_samples entries) -> int n <> None.

Lemma load_files_spec sid files : forall images labels,
  (samples_of files <> [] -> int sid <> None) ->
  load_files image sid files images labels =
  Ok (images ++ samples_of files,
      labels ++ map (fun _ => label_of sid) (samples_of files)).
Proof.
  induction files as [|f files IH]; intros images labels Hint.
  - cbn. now rewrite !app_nil_r.
  - cbn [load_files samples_of flat_map] in *.
    destruct (has_image_suffix (fname f)); [|now apply IH].
    destruct (imread f) as [img|]; [|now apply IH].
    cbn [app] in Hint. unfold label_of.
    destruct (int sid) as [l|] eqn:El.
    + rewrite IH.
      * cbn [map app]. unfold label_of. try rewrite El.
        now rewrite <- !app_assoc.
      * intros _. try rewrite El. discriminate.
    + exfalso. now apply Hint.
Qed.

Lemma load_entries_spec entries : forall images labels,
  int_named entries ->
  load_entries image entries images labels =
  Ok (images ++ map fst (all_samples entries),
      labels ++ map (fun p => label_of (snd p)) (all_samples entries)).
Proof.
  induction entries as [|d entries IH]; intros images labels Hint.
  - cbn. now rewrite !app_nil_r.
  - assert (Hrest : int_named entries).
    { intros img n Hin. apply (Hint img n). unfold all_samples. cbn [flat_map].
      apply in_or_app. now right. }
    destruct d as [n|n files]; cbn [load_entries]; [now apply IH|].
    rewrite load_files_spec.
    + rewrite IH by assumption. unfold all_samples. cbn [flat_map].
      rewrite !map_app, !map_map. cbn [fst snd]. rewrite map_id.
      now rewrite <- !app_assoc.
    + intros Hne. destruct (samples_of files) as [|img imgs] eqn:E; [contradiction|].
      apply (Hint img n). unfold all_samples. cbn [flat_map]. rewrite E.
      now left.
Qed.

End Training.

Arguments samples_of {image} _.
Arguments all_samples {image} _.
Arguments sample_count {image} _.
Arguments int_named {image} _.

(** C5, as the code has it: with no face sample anywhere in the
    dataset, [train_or_update_model] returns [False] and changes nothing:
    no training, no write of the model file.  With at least one sample,
    and every folder that holds a sample named by an integer (as
    [capture_samples] names them), it trains on all the samples with
    their folders' numbers as labels, writes the model file and returns
    [True]. *)
Theorem train_or_update_model_outcome (image : Type) (e : Engine image) :
  (sample_count (faces_dir e) = 0%nat ->
   train_or_update_model e = (Ok false, e)) /\
  ((0 < sample_count (faces_dir e))%nat -> int_named (faces_dir e) ->
   let m := mkTrained (map fst (all_samples (faces_dir e)))
                      (map (fun p => label_of (snd p)) (all_samples (faces_dir e))) in
   train_or_update_model e =
   (Ok true, mkEngine (faces_dir e) (Some m) (Some m) (io_log e ++ [TRAIN; SAVE_MODEL]))).
Proof.
  unfold sample_count. split.
  - intros H0. apply length_zero_iff_nil in H0.
    unfold train_or_update_model, _load_dataset.
    rewrite load_entries_spec.
    + now rewrite H0.
    + intros img n Hin. rewrite H0 in Hin. contradiction.
  - intros Hpos Hint. cbv zeta. unfold train_or_update_model, _load_dataset.
    rewrite load_entries_spec by assumption. cbn [app].
    destruct (all_samples (faces_dir e)) as [|p l]; [cbn in Hpos; lia|].
    reflexivity.
Qed.

Definition engine_one_sample : Engine Z :=
  mkEngine [RegularFile "notes.txt";
            Directory "7" [mkFile "7_000.PNG" (Some 41); mkFile "thumbs.db" (Some 42);
                           mkFile "7_001.png" None]]
           None None [].

Definition engine_no_sample : Engine Z :=
  mkEngine [RegularFile "notes.txt"; Directory "tmp" [mkFile "a.jpg" None]]
           (Some (mkTrained [40] [3])) None [].

Lemma train_or_update_model_outcome_witness :
  train_or_update_model engine_no_sample = (Ok false, engine_no_sample) /\
  train_or_update_model engine_one_sample =
  (Ok true, mkEngine (faces_dir engine_one_sample)
                     (Some (mkTrained [41] [7])) (Some (mkTrained [41] [7]))
                     [TRAIN; SAVE_MODEL]).
Proof.
  split.
  - apply (proj1 (train_or_update_model_outcome Z engine_no_sample)). reflexivity.
  - apply (proj2 (train_or_update_model_outcome Z engine_one_sample)).
    + vm_compute. lia.
    + intros img n Hin. vm_compute in Hin. destruct Hin as [Hin|[]].
      injection Hin as _ <-. discriminate.
Defined.

(** C5 as stated fails on a sample in a folder that is not named by an
    integer: the label is [int(sid)], which raises [ValueError]; there is
    a sample, yet nothing is trained or written and no success is
    returned. *)
Lemma train_or_update_model_stray_folder :
  (0 < sample_count
         (faces_dir (mkEngine [Directory "tmp" [mkFile "a.png" (Some 41)]] None None [])))%nat /\
  train_or_update_model (mkEngine [Directory "tmp" [mkFile "a.png" (Some 41)]] None None [])
  = (Raise ValueError, mkEngine [Directory "tmp" [mkFile "a.png" (Some 41)]] None None []).
Proof. split; [vm_compute; lia|reflexivity]. Qed.

(** ** Python strings: [strip], [str] and [int] *)

Lemma digit_char_facts (d : Z) :
  0 <= d <= 9 ->
  is_digit (digit_char d) = true /\ digit_value (digit_char d) = d /\
  (byte (digit_char d) <? 0x80) && negb (isspace (byte (digit_char d))) = true.
Proof.
  intros H.
  assert (Hd : d = 0 \/ d = 1 \/ d = 2 \/ d = 3 \/ d = 4 \/ d = 5 \/ d = 6 \/ d = 7 \/
               d = 8 \/ d = 9) by lia.
  repeat (destruct Hd as [->|Hd]; [now repeat split|]). subst d. now repeat split.
Qed.

Lemma rev_string_rev_string (s : string) : forall a b,
  rev_string b (rev_string a s) = rev_string (s ++ b)%string a.
Proof.
  induction s as [|c s IH]; intros a b; [reflexivity|].
  cbn [rev_string]. rewrite IH. reflexivity.
Qed.

Lemma append_empty_r (s : string) : (s ++ "")%string = s.
Proof. induction s as [|c s IH]; [reflexivity|]. cbn. now rewrite IH. Qed.

(** Every character of the string is below 128 and is not white space. *)
Fixpoint no_space (s : string) : bool :=
  match s with
  | EmptyString => true
  | String c s' => (byte c <? 0x80) && negb (isspace (byte c)) && no_space s'
  end.

Lemma lstrip_no_space (s : string) : no_space s = true -> lstrip s = s.
Proof.
  destruct s as [|c s]; [reflexivity|]. cbn [no_space lstrip]. intros H.
  apply andb_true_iff in H as [H _]. apply andb_true_iff in H as [Hlow Hsp].
  rewrite Hlow. now destruct (isspace (byte c)).
Qed.

Lemma rstrip_rev_no_space (s : string) : no_space s = true -> rstrip_rev s = s.
Proof.
  destruct s as [|c s]; [reflexivity|]. cbn [no_space rstrip_rev]. intros H.
  apply andb_true_iff in H as [H _]. apply andb_true_iff in H as [Hlow Hsp].
  rewrite Hlow. now destruct (isspace (byte c)).
Qed.

Lemma no_space_rev_string (s : string) : forall a,
  no_space s = true -> no_space a = true -> no_space (rev_string a s) = true.
Proof.
  induction s as [|c s IH]; intros a Hs Ha; [exact Ha|].
  cbn [no_space] in Hs. apply andb_true_iff in Hs as [Hc Hs].
  cbn [rev_string]. apply IH; [exact Hs|]. cbn [no_space]. now rewrite Hc, Ha.
Qed.

Lemma strip_no_space (s : string) : no_space s = true -> strip s = s.
Proof.
  intros H. unfold strip, rstrip. rewrite (lstrip_no_space s H).
  rewrite rstrip_rev_no_space by now apply no_space_rev_string.
  rewrite rev_string_rev_string. cbn. apply append_empty_r.
Qed.

(** *** [strip] and the characters of a text

    [str.strip] works on code points; the embedding works on their
    encoding.  The two agree. *)

Fixpoint lstrip_points (l : list Z) : list Z :=
  match l with
  | [] => []
  | c :: rest => if isspace c then lstrip_points rest else l
  end.

Definition strip_points (l : list Z) : list Z :=
  rev (lstrip_points (rev (lstrip_points l))).

Definition code_point (c : Z) : Prop := 0 <= c < 0x110000.

Lemma byte_chr_byte (n : Z) : 0 <= n < 256 -> byte (chr_byte n) = n.
Proof.
  intros H. unfold byte, chr_byte. rewrite nat_ascii_embedding by lia. lia.
Qed.

Ltac decide_tests :=
  repeat match goal with
         | |- context [?a <=? ?b] =>
             first [ replace (a <=? b) with true by (symmetry; apply Z.leb_le; lia)
                   | replace (a <=? b) with false by (symmetry; apply Z.leb_gt; lia) ]
         | |- context [?a <? ?b] =>
             first [ replace (a <? b) with true by (symmetry; apply Z.ltb_lt; lia)
                   | replace (a <? b) with false by (symmetry; apply Z.ltb_ge; lia) ]
         end.

Lemma code_point2_utf8 (c : Z) :
  0x80 <= c < 0x800 -> code_point2 (0xC0 + c / 64) (0x80 + c mod 64) = Some c.
Proof.
  intros H. unfold code_point2, is_cont.
  pose proof (Z.div_mod c 64 ltac:(lia)). pose proof (Z.mod_pos_bound c 64 ltac:(lia)).
  decide_tests. cbn [andb]. f_equal. lia.
Qed.

Lemma code_point3_utf8 (c : Z) :
  0x800 <= c < 0x10000 ->
  code_point3 (0xE0 + c / 4096) (0x80 + (c / 64) mod 64) (0x80 + c mod 64) = Some c.
Proof.
  intros H. unfold code_point3, is_cont.
  pose proof (Z.div_mod c 64 ltac:(lia)). pose proof (Z.mod_pos_bound c 64 ltac:(lia)).
  pose proof (Z.div_mod (c / 64) 64 ltac:(lia)).
  pose proof (Z.mod_pos_bound (c / 64) 64 ltac:(lia)).
  assert (Hq : c / 4096 = c / 64 / 64) by (rewrite Z.div_div by lia; reflexivity).
  rewrite Hq.
  replace ((0xE0 + c / 64 / 64 - 0xE0) * 4096 + (0x80 + (c / 64) mod 64 - 0x80) * 64 +
           (0x80 + c mod 64 - 0x80)) with c by lia.
  decide_tests. reflexivity.
Qed.

(** A lead byte of a sequence of two bytes starts no sequence of three,
    and conversely; the lead byte of four starts neither. *)
Lemma code_point2_none (b0 b1 : Z) : 0xE0 <= b0 -> code_point2 b0 b1 = None.
Proof. intros H. unfold code_point2. decide_tests. now rewrite andb_false_r. Qed.

Lemma code_point3_low (b0 b1 b2 : Z) : b0 < 0xE0 -> code_point3 b0 b1 b2 = None.
Proof. intros H. unfold code_point3. decide_tests. reflexivity. Qed.

Lemma code_point3_high (b0 b1 b2 : Z) : 0xF0 <= b0 -> code_point3 b0 b1 b2 = None.
Proof. intros H. unfold code_point3. decide_tests. now rewrite andb_false_r. Qed.

Lemma isspace_low (c : Z) : isspace c = true -> c < 0x10000.
Proof.
  unfold isspace. intros H.
  repeat (apply orb_true_iff in H as [H|H]);
    repeat (apply andb_true_iff in H as [? H]);
    repeat match goal with
           | H : (_ <=? _) = true |- _ => apply Z.leb_le in H
           | H : (_ =? _) = true |- _ => apply Z.eqb_eq in H
           end; lia.
Qed.

(** The four shapes of an encoded code point. *)
Inductive utf8_shape (c : Z) : string -> Prop :=
| shape1 : 0 <= c < 0x80 -> utf8_shape c (String (chr_byte c) "")
| shape2 b0 b1 : 0x80 <= c -> 0xC2 <= b0 <= 0xDF -> 0x80 <= b1 <= 0xBF ->
    code_point2 b0 b1 = Some c ->
    utf8_shape c (String (chr_byte b0) (String (chr_byte b1) ""))
| shape3 b0 b1 b2 : 0xE0 <= b0 <= 0xEF -> 0x80 <= b1 <= 0xBF -> 0x80 <= b2 <= 0xBF ->
    code_point3 b0 b1 b2 = Some c ->
    utf8_shape c (String (chr_byte b0) (String (chr_byte b1) (String (chr_byte b2) "")))
| shape4 b0 b1 b2 b3 : 0x10000 <= c -> 0xF0 <= b0 <= 0xF4 ->
    0x80 <= b1 <= 0xBF -> 0x80 <= b2 <= 0xBF -> 0x80 <= b3 <= 0xBF ->
    utf8_shape c (String (chr_byte b0) (String (chr_byte b1)
                   (String (chr_byte b2) (String (chr_byte b3) "")))).

Lemma utf8_has_shape (c : Z) : code_point c -> utf8_shape c (utf8 c).
Proof.
  unfold code_point, utf8. intros H.
  pose proof (Z.div_mod c 64 ltac:(lia)). pose proof (Z.mod_pos_bound c 64 ltac:(lia)).
  pose proof (Z.mod_pos_bound (c / 64) 64 ltac:(lia)).
  pose proof (Z.mod_pos_bound (c / 4096) 64 ltac:(lia)).
  assert (Hd2 : 0x80 <= c < 0x800 -> 2 <= c / 64 < 32).
  { intros ?. split; [apply Z.div_le_lower_bound; lia|apply Z.div_lt_upper_bound; lia]. }
  assert (Hd3 : c < 0x10000 -> 0 <= c / 4096 < 16).
  { intros ?. split; [apply Z.div_pos; lia|apply Z.div_lt_upper_bound; lia]. }
  assert (Hd4 : 0 <= c / 262144 < 5).
  { split; [apply Z.div_pos; lia|apply Z.div_lt_upper_bound; lia]. }
  destruct (Z.ltb_spec c 0x80); [apply shape1; lia|].
  destruct (Z.ltb_spec c 0x800).
  { apply shape2; [lia|lia|lia|apply code_point2_utf8; lia]. }
  destruct (Z.ltb_spec c 0x10000).
  { apply shape3; [lia|lia|lia|apply code_point3_utf8; lia]. }
  apply shape4; lia.
Qed.

Lemma lstrip_utf8 (c : Z) (rest : string) :
  code_point c ->
  lstrip (utf8 c ++ rest)%string =
  if isspace c then lstrip rest else (utf8 c ++ rest)%string.
Proof.
  intros Hc. destruct (utf8_has_shape c Hc) as
    [H1|b0 b1 Hlow H0 H1 Hcode|b0 b1 b2 H0 H1 H2 Hcode|b0 b1 b2 b3 Hhigh H0 H1 H2 H3].
  - cbn [append lstrip]. rewrite byte_chr_byte by lia. decide_tests. reflexivity.
  - cbn [append lstrip]. rewrite !byte_chr_byte by lia. decide_tests.
    rewrite Hcode. cbn [is_space_code]. destruct (isspace c); [reflexivity|].
    destruct rest as [|x rest]; [reflexivity|].
    now rewrite code_point3_low by lia.
  - cbn [append lstrip]. rewrite !byte_chr_byte by lia. decide_tests.
    rewrite code_point2_none by lia. cbn [is_space_code]. rewrite Hcode.
    cbn [is_space_code]. reflexivity.
  - cbn [append lstrip]. rewrite !byte_chr_byte by lia. decide_tests.
    rewrite code_point2_none by lia. cbn [is_space_code].
    rewrite code_point3_high by lia. cbn [is_space_code].
    destruct (isspace c) eqn:E; [|reflexivity].
    apply isspace_low in E. lia.
Qed.

Lemma rstrip_rev_utf8 (c : Z) (r : string) :
  code_point c ->
  rstrip_rev (rev_string r (utf8 c)) =
  if isspace c then rstrip_rev r else rev_string r (utf8 c).
Proof.
  intros Hc. destruct (utf8_has_shape c Hc) as
    [H1|b0 b1 Hlow H0 H1 Hcode|b0 b1 b2 H0 H1 H2 Hcode|b0 b1 b2 b3 Hhigh H0 H1 H2 H3].
  - cbn [rev_string rstrip_rev]. rewrite byte_chr_byte by lia. decide_tests. reflexivity.
  - cbn [rev_string rstrip_rev]. rewrite !byte_chr_byte by lia. decide_tests.
    rewrite Hcode. cbn [is_space_code]. destruct (isspace c); [reflexivity|].
    destruct r as [|x r]; [reflexivity|].
    assert (Hn : code_point3 (byte x) b0 b1 = None).
    { unfold code_point3, is_cont. decide_tests. cbn [andb].
      rewrite ?andb_false_r. reflexivity. }
    now rewrite Hn.
  - cbn [rev_string rstrip_rev]. rewrite !byte_chr_byte by lia. decide_tests.
    assert (Hn : code_point2 b1 b2 = None).
    { unfold code_point2. decide_tests. reflexivity. }
    rewrite Hn. cbn [is_space_code]. rewrite Hcode. cbn [is_space_code]. reflexivity.
  - cbn [rev_string rstrip_rev]. rewrite !byte_chr_byte by lia. decide_tests.
    assert (Hn : code_point2 b2 b3 = None).
    { unfold code_point2. decide_tests. reflexivity. }
    rewrite Hn. cbn [is_space_code].
    assert (Hn3 : code_point3 b1 b2 b3 = None) by (apply code_point3_low; lia).
    rewrite Hn3. cbn [is_space_code].
    destruct (isspace c) eqn:E; [|reflexivity].
    apply isspace_low in E. lia.
Qed.

Lemma lstrip_points_valid (l : list Z) :
  Forall code_point l -> Forall code_point (lstrip_points l).
Proof.
  induction 1 as [|c l Hc Hl IH]; [constructor|].
  cbn [lstrip_points]. destruct (isspace c); [exact IH|now constructor].
Qed.

Lemma lstrip_encode (l : list Z) :
  Forall code_point l -> lstrip (encode l) = encode (lstrip_points l).
Proof.
  induction 1 as [|c l Hc Hl IH]; [reflexivity|].
  cbn [encode lstrip_points]. rewrite lstrip_utf8 by exact Hc.
  destruct (isspace c); [exact IH|reflexivity].
Qed.

(** The encoding read backwards, from the last code point to the first. *)
Fixpoint encode_rev (l : list Z) : string :=
  match l with
  | [] => ""
  | c :: rest => rev_string (encode_rev rest) (utf8 c)
  end.

Lemma rev_string_append (s1 s2 : string) : forall acc,
  rev_string acc (s1 ++ s2)%string = rev_string (rev_string acc s1) s2.
Proof.
  induction s1 as [|c s1 IH]; intros acc; [reflexivity|].
  cbn [append rev_string]. apply IH.
Qed.

Lemma rev_string_encode (l : list Z) : forall done,
  rev_string (encode_rev done) (encode l) = encode_rev (rev l ++ done).
Proof.
  induction l as [|c l IH]; intros done; [reflexivity|].
  cbn [encode rev]. rewrite rev_string_append.
  change (rev_string (encode_rev done) (utf8 c)) with (encode_rev (c :: done)).
  rewrite IH, <- app_assoc. reflexivity.
Qed.

Lemma rev_string_encode_rev (l : list Z) : forall done,
  rev_string (encode done) (encode_rev l) = encode (rev l ++ done).
Proof.
  induction l as [|c l IH]; intros done; [reflexivity|].
  cbn [encode_rev rev]. rewrite rev_string_rev_string.
  change (utf8 c ++ encode done)%string with (encode (c :: done)).
  rewrite IH, <- app_assoc. reflexivity.
Qed.

Lemma rstrip_rev_encode_rev (l : list Z) :
  Forall code_point l -> rstrip_rev (encode_rev l) = encode_rev (lstrip_points l).
Proof.
  induction 1 as [|c l Hc Hl IH]; [reflexivity|].
  cbn [encode_rev lstrip_points]. rewrite rstrip_rev_utf8 by exact Hc.
  destruct (isspace c); [exact IH|reflexivity].
Qed.

(** [strip] on the encoding of a text is the encoding of the text
    without its leading and trailing white-space characters. *)
Lemma strip_encode (l : list Z) :
  Forall code_point l -> strip (encode l) = encode (strip_points l).
Proof.
  intros Hl. unfold strip, rstrip, strip_points.
  rewrite (lstrip_encode l Hl).
  pose proof (rev_string_encode (lstrip_points l) []) as H1. cbn [encode_rev] in H1.
  rewrite H1, app_nil_r.
  rewrite rstrip_rev_encode_rev
    by (apply Forall_rev; now apply lstrip_points_valid).
  pose proof (rev_string_encode_rev (lstrip_points (rev (lstrip_points l))) []) as H2.
  cbn [encode] in H2. rewrite H2, app_nil_r. reflexivity.
Qed.

Example strip_no_break_space :
  strip (encode [0xA0; 0x20; 0x32; 0x32; 0x3000; 0x0A]) = "22"%string.
Proof. reflexivity. Qed.

Lemma mod_10_digit (n : Z) : 0 <= n mod 10 <= 9.
Proof. pose proof (Z.mod_pos_bound n 10). lia. Qed.

Lemma log2_div_10 (n : Z) : 0 <= n -> n / 10 <> 0 -> Z.log2 (n / 10) < Z.log2 n.
Proof.
  intros Hn Hq.
  assert (H10 : 10 <= n).
  { destruct (Z_lt_le_dec n 10) as [Hlt|Hge]; [|exact Hge].
    exfalso. apply Hq. apply Z.div_small. lia. }
  assert (Hpos : 0 < n / 10) by (apply Z.div_str_pos; lia).
  destruct (Z.log2_spec n ltac:(lia)) as [_ Hhi].
  apply Z.log2_lt_pow2; [exact Hpos|].
  apply Z.div_lt_upper_bound; [lia|].
  rewrite Z.pow_succ_r in Hhi by apply Z.log2_nonneg. lia.
Qed.

Lemma no_space_digits_aux (fuel : nat) : forall n acc,
  no_space acc = true -> no_space (digits_aux fuel n acc) = true.
Proof.
  induction fuel as [|fuel IH]; intros n acc Hacc; [exact Hacc|].
  cbn [digits_aux].
  assert (Hc : no_space (String (digit_char (n mod 10)) acc) = true).
  { cbn [no_space]. destruct (digit_char_facts _ (mod_10_digit n)) as (_ & _ & ->).
    exact Hacc. }
  destruct (n / 10 =? 0); [exact Hc|now apply IH].
Qed.

(** Reading back the digits written for [n]. *)
Lemma parse_digits_digits_aux (fuel : nat) : forall n rest b,
  0 <= n -> Z.log2 n < Z.of_nat fuel ->
  parse_digits 0 b (digits_aux fuel n rest) = parse_digits n true rest.
Proof.
  induction fuel as [|fuel IH]; intros n rest b Hn Hfuel.
  - pose proof (Z.log2_nonneg n). lia.
  - cbn [digits_aux].
    destruct (digit_char_facts _ (mod_10_digit n)) as (Hdig & Hval & _).
    pose proof (Z.div_mod n 10 ltac:(lia)) as Hdm.
    destruct (n / 10 =? 0) eqn:Eq.
    + apply Z.eqb_eq in Eq. cbn [parse_digits]. rewrite Hdig, Hval.
      f_equal. lia.
    + apply Z.eqb_neq in Eq. rewrite IH.
      * cbn [parse_digits]. rewrite Hdig, Hval. f_equal. lia.
      * apply Z.div_pos; lia.
      * pose proof (log2_div_10 n Hn Eq). lia.
Qed.

(** The first character written for [n] is a digit. *)
Lemma digits_aux_head (fuel : nat) : forall n acc,
  0 <= n -> Z.log2 n < Z.of_nat fuel ->
  exists d rest, 0 <= d <= 9 /\ digits_aux fuel n acc = String (digit_char d) rest.
Proof.
  induction fuel as [|fuel IH]; intros n acc Hn Hfuel.
  - pose proof (Z.log2_nonneg n). lia.
  - cbn [digits_aux]. destruct (n / 10 =? 0) eqn:Eq.
    + exists (n mod 10), acc. split; [apply mod_10_digit|reflexivity].
    + apply Z.eqb_neq in Eq. apply IH.
      * apply Z.div_pos; lia.
      * pose proof (log2_div_10 n Hn Eq). lia.
Qed.

Lemma int_digits (n : Z) : 0 <= n -> int (digits n) = Some n.
Proof.
  intros Hn. unfold int, digits.
  rewrite strip_no_space by now apply no_space_digits_aux.
  assert (Hfuel : Z.log2 n < Z.of_nat (S (Z.to_nat (Z.log2 n)))).
  { pose proof (Z.log2_nonneg n). lia. }
  pose proof (parse_digits_digits_aux _ n "" false Hn Hfuel) as Hparse.
  destruct (digits_aux_head _ n "" Hn Hfuel) as (d & rest & Hd & Hhead).
  rewrite Hhead in *.
  assert (Hcase : d = 0 \/ d = 1 \/ d = 2 \/ d = 3 \/ d = 4 \/ d = 5 \/ d = 6 \/ d = 7 \/
                  d = 8 \/ d = 9) by lia.
  repeat (destruct Hcase as [->|Hcase]; [exact Hparse|]). subst d. exact Hparse.
Qed.

(** [int(str(n)) == n]: a student's folder is named after the student's
    identity and read back as that identity. *)
Lemma int_str (n : Z) : int (str n) = Some n.
Proof.
  unfold str. destruct (n <? 0) eqn:E.
  - apply Z.ltb_lt in E. unfold int.
    assert (Hns : no_space (String "-"%char (digits (- n))) = true).
    { cbn [no_space]. unfold digits. rewrite no_space_digits_aux by reflexivity.
      reflexivity. }
    rewrite (strip_no_space _ Hns).
    change (option_map Z.opp (parse_digits 0 false (digits (- n))) = Some n).
    pose proof (int_digits (- n) ltac:(lia)) as Hint. unfold int in Hint.
    unfold digits in *.
    rewrite strip_no_space in Hint by now apply no_space_digits_aux.
    assert (Hfuel : Z.log2 (- n) < Z.of_nat (S (Z.to_nat (Z.log2 (- n))))).
    { pose proof (Z.log2_nonneg (- n)). lia. }
    rewrite (parse_digits_digits_aux _ (- n) "" false ltac:(lia) Hfuel).
    cbn. f_equal. lia.
  - apply Z.ltb_ge in E. now apply int_digits.
Qed.

(** *** File names of the samples *)

Lemma string_length_append (a b : string) :
  String.length (a ++ b)%string = (String.length a + String.length b)%nat.
Proof. induction a as [|c a IH]; [reflexivity|]. cbn. now rewrite IH. Qed.

Lemma append_cancel_l (s x y : string) : (s ++ x)%string = (s ++ y)%string -> x = y.
Proof.
  induction s as [|c s IH]; [trivial|]. cbn [append]. intros H. injection H as H. now apply IH.
Qed.

Lemma append_cancel_r (s : string) : forall x y,
  (x ++ s)%string = (y ++ s)%string -> x = y.
Proof.
  induction x as [|c x IH]; intros [|d y] H.
  - reflexivity.
  - exfalso. apply (f_equal String.length) in H.
    cbn [append String.length] in H. rewrite string_length_append in H. lia.
  - exfalso. apply (f_equal String.length) in H.
    cbn [append String.length] in H. rewrite string_length_append in H. lia.
  - cbn [append] in H. injection H as -> H. f_equal. now apply IH.
Qed.

(** The digits written by [format(n, "03d")] read back as [n]. *)
Lemma parse_digits_zeros (k : nat) (s : string) : forall b,
  exists b', parse_digits 0 b (zeros k ++ s)%string = parse_digits 0 b' s.
Proof.
  induction k as [|k IH]; intros b; [now exists b|].
  cbn [zeros append parse_digits]. destruct (IH true) as [b' Hb'].
  exists b'. exact Hb'.
Qed.

Lemma parse_digits_zfill_d (width : nat) (n : Z) :
  0 <= n -> parse_digits 0 false (zfill_d width n) = Some n.
Proof.
  intros Hn. unfold zfill_d. replace (n <? 0) with false by (symmetry; apply Z.ltb_ge; lia).
  cbv zeta. destruct (parse_digits_zeros (width - String.length (digits n)) (digits n) false)
    as [b' ->].
  unfold digits. rewrite parse_digits_digits_aux; [reflexivity|exact Hn|].
  pose proof (Z.log2_nonneg n). lia.
Qed.

Lemma zfill_d_inj (width : nat) (a b : Z) :
  0 <= a -> 0 <= b -> zfill_d width a = zfill_d width b -> a = b.
Proof.
  intros Ha Hb H. pose proof (parse_digits_zfill_d width a Ha) as H1.
  rewrite H, (parse_digits_zfill_d width b Hb) in H1. now injection H1.
Qed.

Lemma lower_append (a b : string) : lower (a ++ b) = (lower a ++ lower b)%string.
Proof. induction a as [|c a IH]; [reflexivity|]. cbn. now rewrite IH. Qed.

Lemma rev_string_acc (s : string) : forall acc,
  rev_string acc s = (rev_string "" s ++ acc)%string.
Proof.
  induction s as [|c s IH]; intros acc; [reflexivity|].
  cbn [rev_string]. rewrite (IH (String c acc)), (IH (String c "")).
  clear IH. induction (rev_string "" s) as [|d r IHr]; [reflexivity|].
  cbn [append]. now rewrite IHr.
Qed.

Lemma prefix_append (p q acc : string) :
  String.prefix p q = true -> String.prefix p (q ++ acc) = true.
Proof.
  revert p. induction q as [|d q IH]; intros p H.
  - destruct p as [|c p]; [|destruct c; discriminate]. now destruct acc.
  - destruct p as [|c p]; [reflexivity|]. cbn [append String.prefix] in *.
    destruct (ascii_dec c d); [now apply IH|discriminate].
Qed.

Lemma endswith_append (a b suffix : string) :
  endswith b suffix = true -> endswith (a ++ b) suffix = true.
Proof.
  unfold endswith. intros H.
  rewrite rev_string_append, (rev_string_acc b (rev_string "" a)).
  now apply prefix_append.
Qed.

(** A name that ends in [.png] passes the suffix test of [_load_dataset]. *)
Lemma has_image_suffix_png (x : string) : has_image_suffix (x ++ ".png") = true.
Proof.
  unfold has_image_suffix. cbv zeta. rewrite lower_append.
  rewrite (endswith_append (lower x) (lower ".png") ".png") by reflexivity.
  reflexivity.
Qed.

(** ** Capture *)

Lemma last_cons_default {A} (l : list A) : forall a d, last (a :: l) d = last l a.
Proof.
  induction l as [|b l IH]; intros a d; [reflexivity|].
  change (last (a :: b :: l) d) with (last (b :: l) d).
  rewrite (IH b d), (IH b a). reflexivity.
Qed.

Lemma last_app_default {A} (l1 : list A) : forall l2 d,
  last (l1 ++ l2) d = last l2 (last l1 d).
Proof.
  induction l1 as [|a l1 IH]; intros l2 d; [reflexivity|].
  cbn [app]. rewrite !last_cons_default. apply IH.
Qed.

Section Capture.

Variable image : Type.
Variable FACES_DIR : string.

(** The file the [count]-th crop of a student goes to. *)
Definition sample_path (student_id count : Z) : string :=
  path_join (path_join FACES_DIR (str student_id))
            (str student_id ++ "_" ++ zfill_d 3 count ++ ".png")%string.

Fixpoint paths_from (student_id count : Z) (n : nat) : list string :=
  match n with
  | O => []
  | S n' => sample_path student_id count :: paths_from student_id (count + 1) n'
  end.

(** The files written, oldest first, according to a log. *)
Definition imwrites (l : list io) : list string :=
  flat_map (fun ev => match ev with IMWRITE p => [p] | _ => [] end) l.

(** How many crops the loop of [capture_samples] saves, starting from
    [count]: the test against [samples] is made once per frame. *)
Fixpoint crops_saved (samples : Z) (cam : list (frame image)) (count : Z) : nat :=
  match cam with
  | [] => 0%nat
  | fr :: cam' =>
      if count <? samples then
        let n := List.length (faces fr) in
        if q_pressed (key fr) then n
        else (n + crops_saved samples cam' (count + Z.of_nat n))%nat
      else 0%nat
  end.

Lemma paths_from_add sid n : forall count k,
  paths_from sid count (n + k) =
  paths_from sid count n ++ paths_from sid (count + Z.of_nat n) k.
Proof.
  induction n as [|n IH]; intros count k.
  - cbn. now rewrite Z.add_0_r.
  - cbn [Nat.add paths_from app]. rewrite IH. do 3 f_equal. lia.
Qed.

Lemma imwrites_app l1 l2 : imwrites (l1 ++ l2) = imwrites l1 ++ imwrites l2.
Proof. apply flat_map_app. Qed.

Lemma imwrites_IMWRITE l : imwrites (map IMWRITE l) = l.
Proof. induction l as [|p l IH]; [reflexivity|]. cbn. f_equal. exact IH. Qed.

Lemma save_faces_run sid rois : forall count preview (e : Engine image),
  exists e',
    save_faces image FACES_DIR sid rois count preview e =
    (Ok (count + Z.of_nat (List.length rois),
         last (map Some (paths_from sid count (List.length rois))) preview), e') /\
    io_log e' = io_log e ++ map IMWRITE (paths_from sid count (List.length rois)).
Proof.
  induction rois as [|roi rois IH]; intros count preview e.
  - exists e. cbn. rewrite Z.add_0_r, app_nil_r. now split.
  - cbn [save_faces]. unfold bind at 1. unfold imwrite at 1.
    match goal with
    | |- context [save_faces _ _ _ _ _ _ ?e1] =>
        destruct (IH (count + 1) (Some (sample_path sid count)) e1) as [e' [Hrun Hlog]]
    end.
    exists e'. split.
    + unfold sample_path in Hrun. rewrite Hrun.
      cbn [List.length paths_from map]. rewrite last_cons_default.
      do 3 f_equal. lia.
    + rewrite Hlog. cbn [io_log List.length paths_from map].
      now rewrite <- app_assoc.
Qed.

Lemma capture_loop_run sid samples cam : forall count preview (e : Engine image),
  let paths := paths_from sid count (crops_saved samples cam count) in
  exists e',
    capture_loop image FACES_DIR sid samples cam count preview e =
    (Ok (last (map Some paths) preview), e') /\
    io_log e' = io_log e ++ map IMWRITE paths.
Proof.
  induction cam as [|fr cam IH]; intros count preview e.
  - exists e. cbn. rewrite app_nil_r. now split.
  - cbn [capture_loop crops_saved]. destruct (count <? samples).
    + destruct (save_faces_run sid (faces fr) count preview e) as [e1 [Hsave Hlog1]].
      rewrite (bind_Ok _ _ _ _ _ Hsave). cbn [fst snd].
      destruct (q_pressed (key fr)).
      * exists e1. now split.
      * destruct (IH (count + Z.of_nat (List.length (faces fr)))
                     (last (map Some (paths_from sid count (List.length (faces fr))))
                           preview) e1) as [e2 [Hloop Hlog2]].
        exists e2. cbv zeta. rewrite paths_from_add. split.
        -- rewrite Hloop. now rewrite map_app, last_app_default.
        -- rewrite Hlog2, Hlog1, map_app. now rewrite app_assoc.
    + exists e. cbn. rewrite app_nil_r. now split.
Qed.

(** A folder can be made unless a regular file has its name. *)
Definition folder_available (sid : Z) (e : Engine image) : Prop :=
  forall n, find (fun d => String.eqb (dirent_name image d) (str sid)) (faces_dir e)
            <> Some (RegularFile n).

Lemma makedirs_run sid (e : Engine image) :
  folder_available sid e ->
  exists e' evs,
    makedirs image FACES_DIR (str sid) e = (Ok tt, e') /\
    io_log e' = io_log e ++ evs /\ imwrites evs = [].
Proof.
  intros Hav. unfold makedirs.
  destruct (find _ (faces_dir e)) as [[n|n files]|] eqn:E.
  - exfalso. now apply (Hav n).
  - exists e, []. rewrite app_nil_r. now repeat split.
  - eexists. exists [MAKEDIRS (path_join FACES_DIR (str sid))]. now repeat split.
Qed.

Lemma last_Some_paths (l : list string) :
  match last (map Some l) None with Some p => p | None => ""%string end
  = last l ""%string.
Proof.
  destruct l as [|p l]; [reflexivity|].
  cbn [map]. rewrite !last_cons_default.
  revert p. induction l as [|q l IH]; intros p; [reflexivity|].
  cbn [map]. rewrite !last_cons_default. apply IH.
Qed.

(** A run of [capture_samples]: what it returns and what it writes. *)
Lemma capture_samples_run sid samples cam (e : Engine image) :
  folder_available sid e ->
  exists e' new,
    capture_samples FACES_DIR sid samples cam e = (Ok (last (imwrites new) ""%string), e') /\
    io_log e' = io_log e ++ new /\
    List.length (imwrites new) = crops_saved samples cam 0.
Proof.
  intros Hav. destruct (makedirs_run sid e Hav) as (e1 & evs & Hmk & Hlog1 & Hnone).
  destruct (capture_loop_run sid samples cam 0 None e1) as [e2 [Hloop Hlog2]].
  exists e2, (evs ++ map IMWRITE (paths_from sid 0 (crops_saved samples cam 0))).
  rewrite imwrites_app, Hnone, imwrites_IMWRITE. cbn [app]. repeat split.
  - unfold capture_samples. rewrite (bind_Ok _ _ _ _ _ Hmk).
    rewrite (bind_Ok _ _ _ _ _ Hloop). unfold ret. now rewrite last_Some_paths.
  - rewrite Hlog2, Hlog1. now rewrite app_assoc.
  - clear. generalize (crops_saved samples cam 0). generalize 0.
    intros z n. revert z. induction n as [|n IH]; intros z; [reflexivity|].
    cbn. now rewrite IH.
Qed.

(** A frame with more faces than the budget left makes the loop save
    more crops than requested. *)
Lemma crops_saved_overshoot samples fr post pre : forall count,
  Forall (fun f => q_pressed (key f) = false) pre ->
  count + Z.of_nat (List.length (flat_map faces pre)) < samples ->
  samples - (count + Z.of_nat (List.length (flat_map faces pre)))
    < Z.of_nat (List.length (faces fr)) ->
  0 <= count ->
  samples < count + Z.of_nat (crops_saved samples (pre ++ fr :: post) count).
Proof.
  induction pre as [|f pre IH]; intros count Hq Hlt Hover Hpos.
  - cbn [app crops_saved flat_map List.length] in *.
    replace (count <? samples) with true by (symmetry; apply Z.ltb_lt; lia).
    destruct (q_pressed (key fr)); lia.
  - inversion Hq as [|f' pre' Hqf Hq']; subst.
    cbn [app crops_saved flat_map] in *. rewrite length_app in Hlt, Hover.
    replace (count <? samples) with true by (symmetry; apply Z.ltb_lt; lia).
    rewrite Hqf.
    specialize (IH (count + Z.of_nat (List.length (faces f))) Hq').
    lia.
Qed.

(** *** What a capture leaves in the student's folder *)

(** The name of the file the [count]-th crop of a student goes to. *)
Definition sample_name (student_id count : Z) : string :=
  (str student_id ++ "_" ++ zfill_d 3 count ++ ".png")%string.

(** The crops the loop of [capture_samples] saves, in the order it saves
    them, starting from [count]. *)
Fixpoint crops_taken (samples : Z) (cam : list (frame image)) (count : Z) : list image :=
  match cam with
  | [] => []
  | fr :: cam' =>
      if count <? samples then
        if q_pressed (key fr) then faces fr
        else faces fr ++ crops_taken samples cam' (count + Z.of_nat (List.length (faces fr)))
      else []
  end.

(** The files that hold the crops [rois], numbered from [count]. *)
Fixpoint crop_files (student_id count : Z) (rois : list image) : list (file image) :=
  match rois with
  | [] => []
  | roi :: rest =>
      mkFile (sample_name student_id count) (Some roi)
      :: crop_files student_id (count + 1) rest
  end.

(** Files written one after the other into a folder. *)
Definition put_files (new files : list (file image)) : list (file image) :=
  fold_left (fun fs f => put_file image f fs) new files.

(** A change made to the folders of a given name. *)
Definition in_folder (folder : string) (g : list (file image) -> list (file image))
           (d : dirent image) : dirent image :=
  match d with
  | Directory n files => if String.eqb n folder then Directory n (g files) else d
  | RegularFile _ => d
  end.

Lemma crops_taken_length samples cam : forall count,
  List.length (crops_taken samples cam count) = crops_saved samples cam count.
Proof.
  induction cam as [|fr cam IH]; intros count; [reflexivity|].
  cbn [crops_taken crops_saved]. destruct (count <? samples); [|reflexivity].
  destruct (q_pressed (key fr)); [reflexivity|]. now rewrite length_app, IH.
Qed.

Lemma crop_files_app sid l1 : forall l2 count,
  crop_files sid count (l1 ++ l2) =
  crop_files sid count l1 ++ crop_files sid (count + Z.of_nat (List.length l1)) l2.
Proof.
  induction l1 as [|roi l1 IH]; intros l2 count.
  - cbn. now rewrite Z.add_0_r.
  - cbn [app crop_files List.length]. rewrite IH. do 3 f_equal. lia.
Qed.

Lemma crop_files_length sid rois : forall count,
  List.length (crop_files sid count rois) = List.length rois.
Proof. induction rois as [|roi rois IH]; intros count; cbn; [|rewrite IH]; reflexivity. Qed.

Lemma crop_files_paths sid rois : forall count,
  map (fun f => path_join (path_join FACES_DIR (str sid)) (fname f)) (crop_files sid count rois)
  = paths_from sid count (List.length rois).
Proof.
  induction rois as [|roi rois IH]; intros count; [reflexivity|].
  cbn [crop_files map List.length paths_from fname]. now rewrite IH.
Qed.

Lemma sample_name_inj sid a b :
  0 <= a -> 0 <= b -> sample_name sid a = sample_name sid b -> a = b.
Proof.
  intros Ha Hb H. unfold sample_name in H.
  apply append_cancel_l in H. cbn [append] in H. injection H as H.
  apply append_cancel_r in H. now apply (zfill_d_inj 3).
Qed.

Lemma crop_files_names sid rois : forall count n,
  In n (map fname (crop_files sid count rois)) ->
  exists k, count <= k /\ n = sample_name sid k.
Proof.
  induction rois as [|roi rois IH]; intros count n; [intros []|].
  cbn [crop_files map fname]. intros [<-|Hin].
  - exists count. split; [lia|reflexivity].
  - destruct (IH _ _ Hin) as (k & Hk & ->). exists k. split; [lia|reflexivity].
Qed.

(** The crops of one capture go to files of distinct names. *)
Lemma crop_files_NoDup sid rois : forall count,
  0 <= count -> NoDup (map fname (crop_files sid count rois)).
Proof.
  induction rois as [|roi rois IH]; intros count Hc; [constructor|].
  cbn [crop_files map fname]. constructor; [|apply IH; lia].
  intros Hin. apply crop_files_names in Hin as (k & Hk & Heq).
  apply sample_name_inj in Heq; lia.
Qed.

Lemma put_file_In (f : file image) files : In f (put_file image f files).
Proof.
  induction files as [|g files IH]; [now left|].
  cbn [put_file]. destruct (String.eqb (fname g) (fname f)); [now left|now right].
Qed.

Lemma put_file_keeps (f g : file image) files :
  In g files -> fname g <> fname f -> In g (put_file image f files).
Proof.
  intros Hin Hne. induction files as [|h files IH]; [contradiction|].
  cbn [put_file]. destruct (String.eqb_spec (fname h) (fname f)) as [Heq|Hneq].
  - destruct Hin as [->|Hin]; [contradiction|now right].
  - destruct Hin as [->|Hin]; [now left|right; now apply IH].
Qed.

Lemma put_files_keeps new : forall files (g : file image),
  In g files -> ~ In (fname g) (map fname new) -> In g (put_files new files).
Proof.
  induction new as [|f new IH]; intros files g Hin Hnot; [exact Hin|].
  cbn [put_files fold_left]. apply IH.
  - apply put_file_keeps; [exact Hin|]. intros Heq. apply Hnot. left. now symmetry.
  - intros H. apply Hnot. now right.
Qed.

(** Files of distinct names written into a folder are all there
    afterwards. *)
Lemma put_files_incl new : forall files,
  NoDup (map fname new) -> incl new (put_files new files).
Proof.
  induction new as [|f new IH]; intros files Hnd g Hg; [contradiction|].
  cbn [map] in Hnd. inversion Hnd as [|n ns Hnotin Hnd']; subst.
  cbn [put_files fold_left]. destruct Hg as [<-|Hg].
  - apply (put_files_keeps new); [apply put_file_In|exact Hnotin].
  - now apply IH.
Qed.

Lemma in_folder_compose folder g1 g2 d :
  in_folder folder g2 (in_folder folder g1 d) = in_folder folder (fun fs => g2 (g1 fs)) d.
Proof.
  destruct d as [n|n files]; [reflexivity|]. cbn [in_folder].
  destruct (String.eqb n folder) eqn:E; cbn [in_folder]; now rewrite E.
Qed.

Lemma save_faces_files sid rois : forall count preview (e : Engine image),
  faces_dir (snd (save_faces image FACES_DIR sid rois count preview e)) =
  map (in_folder (str sid) (put_files (crop_files sid count rois))) (faces_dir e).
Proof.
  induction rois as [|roi rois IH]; intros count preview e.
  - cbn [save_faces ret snd crop_files put_files fold_left].
    rewrite <- (map_id (faces_dir e)) at 1. apply map_ext.
    intros [n|n files]; [reflexivity|]. cbn [in_folder]. now destruct (String.eqb n (str sid)).
  - cbn [save_faces]. unfold bind at 1. unfold imwrite at 1.
    rewrite IH. cbn [faces_dir]. rewrite map_map. apply map_ext.
    intros [n|n files]; [reflexivity|]. cbn [in_folder].
    destruct (String.eqb n (str sid)) eqn:E; cbn [in_folder]; now rewrite E.
Qed.

Lemma in_folder_ext folder g1 g2 (d : dirent image) :
  (forall fs, g1 fs = g2 fs) -> in_folder folder g1 d = in_folder folder g2 d.
Proof.
  intros H. destruct d as [n|n files]; [reflexivity|]. cbn [in_folder].
  destruct (String.eqb n folder); [now rewrite H|reflexivity].
Qed.

Lemma in_folder_nothing folder (l : list (dirent image)) :
  map (in_folder folder (put_files [])) l = l.
Proof.
  rewrite <- (map_id l) at 2. apply map_ext.
  intros [n|n files]; [reflexivity|]. cbn [in_folder]. now destruct (String.eqb n folder).
Qed.

Lemma capture_loop_files sid samples cam : forall count preview (e : Engine image),
  faces_dir (snd (capture_loop image FACES_DIR sid samples cam count preview e)) =
  map (in_folder (str sid) (put_files (crop_files sid count (crops_taken samples cam count))))
      (faces_dir e).
Proof.
  induction cam as [|fr cam IH]; intros count preview e.
  - cbn [capture_loop crops_taken crop_files ret snd]. now rewrite in_folder_nothing.
  - cbn [capture_loop crops_taken]. destruct (count <? samples).
    + destruct (save_faces_run sid (faces fr) count preview e) as [e1 [Hsave _]].
      pose proof (save_faces_files sid (faces fr) count preview e) as Hf.
      rewrite Hsave in Hf. cbn [snd] in Hf.
      rewrite (bind_Ok _ _ _ _ _ Hsave). cbn [fst snd].
      destruct (q_pressed (key fr)); [exact Hf|].
      rewrite IH, Hf, map_map. apply map_ext. intros d.
      rewrite in_folder_compose. apply in_folder_ext. intros fs.
      rewrite crop_files_app. unfold put_files. now rewrite fold_left_app.
    + cbn [crop_files ret snd]. now rewrite in_folder_nothing.
Qed.

(** [makedirs] leaves a folder of the student's name behind, and
    touches nothing else. *)
Lemma makedirs_folder sid (e : Engine image) :
  folder_available sid e ->
  exists e1 extra,
    makedirs image FACES_DIR (str sid) e = (Ok tt, e1) /\
    faces_dir e1 = faces_dir e ++ extra /\
    (extra = [] \/ extra = [Directory (str sid) []]) /\
    exists files, In (Directory (str sid) files) (faces_dir e1).
Proof.
  intros Hav. unfold makedirs.
  destruct (find _ (faces_dir e)) as [[n|n files]|] eqn:E.
  - exfalso. now apply (Hav n).
  - exists e, []. rewrite app_nil_r. repeat split; [now left|].
    apply find_some in E as [Hin Hname]. cbn [dirent_name] in Hname.
    apply String.eqb_eq in Hname. subst n. now exists files.
  - eexists _, [Directory (str sid) []]. cbn [faces_dir]. repeat split; [now right|].
    exists []. apply in_or_app. right. now left.
Qed.

(** After a capture the student has a folder, and every such folder
    holds each crop taken, in the file numbered after its rank. *)
Lemma capture_samples_files sid samples cam (e : Engine image) :
  folder_available sid e ->
  let e' := snd (capture_samples FACES_DIR sid samples cam e) in
  (exists files, In (Directory (str sid) files) (faces_dir e')) /\
  (forall files, In (Directory (str sid) files) (faces_dir e') ->
                 incl (crop_files sid 0 (crops_taken samples cam 0)) files).
Proof.
  intros Hav e'.
  destruct (makedirs_folder sid e Hav) as (e1 & extra & Hmk & _ & _ & files0 & Hin0).
  destruct (capture_loop_run sid samples cam 0 None e1) as [e2 [Hloop _]].
  pose proof (capture_loop_files sid samples cam 0 None e1) as Hf.
  rewrite Hloop in Hf. cbn [snd] in Hf.
  assert (He' : e' = e2).
  { unfold e', capture_samples. rewrite (bind_Ok _ _ _ _ _ Hmk).
    now rewrite (bind_Ok _ _ _ _ _ Hloop). }
  rewrite He', Hf. split.
  - eexists. apply in_map_iff. exists (Directory (str sid) files0).
    split; [|exact Hin0]. cbn [in_folder]. now rewrite String.eqb_refl.
  - intros files Hin. apply in_map_iff in Hin as [[n|n fs] [Heq _]]; [discriminate|].
    cbn [in_folder] in Heq. destruct (String.eqb_spec n (str sid)) as [->|Hne].
    + injection Heq as <-. apply put_files_incl. apply crop_files_NoDup. lia.
    + injection Heq as Hn _. contradiction.
Qed.

(** The preview path and the log of a capture, in terms of the crops
    taken. *)
Lemma capture_samples_saves sid samples cam (e : Engine image) :
  folder_available sid e ->
  let saved := crop_files sid 0 (crops_taken samples cam 0) in
  let paths := map (fun f => path_join (path_join FACES_DIR (str sid)) (fname f)) saved in
  exists e' new,
    capture_samples FACES_DIR sid samples cam e = (Ok (last paths ""%string), e') /\
    io_log e' = io_log e ++ new /\
    imwrites new = paths.
Proof.
  intros Hav saved paths.
  destruct (makedirs_run sid e Hav) as (e1 & evs & Hmk & Hlog1 & Hnone).
  destruct (capture_loop_run sid samples cam 0 None e1) as [e2 [Hloop Hlog2]].
  assert (Hpaths : paths = paths_from sid 0 (crops_saved samples cam 0)).
  { unfold paths, saved. now rewrite crop_files_paths, crops_taken_length. }
  exists e2, (evs ++ map IMWRITE paths).
  rewrite imwrites_app, Hnone, imwrites_IMWRITE. cbn [app]. repeat split.
  - unfold capture_samples. rewrite (bind_Ok _ _ _ _ _ Hmk).
    rewrite (bind_Ok _ _ _ _ _ Hloop). unfold ret. rewrite last_Some_paths.
    now rewrite Hpaths.
  - rewrite Hlog2, Hlog1, Hpaths. now rewrite app_assoc.
Qed.

(** In a folder that holds the files of distinct names of a capture
    there are at least as many files as crops. *)
Lemma crop_files_fit sid rois (files : list (file image)) :
  incl (crop_files sid 0 rois) files -> (List.length rois <= List.length files)%nat.
Proof.
  intros Hincl. rewrite <- (crop_files_length sid rois 0).
  apply NoDup_incl_length; [|exact Hincl].
  apply (NoDup_map_inv fname). apply crop_files_NoDup. lia.
Qed.

(** While the count is below [samples] and [q] is not pressed, every
    face of every frame is taken. *)
Lemma crops_taken_frame samples fr post pre : forall count,
  Forall (fun f => q_pressed (key f) = false) pre ->
  count + Z.of_nat (List.length (flat_map faces pre)) < samples ->
  exists rest,
    crops_taken samples (pre ++ fr :: post) count = flat_map faces pre ++ faces fr ++ rest.
Proof.
  induction pre as [|f pre IH]; intros count Hq Hlt.
  - cbn [app crops_taken flat_map List.length] in *.
    replace (count <? samples) with true by (symmetry; apply Z.ltb_lt; lia).
    destruct (q_pressed (key fr)); eexists; [now rewrite app_nil_r|reflexivity].
  - inversion Hq as [|f' pre' Hqf Hq']; subst.
    cbn [app crops_taken flat_map] in *. rewrite length_app in Hlt.
    replace (count <? samples) with true by (symmetry; apply Z.ltb_lt; lia).
    rewrite Hqf.
    destruct (IH (count + Z.of_nat (List.length (faces f))) Hq' ltac:(lia)) as [rest ->].
    exists rest. now rewrite <- app_assoc.
Qed.

End Capture.

Arguments folder_available {image} _ _.
Arguments crops_saved {image} _ _ _.
Arguments crops_taken {image} _ _ _.
Arguments crop_files {image} _ _ _.

(** C10: [capture_samples] can save more crops than requested.  Every
    crop it takes is written to the student's folder, under a name of
    its own numbered after its rank, and is there afterwards; the path
    returned is that of the file of the last crop (the empty string when
    none was taken).  The count is tested against [samples] once per
    frame: whenever the frames read so far (none with [q] pressed) gave
    fewer crops than [samples] and the next frame holds more faces than
    the budget left, all the faces of that frame are taken too, and the
    folder ends up with more than [samples] files. *)
Theorem capture_samples_overshoots
        (image : Type) (FACES_DIR : string) (student_id samples : Z)
        (cam : list (frame image)) (e : Engine image) :
  folder_available student_id e ->
  let crops := crops_taken samples cam 0 in
  let saved := crop_files student_id 0 crops in
  let folder := path_join FACES_DIR (str student_id) in
  exists p e' new,
    capture_samples FACES_DIR student_id samples cam e = (Ok p, e') /\
    io_log e' = io_log e ++ new /\
    imwrites new = map (fun f => path_join folder (fname f)) saved /\
    p = last (imwrites new) ""%string /\
    NoDup (map fname saved) /\
    (exists files, In (Directory (str student_id) files) (faces_dir e')) /\
    (forall files,
       In (Directory (str student_id) files) (faces_dir e') ->
       incl saved files /\ (List.length crops <= List.length files)%nat) /\
    (forall pre fr post,
       cam = pre ++ fr :: post ->
       Forall (fun f => q_pressed (key f) = false) pre ->
       Z.of_nat (List.length (flat_map faces pre)) < samples ->
       samples - Z.of_nat (List.length (flat_map faces pre))
         < Z.of_nat (List.length (faces fr)) ->
       (exists rest, crops = flat_map faces pre ++ faces fr ++ rest) /\
       samples < Z.of_nat (List.length crops)).
Proof.
  intros Hav crops saved folder.
  destruct (capture_samples_saves image FACES_DIR student_id samples cam e Hav)
    as (e' & new & Hrun & Hlog & Hpaths).
  destruct (capture_samples_files image FACES_DIR student_id samples cam e Hav)
    as [Hfolder Hfiles].
  rewrite Hrun in Hfolder, Hfiles. cbn [snd] in Hfolder, Hfiles.
  exists (last (imwrites new) ""%string), e', new.
  split; [now rewrite Hpaths|]. split; [exact Hlog|]. split; [exact Hpaths|].
  split; [reflexivity|]. split; [apply crop_files_NoDup; lia|].
  split; [exact Hfolder|]. split.
  - intros files Hin. split; [now apply Hfiles|].
    apply (crop_files_fit image student_id). now apply Hfiles.
  - intros pre fr post -> Hq Hlt Hover.
    destruct (crops_taken_frame image samples fr post pre 0 Hq ltac:(lia)) as [rest Hrest].
    split; [now exists rest|].
    unfold crops. rewrite Hrest, !length_app. lia.
Qed.

Definition engine_empty : Engine Z := mkEngine [] None None [].

Lemma capture_samples_overshoots_witness :
  exists p e' new,
    capture_samples "/srv/data/faces" 7 2
      [mkFrame [11] no_key; mkFrame [12; 13; 14] no_key; mkFrame [15] no_key] engine_empty
    = (Ok p, e') /\
    io_log e' = new /\
    p = last (imwrites new) ""%string /\
    p = "/srv/data/faces/7/7_003.png"%string /\
    (forall files,
       In (Directory "7" files) (faces_dir e') ->
       incl [mkFile "7_000.png" (Some 11); mkFile "7_001.png" (Some 12);
             mkFile "7_002.png" (Some 13); mkFile "7_003.png" (Some 14)]%string files /\
       (4 <= List.length files)%nat) /\
    2 < Z.of_nat (List.length
                    (crops_taken 2 [mkFrame [11] no_key; mkFrame [12; 13; 14] no_key;
                                    mkFrame [15] no_key] 0)).
Proof.
  destruct (capture_samples_overshoots Z "/srv/data/faces" 7 2
              [mkFrame [11] no_key; mkFrame [12; 13; 14] no_key; mkFrame [15] no_key]
              engine_empty)
    as (p & e' & new & Hrun & Hlog & Hpaths & Hp & _ & _ & Hfiles & Hover).
  - intros n. cbn. discriminate.
  - exists p, e', new. split; [exact Hrun|]. split; [exact Hlog|]. split; [exact Hp|].
    split; [now rewrite Hp, Hpaths|]. split; [exact Hfiles|].
    apply (Hover [mkFrame [11] no_key] (mkFrame [12; 13; 14] no_key) [mkFrame [15] no_key]).
    + reflexivity.
    + repeat constructor.
    + cbn. lia.
    + cbn. lia.
Defined.

Example capture_samples_overshoot_run :
  fst (capture_samples "/srv/data/faces" 7 2
         [mkFrame [11] no_key; mkFrame [12; 13; 14] no_key; mkFrame [15] no_key] engine_empty)
    = Ok "/srv/data/faces/7/7_003.png"%string /\
  imwrites (io_log (snd (capture_samples "/srv/data/faces" 7 2
         [mkFrame [11] no_key; mkFrame [12; 13; 14] no_key; mkFrame [15] no_key] engine_empty)))
    = ["/srv/data/faces/7/7_000.png"; "/srv/data/faces/7/7_001.png";
       "/srv/data/faces/7/7_002.png"; "/srv/data/faces/7/7_003.png"]%string /\
  faces_dir (snd (capture_samples "/srv/data/faces" 7 2
         [mkFrame [11] no_key; mkFrame [12; 13; 14] no_key; mkFrame [15] no_key] engine_empty))
    = [Directory "7" [mkFile "7_000.png" (Some 11); mkFile "7_001.png" (Some 12);
                      mkFile "7_002.png" (Some 13); mkFile "7_003.png" (Some 14)]]%string.
Proof. repeat split; reflexivity. Qed.

(** ** The routes *)

Lemma in_session_Ok {image A} (m : SM A) (s s' : Session) (w : World image) (a : A) :
  m s = (Ok a, s') -> in_session m (s, w) = (Ok a, (s', w)).
Proof. intros H. unfold in_session. cbn [fst snd]. now rewrite H. Qed.

Lemma in_engine_Ok {image A} (m : EM image A) (w : World image) e' (a : A) :
  m (engine w) = (Ok a, e') ->
  in_engine m w = (Ok a, mkWorld (db w) e' (flashes w) (sql_log w)).
Proof. intros H. unfold in_engine. now rewrite H. Qed.

(** A (student, day) query under [uq_student_day]: no row or one. *)
Lemma filter_unique_key {A} (f : A -> string) (l : list A) (x : A) :
  NoDup (map f l) -> In x l ->
  filter (fun y => String.eqb (f y) (f x)) l = [x].
Proof.
  induction l as [|y l IH]; intros Hnd Hin; [contradiction|].
  cbn [map] in Hnd. inversion Hnd as [|k ks Hnotin Hnd']; subst.
  cbn [filter]. destruct Hin as [->|Hin].
  - rewrite String.eqb_refl. f_equal.
    clear IH Hnd Hnd'. induction l as [|z l IHl]; [reflexivity|].
    cbn [filter]. destruct (String.eqb (f z) (f x)) eqn:E.
    + exfalso. apply Hnotin. apply String.eqb_eq in E. rewrite <- E. now left.
    + apply IHl. intros H. apply Hnotin. now right.
  - destruct (String.eqb (f y) (f x)) eqn:E.
    + exfalso. apply Hnotin. apply String.eqb_eq in E. rewrite E. now apply in_map.
    + now apply IH.
Qed.

(** C7: when the engine returns no confident match, [/api/mark_attendance]
    answers [{ok: false, msg: ...}] with status 400 and the database is
    what it was: no statement is sent to it. *)
Theorem api_mark_attendance_no_match
        (image : Type) (predict : trained image -> image -> Z * Q)
        (cam : list (frame image)) (utc1 utc2 : Z) (w : World image) (e' : Engine image) :
  recognize_once predict (70 # 1) cam (engine w) = (Ok None, e') ->
  api_mark_attendance predict cam utc1 utc2 w =
  (Ok (jsonify (VDict [("ok", VBool false); ("msg", VStr "No confident face match")]) 400),
   mkWorld (db w) e' (flashes w) (sql_log w)).
Proof.
  intros H. unfold api_mark_attendance.
  now rewrite (bind_Ok _ _ _ _ _ (in_engine_Ok _ w e' None H)).
Qed.

Definition world_two_students : World (Z * Q) :=
  mkWorld db_two_students engine_with_model [] [].

Lemma api_mark_attendance_no_match_witness :
  api_mark_attendance tagged_predict
    [mkFrame [(1, 75 # 1)] no_key; mkFrame [] q_key] 0 1 world_two_students =
  (Ok (jsonify (VDict [("ok", VBool false); ("msg", VStr "No confident face match")]) 400),
   mkWorld db_two_students
           (mkEngine [] (model_file engine_with_model) (model_file engine_with_model)
                     [READ_MODEL])
           [] []).
Proof.
  apply (api_mark_attendance_no_match (Z * Q) tagged_predict
           [mkFrame [(1, 75 # 1)] no_key; mkFrame [] q_key] 0 1 world_two_students).
  reflexivity.
Defined.

(** C6: a POST to [/register] whose roll number, once [strip] has
    removed the white space around it (any Unicode white space), is that
    of an existing student changes neither the database nor the face data
    (no statement sent, no capture, no training), flashes the warning and
    redirects to the registration form. *)
Theorem register_duplicate_roll_no
        (image : Type) (FACES_DIR : string) (req : request) (cam : list (frame image))
        (w : World image) (r n : string) (st : Student) :
  method req = "POST"%string ->
  dict_get "roll_no" (form req) = Some r ->
  dict_get "name" (form req) = Some n ->
  wf_tables (db w) ->
  In st (students (db w)) ->
  roll_no st = strip r ->
  register FACES_DIR req cam w =
  (Ok (redirect "register"),
   mkWorld (db w) (engine w) (flashes w ++ [("Roll No already exists", "warning")%string])
           (sql_log w)).
Proof.
  intros Hm Hr Hn Hwf Hin Hroll. unfold register. rewrite Hm. cbn [String.eqb Ascii.eqb Bool.eqb].
  unfold form_strip. rewrite Hr, Hn.
  unfold bind at 1. unfold ret at 1. unfold bind at 1. unfold ret at 1.
  unfold with_SessionLocal.
  assert (Hq : (flush ;;; (fun s : Session =>
                  (Ok (filter (fun st0 => String.eqb (roll_no st0) (strip r))
                              (students (view s))), s)))
                 (SessionLocal (db w)) = (Ok [st], SessionLocal (db w))).
  { change ((Ok (filter (fun st0 => String.eqb (roll_no st0) (strip r)) (students (db w))),
             SessionLocal (db w)) = (Ok [st], SessionLocal (db w))).
    rewrite <- Hroll. rewrite (filter_unique_key roll_no _ st (wf_roll_no _ Hwf) Hin).
    reflexivity. }
  rewrite (bind_Ok _ _ _ _ _ (in_session_Ok _ _ _ w _ Hq)).
  rewrite (bind_Ok _ _ _ _ _
             (in_session_Ok _ _ (SessionLocal (db w)) w (Some st) eq_refl)).
  unfold bind, in_world, flash, ret.
  cbn [fst snd durable SessionLocal engine flashes sql_log log].
  now rewrite app_nil_r.
Qed.

Lemma register_duplicate_roll_no_witness :
  register "/srv/data/faces"
    (mkRequest "POST" [("roll_no", encode [0xA0; 0x32; 0x32; 0x3000; 0x20]);
                       ("name", "Ravi K")]%string [])
    [mkFrame [(1, 75 # 1)] q_key] world_two_students =
  (Ok (redirect "register"),
   mkWorld db_two_students engine_with_model [("Roll No already exists", "warning")%string] []).
Proof.
  apply (register_duplicate_roll_no (Z * Q) "/srv/data/faces"
           (mkRequest "POST" [("roll_no", encode [0xA0; 0x32; 0x32; 0x3000; 0x20]);
                              ("name", "Ravi K")]%string [])
           [mkFrame [(1, 75 # 1)] q_key] world_two_students
           (encode [0xA0; 0x32; 0x32; 0x3000; 0x20]) "Ravi K"
           (mkStudent 2 "22" "Ravi" None None None None)).
  - reflexivity.
  - reflexivity.
  - reflexivity.
  - split; cbn; repeat constructor; cbn; intuition discriminate.
  - cbn. auto.
  - reflexivity.
Defined.

(** ** The timestamp invariant *)

(** A [Present] row carries a timestamp. *)
Definition present_has_timestamp (l : list Attendance) : Prop :=
  forall a, In a l -> status a = "Present"%string -> timestamp a <> None.

(** Units of work that cannot break it: a new row is never [Present]
    (it has no timestamp yet), a modified row satisfies it. *)
Definition op_safe (op : pending_op) : Prop :=
  match op with
  | NewAttendance _ _ st => st <> "Present"%string
  | DirtyAttendance a => status a = "Present"%string -> timestamp a <> None
  | NewStudent _ _ _ _ _ | DirtyStudent _ => True
  end.

(** Statements that cannot break it either: the row they write has its
    timestamp if it is [Present]. *)
Definition sql_safe (st : sql) : Prop :=
  match st with
  | INSERT_attendance a | UPDATE_attendance a =>
      status a = "Present"%string -> timestamp a <> None
  | INSERT_student _ | UPDATE_student _ | COMMIT => True
  end.

Definition session_ok (s : Session) : Prop :=
  present_has_timestamp (attendance (view s)) /\
  present_has_timestamp (attendance (durable s)) /\
  Forall op_safe (pending s) /\
  Forall sql_safe (log s).

Lemma Forall_snoc {A} (P : A -> Prop) l x : Forall P l -> P x -> Forall P (l ++ [x]).
Proof. intros Hl Hx. apply Forall_app. split; [assumption|now constructor]. Qed.

Definition preserves {S A} (I : S -> Prop) (m : M S A) : Prop :=
  forall s, I s -> I (snd (m s)).

Lemma preserves_bind {S A B} (I : S -> Prop) (m : M S A) (f : A -> M S B) :
  preserves I m -> (forall a, preserves I (f a)) -> preserves I (bind m f).
Proof.
  intros Hm Hf s Hs. unfold bind. specialize (Hm s Hs).
  destruct (m s) as [[a|x] s']; cbn [snd] in *; [now apply Hf|assumption].
Qed.

Lemma preserves_ret {S A} (I : S -> Prop) (a : A) : preserves I (@ret S A a).
Proof. intros s Hs. exact Hs. Qed.

Lemma preserves_raise {S A} (I : S -> Prop) x : preserves I (@raise S A x).
Proof. intros s Hs. exact Hs. Qed.

Lemma preserves_get {S} (I : S -> Prop) : preserves I (@get S).
Proof. intros s Hs. exact Hs. Qed.

Lemma preserves_read {S A} (I : S -> Prop) (g : S -> A) :
  preserves I (fun s => (Ok (g s), s)).
Proof. intros s Hs. exact Hs. Qed.

Lemma present_has_timestamp_app l1 l2 :
  present_has_timestamp l1 -> present_has_timestamp l2 ->
  present_has_timestamp (l1 ++ l2).
Proof.
  intros H1 H2 a Hin. apply in_app_or in Hin as [Hin|Hin]; [now apply H1|now apply H2].
Qed.

Lemma present_has_timestamp_replace row l :
  (status row = "Present"%string -> timestamp row <> None) ->
  present_has_timestamp l -> present_has_timestamp (replace_attendance row l).
Proof.
  intros Hrow Hl a Hin. unfold replace_attendance in Hin.
  apply in_map_iff in Hin as [a0 [Ha Hin]].
  destruct (att_id a0 =? att_id row); subst a; [exact Hrow|now apply Hl].
Qed.

Lemma flush_op_ok op : op_safe op -> preserves session_ok (flush_op op).
Proof.
  intros Hsafe s (Hv & Hd & Hp & Hl). unfold flush_op.
  destruct op as [r n e k c|sid d st|row|row]; cbn [op_safe] in Hsafe.
  - destruct (roll_no_taken _ r _); repeat split; try assumption.
    cbn [snd log]. now apply Forall_snoc.
  - destruct (student_day_taken _ sid d _); [repeat split; assumption|].
    repeat split; try assumption; cbn [snd view attendance log].
    + apply present_has_timestamp_app; [assumption|].
      intros a [<-|[]] Hst. cbn in Hst. contradiction.
    + apply Forall_snoc; [assumption|]. cbn. intros Hst. contradiction.
  - destruct (find_student _ _); [|repeat split; assumption].
    destruct (Student_eq_dec _ _); [repeat split; assumption|].
    destruct (roll_no_taken _ _ _); repeat split; try assumption.
    cbn [snd log]. now apply Forall_snoc.
  - destruct (find_attendance _ _); [|repeat split; assumption].
    destruct (Attendance_eq_dec _ _); [repeat split; assumption|].
    destruct (student_day_taken _ _ _ _); [repeat split; assumption|].
    repeat split; try assumption; cbn [snd view attendance log].
    + now apply present_has_timestamp_replace.
    + now apply Forall_snoc.
Qed.

Lemma flush_ops_ok ops : Forall op_safe ops -> preserves session_ok (flush_ops ops).
Proof.
  induction 1 as [|op ops Hop Hops IH]; cbn [flush_ops].
  - apply preserves_ret.
  - apply preserves_bind; [now apply flush_op_ok|intros _; exact IH].
Qed.

Lemma flush_ok : preserves session_ok flush.
Proof.
  intros s Hs. unfold flush.
  pose proof (flush_ops_ok (pending s) (proj1 (proj2 (proj2 Hs))) s Hs) as H.
  unfold bind. destruct (flush_ops (pending s) s) as [[[]|x] s']; cbn [snd] in *.
  - destruct H as (Hv & Hd & _ & Hl). repeat split; try assumption. constructor.
  - exact H.
Qed.

Lemma commit_ok : preserves session_ok commit.
Proof.
  unfold commit. apply preserves_bind; [exact flush_ok|]. intros _ s (Hv & Hd & Hp & Hl).
  repeat split; try assumption. cbn [snd log]. now apply Forall_snoc.
Qed.

Lemma add_ok op : op_safe op -> preserves session_ok (add op).
Proof.
  intros Hop s (Hv & Hd & Hp & Hl). repeat split; try assumption.
  cbn [snd add pending]. now apply Forall_snoc.
Qed.

Lemma one_or_none_ok {A} (rows : list A) : preserves session_ok (one_or_none rows).
Proof.
  destruct rows as [|r [|r' rows]]; [apply preserves_ret|apply preserves_ret|apply preserves_raise].
Qed.

Lemma for_each_ok {S A} (I : S -> Prop) (body : A -> M S unit) (l : list A) :
  (forall x, preserves I (body x)) -> preserves I (for_each body l).
Proof.
  intros Hbody. induction l as [|x l IH]; cbn [for_each].
  - apply preserves_ret.
  - apply preserves_bind; [apply Hbody|intros _; exact IH].
Qed.

Lemma ensure_day_rows_ok d : preserves session_ok (ensure_day_rows d).
Proof.
  unfold ensure_day_rows, query_students_all.
  apply preserves_bind;
    [apply preserves_bind; [exact flush_ok|intros _; apply preserves_read]|].
  intros studs. apply preserves_bind; [|intros _; exact commit_ok].
  apply for_each_ok. intros x. unfold ensure_day_row, query_attendance_by_student_day.
  apply preserves_bind;
    [apply preserves_bind; [exact flush_ok|intros _; apply preserves_read]|].
  intros rows. apply preserves_bind; [apply one_or_none_ok|].
  intros [a|]; [apply preserves_ret|]. apply add_ok. cbn. discriminate.
Qed.

Section RoutesInvariant.

Variable image : Type.
Variable predict : trained image -> image -> Z * Q.
Variable FACES_DIR : string.
Variable strptime_date : string -> option date.

Definition world_ok (w : World image) : Prop :=
  present_has_timestamp (attendance (db w)) /\ Forall sql_safe (sql_log w).

Definition handler_ok (h : Session * World image) : Prop :=
  session_ok (fst h) /\ Forall sql_safe (sql_log (snd h)).

Definition keeps_sql_log {A} (m : M (World image) A) : Prop :=
  forall w, sql_log (snd (m w)) = sql_log w.

Lemma in_session_ok {A} (m : SM A) :
  preserves session_ok m -> preserves handler_ok (in_session (image := image) m).
Proof.
  intros Hm [s w] [Hs Hw]. unfold in_session, handler_ok in *. cbn [fst snd] in *.
  specialize (Hm s Hs). now destruct (m s).
Qed.

Lemma in_world_ok {A} (m : M (World image) A) :
  keeps_sql_log m -> preserves handler_ok (in_world m).
Proof.
  intros Hm [s w] [Hs Hw]. unfold in_world, handler_ok in *. cbn [fst snd] in *.
  specialize (Hm w). destruct (m w) as [r w']. cbn [fst snd] in *. now rewrite Hm.
Qed.

Lemma in_engine_keeps {A} (m : EM image A) : keeps_sql_log (in_engine m).
Proof. intros w. unfold in_engine. now destruct (m (engine w)). Qed.

Lemma flash_keeps msg cat : keeps_sql_log (flash (image := image) msg cat).
Proof. intros w. reflexivity. Qed.

Lemma in_engine_ok {A} (m : EM image A) : preserves world_ok (in_engine m).
Proof.
  intros w Hw. unfold in_engine, world_ok in *. now destruct (m (engine w)).
Qed.

Lemma with_SessionLocal_ok {A} (body : M (Session * World image) A) :
  preserves handler_ok body -> preserves world_ok (with_SessionLocal body).
Proof.
  intros Hbody w [Hw Hl]. unfold with_SessionLocal.
  specialize (Hbody (SessionLocal (db w), w)).
  destruct (body (SessionLocal (db w), w)) as [r h]. cbn [snd] in *.
  unfold world_ok. cbn [db sql_log].
  destruct Hbody as [(Hv & Hd & Hp & Hlog) Hl'].
  - repeat split; try assumption; constructor.
  - split; [exact Hd|]. apply Forall_app. now split.
Qed.

Lemma form_strip_ok {S} (I : S -> Prop) req k : preserves I (form_strip (S := S) req k).
Proof.
  unfold form_strip. destruct (dict_get k (form req));
    [apply preserves_ret|apply preserves_raise].
Qed.

Lemma query_attendance_of_day_ok d : preserves session_ok (query_attendance_of_day d).
Proof.
  unfold query_attendance_of_day.
  apply preserves_bind; [exact flush_ok|intros _; apply preserves_read].
Qed.

Ltac preserve :=
  repeat first
    [ apply preserves_ret | apply preserves_raise | apply preserves_get
    | apply preserves_read
    | apply in_world_ok; first [apply in_engine_keeps | apply flash_keeps]
    | apply in_engine_ok
    | apply form_strip_ok
    | apply with_SessionLocal_ok
    | apply in_session_ok
    | exact flush_ok | exact commit_ok | apply one_or_none_ok
    | apply ensure_day_rows_ok | apply query_attendance_of_day_ok
    | apply add_ok; cbn [op_safe status timestamp]; try discriminate; try exact I
    | apply preserves_bind; [|intro]
    | match goal with
      | |- preserves _ (match ?x with _ => _ end) => destruct x
      end ].

Lemma dashboard_ok utc : preserves world_ok (dashboard utc).
Proof. unfold dashboard. preserve. Qed.

Lemma register_ok req cam : preserves world_ok (register FACES_DIR req cam).
Proof. unfold register. preserve. Qed.

Lemma student_edit_ok sid req cam : preserves world_ok (student_edit FACES_DIR sid req cam).
Proof. unfold student_edit. preserve. Qed.

Lemma attendance_page_ok utc : preserves world_ok (attendance_page utc).
Proof. unfold attendance_page. preserve. Qed.

Lemma api_mark_attendance_ok cam utc1 utc2 :
  preserves world_ok (api_mark_attendance predict cam utc1 utc2).
Proof. unfold api_mark_attendance, query_attendance_by_student_day. preserve. Qed.

Lemma api_attendance_today_ok utc : preserves world_ok (api_attendance_today utc).
Proof. unfold api_attendance_today. preserve. Qed.

Lemma _download_attendance_for_date_ok d :
  preserves world_ok (_download_attendance_for_date d).
Proof. unfold _download_attendance_for_date. preserve. Qed.

Lemma download_attendance_by_date_ok req :
  preserves world_ok (download_attendance_by_date strptime_date req).
Proof.
  unfold download_attendance_by_date, _download_attendance_for_date. preserve.
Qed.

Lemma download_attendance_pdf_ok req utc :
  preserves world_ok (download_attendance_pdf strptime_date req utc).
Proof. unfold download_attendance_pdf. preserve. Qed.

Lemma students_page_ok : preserves world_ok (students_page (image := image)).
Proof. unfold students_page. preserve. Qed.

Lemma download_students_ok : preserves world_ok (download_students (image := image)).
Proof. unfold download_students. preserve. Qed.

(** One request served: any route, with any input. *)
Inductive serves : World image -> World image -> Prop :=
| serves_dashboard utc w : serves w (snd (dashboard utc w))
| serves_register req cam w : serves w (snd (register FACES_DIR req cam w))
| serves_students w : serves w (snd (students_page w))
| serves_student_edit sid req cam w :
    serves w (snd (student_edit FACES_DIR sid req cam w))
| serves_download_students w : serves w (snd (download_students w))
| serves_attendance_page utc w : serves w (snd (attendance_page utc w))
| serves_api_mark_attendance cam utc1 utc2 w :
    serves w (snd (api_mark_attendance predict cam utc1 utc2 w))
| serves_api_attendance_today utc w : serves w (snd (api_attendance_today utc w))
| serves_download_attendance_today utc w :
    serves w (snd (download_attendance_today utc w))
| serves_download_attendance_by_date req w :
    serves w (snd (download_attendance_by_date strptime_date req w))
| serves_download_attendance_pdf req utc w :
    serves w (snd (download_attendance_pdf strptime_date req utc w)).

(** Any number of requests, one after the other. *)
Inductive reaches : World image -> World image -> Prop :=
| reaches_refl w : reaches w w
| reaches_step w1 w2 w3 : reaches w1 w2 -> serves w2 w3 -> reaches w1 w3.

Lemma serves_ok w w' : serves w w' -> world_ok w -> world_ok w'.
Proof.
  intros H Hw. destruct H.
  - now apply dashboard_ok.
  - now apply register_ok.
  - now apply students_page_ok.
  - now apply student_edit_ok.
  - now apply download_students_ok.
  - now apply attendance_page_ok.
  - now apply api_mark_attendance_ok.
  - now apply api_attendance_today_ok.
  - now apply _download_attendance_for_date_ok.
  - now apply download_attendance_by_date_ok.
  - now apply download_attendance_pdf_ok.
Qed.

End RoutesInvariant.

Arguments world_ok {image} _.
Arguments serves {image} _ _ _ _ _.
Arguments reaches {image} _ _ _ _ _.

(** C8: every request, on any route and with any input, keeps the
    invariant that a [Present] attendance row has a timestamp, in the
    database and in every row an INSERT or UPDATE statement writes on the
    way: seeding inserts [Absent] rows only, and marking sets the status
    and the timestamp in one UPDATE. *)
Theorem present_rows_have_timestamp
        (image : Type) (predict : trained image -> image -> Z * Q)
        (FACES_DIR : string) (strptime_date : string -> option date)
        (w w' : World image) :
  reaches predict FACES_DIR strptime_date w w' -> world_ok w -> world_ok w'.
Proof.
  induction 1 as [w|w1 w2 w3 _ IH Hstep]; intros Hw; [exact Hw|].
  apply (serves_ok image predict FACES_DIR strptime_date w2 w3 Hstep). now apply IH.
Qed.

Lemma present_rows_have_timestamp_witness :
  world_ok
    (snd (api_mark_attendance tagged_predict [mkFrame [(1, 40 # 1)] q_key]
            1700000000000000 1700000000000123
            (snd (dashboard 1700000000000000 world_two_students)))).
Proof.
  apply (present_rows_have_timestamp (Z * Q) tagged_predict "/srv/data/faces"
           (fun _ => None) world_two_students).
  - eapply reaches_step; [eapply reaches_step; [apply reaches_refl|]|].
    + apply serves_dashboard.
    + apply serves_api_mark_attendance.
  - split; [|constructor].
    intros a [<-|[]] _. discriminate.
Defined.

(** ** Marking attendance *)

Lemma next_rowid_gt (ids : list Z) (i : Z) : In i ids -> i < next_rowid ids.
Proof.
  unfold next_rowid. induction ids as [|j ids IH]; intros Hin; [contradiction|].
  cbn [fold_right]. destruct Hin as [->|Hin]; [lia|]. specialize (IH Hin). lia.
Qed.

Lemma NoDup_map_inj {A B} (f : A -> B) (l : list A) (x y : A) :
  NoDup (map f l) -> In x l -> In y l -> f x = f y -> x = y.
Proof.
  induction l as [|z l IH]; intros Hnd Hx Hy Hxy; [contradiction|].
  cbn [map] in Hnd. inversion Hnd as [|k ks Hnotin Hnd']; subst.
  destruct Hx as [->|Hx], Hy as [->|Hy].
  - reflexivity.
  - exfalso. apply Hnotin. rewrite Hxy. now apply in_map.
  - exfalso. apply Hnotin. rewrite <- Hxy. now apply in_map.
  - now apply IH.
Qed.

Lemma find_attendance_In (l : list Attendance) (a : Attendance) :
  NoDup (map att_id l) -> In a l -> find_attendance (att_id a) l = Some a.
Proof.
  intros Hnd Hin. unfold find_attendance.
  destruct (find (fun a0 => att_id a0 =? att_id a) l) as [b|] eqn:E.
  - apply find_some in E as [Hb Hid]. apply Z.eqb_eq in Hid.
    f_equal. now apply (NoDup_map_inj att_id l).
  - exfalso. apply (find_none _ _ E a) in Hin. rewrite Z.eqb_refl in Hin. discriminate.
Qed.

Lemma find_attendance_fresh (l : list Attendance) (i : Z) (x : Attendance) :
  (forall a, In a l -> (att_id a =? i) = false) -> att_id x = i ->
  find_attendance i (l ++ [x]) = Some x.
Proof.
  intros Hfresh Hx. unfold find_attendance. induction l as [|a l IH].
  - cbn [app find]. now rewrite Hx, Z.eqb_refl.
  - cbn [app find]. rewrite (Hfresh a (or_introl eq_refl)).
    apply IH. intros a1 H1. apply Hfresh. now right.
Qed.

Section Marking.

Variables (sid : Z) (today : date) (now : datetime).

(** What marking does to a row: the row of [sid] for [today] becomes
    [Present] at [now], in place; any other row is left alone. *)
Definition mark_present (a : Attendance) : Attendance :=
  if (student_id a =? sid) && (day a =? today)
  then mkAttendance (att_id a) (student_id a) (day a) "Present" (Some now)
  else a.

Lemma mark_present_key a : student_day (mark_present a) = student_day a.
Proof.
  unfold mark_present. now destruct ((student_id a =? sid) && (day a =? today)).
Qed.

Lemma attendance_of_mark_present l :
  attendance_of sid today (map mark_present l) =
  map mark_present (attendance_of sid today l).
Proof.
  induction l as [|a l IH]; [reflexivity|].
  unfold attendance_of in *. cbn [map filter].
  pose proof (mark_present_key a) as Hk. unfold student_day in Hk.
  injection Hk as -> ->. rewrite IH.
  now destruct ((student_id a =? sid) && (day a =? today)).
Qed.

Lemma mark_present_absent l :
  attendance_of sid today l = [] -> map mark_present l = l.
Proof.
  intros H. rewrite <- (map_id l) at 2. apply map_ext_in. intros a Hin.
  unfold mark_present.
  destruct ((student_id a =? sid) && (day a =? today)) eqn:E; [|reflexivity].
  exfalso. assert (Ha : In a (attendance_of sid today l)).
  { apply filter_In. now split. }
  rewrite H in Ha. contradiction.
Qed.

Lemma key_of_found l a :
  attendance_of sid today l = [a] -> In a l /\ student_id a = sid /\ day a = today.
Proof.
  intros H. assert (Ha : In a (attendance_of sid today l)) by (rewrite H; now left).
  apply attendance_of_In in Ha as [Hin Hk]. unfold student_day in Hk.
  injection Hk as H1 H2. auto.
Qed.

Lemma replace_attendance_mark l a :
  NoDup (map att_id l) -> NoDup (map student_day l) ->
  attendance_of sid today l = [a] ->
  replace_attendance (mark_present a) l = map mark_present l.
Proof.
  intros Hpk Huq Hfound. destruct (key_of_found l a Hfound) as (Hin & Hs & Hd).
  unfold replace_attendance. apply map_ext_in. intros a0 Hin0.
  assert (Hid : att_id (mark_present a) = att_id a).
  { unfold mark_present. now destruct ((student_id a =? sid) && (day a =? today)). }
  rewrite Hid. destruct (att_id a0 =? att_id a) eqn:E.
  - apply Z.eqb_eq in E. f_equal. symmetry. now apply (NoDup_map_inj att_id l).
  - unfold mark_present at 1.
    destruct ((student_id a0 =? sid) && (day a0 =? today)) eqn:Ek; [|reflexivity].
    apply andb_true_iff in Ek as [E1 E2]. apply Z.eqb_eq in E1, E2.
    assert (a0 = a).
    { apply (NoDup_map_inj student_day l); try assumption.
      unfold student_day. congruence. }
    subst a0. rewrite Z.eqb_refl in E. discriminate.
Qed.

Lemma student_day_taken_self l a :
  NoDup (map student_day l) -> attendance_of sid today l = [a] ->
  student_day_taken (att_id a) sid today l = false.
Proof.
  intros Huq Hfound. destruct (key_of_found l a Hfound) as (Hin & Hs & Hd).
  unfold student_day_taken. destruct (existsb _ l) eqn:E; [|reflexivity].
  apply existsb_exists in E as [a0 [Hin0 H0]].
  apply andb_true_iff in H0 as [H0 E2]. apply andb_true_iff in H0 as [E0 E1].
  apply Z.eqb_eq in E1, E2.
  assert (a0 = a).
  { apply (NoDup_map_inj student_day l); try assumption. unfold student_day. congruence. }
  subst a0. rewrite Z.eqb_refl in E0. discriminate.
Qed.

Lemma mark_present_fixed l a :
  NoDup (map student_day l) -> attendance_of sid today l = [a] ->
  mark_present a = a -> map mark_present l = l.
Proof.
  intros Huq Hfound Hfix. destruct (key_of_found l a Hfound) as (Hin & Hs & Hd).
  rewrite <- (map_id l) at 2. apply map_ext_in. intros a0 Hin0.
  unfold mark_present.
  destruct ((student_id a0 =? sid) && (day a0 =? today)) eqn:Ek; [|reflexivity].
  apply andb_true_iff in Ek as [E1 E2]. apply Z.eqb_eq in E1, E2.
  assert (a0 = a).
  { apply (NoDup_map_inj student_day l); try assumption. unfold student_day. congruence. }
  subst a0. unfold mark_present in Hfix. rewrite Hs, Hd, !Z.eqb_refl in Hfix.
  rewrite Hs, Hd in *. exact Hfix.
Qed.

End Marking.

Lemma commit_dirty_attendance v dur lg row old :
  find_attendance (att_id row) (attendance v) = Some old ->
  student_day_taken (att_id row) (student_id row) (day row) (attendance v) = false ->
  commit (mkSession v [DirtyAttendance row] dur lg) =
  (Ok tt,
   if Attendance_eq_dec old row then mkSession v [] v (lg ++ [COMMIT])
   else let v' := mkTables (students v) (replace_attendance row (attendance v)) in
        mkSession v' [] v' ((lg ++ [UPDATE_attendance row]) ++ [COMMIT])).
Proof.
  intros Hfind Htaken. unfold commit, flush, bind. cbn [pending flush_ops].
  unfold bind, flush_op, ret. cbn [view]. rewrite Hfind.
  destruct (Attendance_eq_dec old row); [reflexivity|]. rewrite Htaken. reflexivity.
Qed.

Lemma commit_new_attendance v dur lg sid d st :
  attendance_of sid d (attendance v) = [] ->
  let row := mkAttendance (next_rowid (map att_id (attendance v))) sid d st None in
  let v' := mkTables (students v) (attendance v ++ [row]) in
  commit (mkSession v [NewAttendance sid d st] dur lg) =
  (Ok tt, mkSession v' [] v' ((lg ++ [INSERT_attendance row]) ++ [COMMIT])).
Proof.
  intros H row v'. unfold commit.
  rewrite (bind_Ok _ _ _ _ _ (flush_new_attendance v dur lg sid d st H)). reflexivity.
Qed.

Section MarkingRoute.

Variable image : Type.
Variables (sid : Z) (today : date) (now : datetime).

(** The [with SessionLocal() as s:] block of [api_mark_attendance]. *)
Definition mark_in_session : M (Session * World image) response :=
  rows <- in_session (query_attendance_by_student_day sid today) ;;
  found <- in_session (one_or_none rows) ;;
  att <- (match found with
          | Some a => ret a
          | None =>
              in_session (add (NewAttendance sid today "Absent")) ;;;
              in_session commit ;;;
              h <- get ;;
              ret (last (attendance (view (fst h)))
                        (mkAttendance 0 sid today "Absent" None))
          end) ;;
  in_session (add (DirtyAttendance
    (mkAttendance (att_id att) (student_id att) (day att) "Present" (Some now)))) ;;;
  in_session commit ;;;
  h <- get ;;
  match find_student sid (students (view (fst h))) with
  | None => raise AttributeError
  | Some stu =>
      ret (jsonify (VDict [("ok", VBool true); ("roll_no", VStr (roll_no stu));
                           ("name", VStr (name stu));
                           ("time", VStr (strftime_HMS now))]) 200)
  end.

Definition marked_response (stu : Student) : response :=
  jsonify (VDict [("ok", VBool true); ("roll_no", VStr (roll_no stu));
                  ("name", VStr (name stu)); ("time", VStr (strftime_HMS now))]) 200.

(** The row exists: it is updated in place. *)
Lemma mark_in_session_found (t : Tables) (w : World image) (a : Attendance) (stu : Student) :
  wf_tables t ->
  attendance_of sid today (attendance t) = [a] ->
  find_student sid (students t) = Some stu ->
  exists lg,
    let t' := mkTables (students t) (map (mark_present sid today now) (attendance t)) in
    mark_in_session (SessionLocal t, w) =
    (Ok (marked_response stu), (mkSession t' [] t' lg, w)).
Proof.
  intros Hwf Hfound Hstu. unfold mark_in_session.
  destruct (key_of_found sid today _ a Hfound) as (Hin & Hs & Hd).
  assert (Hq : query_attendance_by_student_day sid today (SessionLocal t)
               = (Ok [a], SessionLocal t)).
  { rewrite <- Hfound. reflexivity. }
  rewrite (bind_Ok _ _ _ _ _ (in_session_Ok _ _ _ w _ Hq)).
  rewrite (bind_Ok _ _ _ _ _
             (in_session_Ok (one_or_none [a]) _ (SessionLocal t) w (Some a) eq_refl)).
  unfold bind at 1. unfold ret at 1.
  set (row := mkAttendance (att_id a) (student_id a) (day a) "Present" (Some now)).
  assert (Hrow : row = mark_present sid today now a).
  { unfold mark_present.
    replace ((student_id a =? sid) && (day a =? today)) with true; [reflexivity|].
    now rewrite Hs, Hd, !Z.eqb_refl. }
  rewrite (bind_Ok _ _ _ _ _
             (in_session_Ok (add (DirtyAttendance row)) (SessionLocal t)
                            (mkSession t [DirtyAttendance row] t [])
                            w tt eq_refl)).
  assert (Htaken : student_day_taken (att_id row) (student_id row) (day row)
                                     (attendance t) = false).
  { cbn [att_id student_id day row]. rewrite Hs, Hd.
    apply (student_day_taken_self sid today _ a (wf_student_day _ Hwf) Hfound). }
  pose proof (commit_dirty_attendance t t [] row a
                (find_attendance_In _ a (wf_attendance_pk _ Hwf) Hin) Htaken) as Hc.
  destruct (Attendance_eq_dec a row) as [Heq|Hne].
  - rewrite (bind_Ok _ _ _ _ _ (in_session_Ok _ _ _ w _ Hc)).
    unfold bind, get. cbn [fst view students]. rewrite Hstu.
    exists ([] ++ [COMMIT]). cbv zeta.
    rewrite (mark_present_fixed sid today now _ a (wf_student_day _ Hwf) Hfound).
    + unfold ret, marked_response. destruct t; reflexivity.
    + now rewrite <- Hrow.
  - rewrite (bind_Ok _ _ _ _ _ (in_session_Ok _ _ _ w _ Hc)).
    unfold bind, get. cbv zeta. cbn [fst view students]. rewrite Hstu.
    exists (([] ++ [UPDATE_attendance row]) ++ [COMMIT]). cbv zeta.
    rewrite <- (replace_attendance_mark sid today now _ a
                  (wf_attendance_pk _ Hwf) (wf_student_day _ Hwf) Hfound).
    rewrite <- Hrow. reflexivity.
Qed.

(** No row yet: an [Absent] one is inserted and committed, then it is
    updated to [Present] and committed again. *)
Lemma mark_in_session_absent (t : Tables) (w : World image) (stu : Student) :
  attendance_of sid today (attendance t) = [] ->
  find_student sid (students t) = Some stu ->
  let i := next_rowid (map att_id (attendance t)) in
  let t' := mkTables (students t)
                     (attendance t ++ [mkAttendance i sid today "Present" (Some now)]) in
  mark_in_session (SessionLocal t, w) =
  (Ok (marked_response stu),
   (mkSession t' [] t'
              [INSERT_attendance (mkAttendance i sid today "Absent" None); COMMIT;
               UPDATE_attendance (mkAttendance i sid today "Present" (Some now)); COMMIT],
    w)).
Proof.
  intros Hnone Hstu i t'. unfold mark_in_session.
  assert (Hq : query_attendance_by_student_day sid today (SessionLocal t)
               = (Ok [], SessionLocal t)).
  { rewrite <- Hnone. reflexivity. }
  rewrite (bind_Ok _ _ _ _ _ (in_session_Ok _ _ _ w _ Hq)).
  rewrite (bind_Ok _ _ _ _ _
             (in_session_Ok (one_or_none []) _ (SessionLocal t) w None eq_refl)).
  set (absent := mkAttendance i sid today "Absent" None).
  set (present := mkAttendance i sid today "Present" (Some now)).
  set (t1 := mkTables (students t) (attendance t ++ [absent])).
  assert (Hatt : (in_session (image := image) (add (NewAttendance sid today "Absent")) ;;;
                  in_session commit ;;;
                  h <- get ;;
                  ret (last (attendance (view (fst h)))
                            (mkAttendance 0 sid today "Absent" None)))
                   (SessionLocal t, w)
                 = (Ok absent, (mkSession t1 [] t1 [INSERT_attendance absent; COMMIT], w))).
  { rewrite (bind_Ok _ _ _ _ _
               (in_session_Ok (add (NewAttendance sid today "Absent")) (SessionLocal t)
                  (mkSession t [NewAttendance sid today "Absent"] t []) w tt eq_refl)).
    rewrite (bind_Ok _ _ _ _ _
               (in_session_Ok _ _ _ w _ (commit_new_attendance t t [] sid today _ Hnone))).
    unfold bind, get, ret. cbn [fst view attendance]. now rewrite last_last. }
  rewrite (bind_Ok _ _ _ _ _ Hatt). cbn [att_id student_id day absent].
  rewrite (bind_Ok _ _ _ _ _
             (in_session_Ok (add (DirtyAttendance present))
                            (mkSession t1 [] t1 [INSERT_attendance absent; COMMIT])
                            (mkSession t1 [DirtyAttendance present] t1
                                           [INSERT_attendance absent; COMMIT])
                            w tt eq_refl)).
  assert (Hfresh : forall a0, In a0 (attendance t) -> (att_id a0 =? i) = false).
  { intros a0 Hin. apply Z.eqb_neq.
    pose proof (next_rowid_gt (map att_id (attendance t)) (att_id a0) (in_map _ _ _ Hin)).
    unfold i. lia. }
  assert (Hfind : find_attendance (att_id present) (attendance t1) = Some absent).
  { apply find_attendance_fresh; [exact Hfresh|reflexivity]. }
  assert (Htaken : student_day_taken (att_id present) (student_id present) (day present)
                                     (attendance t1) = false).
  { unfold student_day_taken, t1, present, absent. cbn [attendance att_id student_id day].
    rewrite existsb_app. cbn [existsb att_id]. rewrite Z.eqb_refl.
    cbn [negb andb orb]. rewrite orb_false_r.
    apply (student_day_taken_false i sid today _ Hnone). }
  pose proof (commit_dirty_attendance t1 t1 [INSERT_attendance absent; COMMIT]
                present absent Hfind Htaken) as Hc.
  destruct (Attendance_eq_dec absent present) as [Heq|_]; [discriminate Heq|].
  rewrite (bind_Ok _ _ _ _ _ (in_session_Ok _ _ _ w _ Hc)).
  unfold bind, get. cbv zeta. cbn [fst view students t1]. rewrite Hstu.
  assert (Hrep : replace_attendance present (attendance t ++ [absent])
                 = attendance t ++ [present]).
  { unfold replace_attendance. rewrite map_app. cbn [map att_id absent present].
    rewrite Z.eqb_refl. f_equal.
    rewrite <- (map_id (attendance t)) at 2. apply map_ext_in.
    intros a0 Hin. now rewrite (Hfresh a0 Hin). }
  unfold ret, marked_response.
  do 3 f_equal; unfold t1, t'; cbn [attendance]; rewrite Hrep; reflexivity.
Qed.

End MarkingRoute.

Arguments mark_in_session {image} _ _ _.

(** C2: when the engine recognizes student [sid] (a row of the student
    table), [/api/mark_attendance] answers with the student's roll
    number, name and the time, and leaves exactly one row for
    ([sid], today), [Present], with the timestamp read from the clock in
    the zone Asia/Kolkata (UTC+05:30) at marking time.  An existing row
    is updated in place; otherwise an [Absent] row is inserted, committed,
    and then updated to [Present].  No other row changes. *)
Theorem api_mark_attendance_marks_present
        (image : Type) (predict : trained image -> image -> Z * Q)
        (cam : list (frame image)) (utc1 utc2 : Z) (w : World image)
        (e' : Engine image) (sid : Z) (stu : Student) :
  recognize_once predict (70 # 1) cam (engine w) = (Ok (Some sid), e') ->
  wf_tables (db w) ->
  find_student sid (students (db w)) = Some stu ->
  let today := date_of (datetime_now utc1) in
  let now := utc2 + (5 * 3600 + 30 * 60) * 1000000 in
  let i := next_rowid (map att_id (attendance (db w))) in
  exists w',
    api_mark_attendance predict cam utc1 utc2 w =
      (Ok (jsonify (VDict [("ok", VBool true); ("roll_no", VStr (roll_no stu));
                           ("name", VStr (name stu));
                           ("time", VStr (strftime_HMS now))]) 200), w') /\
    engine w' = e' /\
    students (db w') = students (db w) /\
    attendance (db w') =
      map (mark_present sid today now) (attendance (db w)) ++
      match attendance_of sid today (attendance (db w)) with
      | [] => [mkAttendance i sid today "Present" (Some now)]
      | _ => []
      end /\
    (exists a, attendance_of sid today (attendance (db w')) = [a] /\
               status a = "Present"%string /\ timestamp a = Some now) /\
    (attendance_of sid today (attendance (db w)) = [] ->
     sql_log w' = sql_log w ++
       [INSERT_attendance (mkAttendance i sid today "Absent" None); COMMIT;
        UPDATE_attendance (mkAttendance i sid today "Present" (Some now)); COMMIT]).
Proof.
  intros Hrec Hwf Hstu today now i.
  assert (Hrun : api_mark_attendance predict cam utc1 utc2 w =
                 with_SessionLocal (mark_in_session sid today now)
                                   (mkWorld (db w) e' (flashes w) (sql_log w))).
  { unfold api_mark_attendance.
    now rewrite (bind_Ok _ _ _ _ _ (in_engine_Ok _ w e' (Some sid) Hrec)). }
  rewrite Hrun. unfold with_SessionLocal. cbn [db].
  pose proof (attendance_of_unique sid today _ (wf_student_day _ Hwf)) as Hle.
  destruct (attendance_of sid today (attendance (db w))) as [|a [|a' rest]] eqn:Hfound.
  - rewrite (mark_in_session_absent image sid today now (db w) _ stu Hfound Hstu).
    eexists. split; [reflexivity|]. cbn [engine db students attendance sql_log fst snd
                                          durable log].
    repeat split.
    + now rewrite (mark_present_absent sid today now _ Hfound).
    + exists (mkAttendance i sid today "Present" (Some now)).
      rewrite attendance_of_app, Hfound. unfold attendance_of.
      cbn [filter student_id day app]. rewrite !Z.eqb_refl. cbn [andb].
      repeat split; reflexivity.
  - destruct (mark_in_session_found image sid today now (db w)
                (mkWorld (db w) e' (flashes w) (sql_log w)) a stu Hwf Hfound Hstu)
      as [lg Hbody].
    cbv zeta in Hbody. rewrite Hbody.
    eexists. split; [reflexivity|]. cbn [engine db students attendance sql_log fst snd
                                          durable log].
    repeat split.
    + now rewrite app_nil_r.
    + exists (mkAttendance (att_id a) (student_id a) (day a) "Present" (Some now)).
      rewrite attendance_of_mark_present, Hfound.
      destruct (key_of_found sid today _ a Hfound) as (_ & Hs & Hd).
      split; [|split; reflexivity]. cbn [map]. unfold mark_present.
      replace ((student_id a =? sid) && (day a =? today)) with true; [reflexivity|].
      now rewrite Hs, Hd, !Z.eqb_refl.
    + discriminate.
  - cbn in Hle. lia.
Qed.

Lemma api_mark_attendance_marks_present_witness :
  exists w',
    api_mark_attendance tagged_predict [mkFrame [(2, 40 # 1)] q_key]
      864000000000 864000000500 world_two_students =
      (Ok (jsonify (VDict [("ok", VBool true); ("roll_no", VStr "22");
                           ("name", VStr "Ravi");
                           ("time", VStr "05:30:00")]) 200), w') /\
    attendance (db w') = [mkAttendance 5 2 10 "Present" (Some 883800000500)].
Proof.
  destruct (api_mark_attendance_marks_present (Z * Q) tagged_predict
              [mkFrame [(2, 40 # 1)] q_key] 864000000000 864000000500 world_two_students
              (mkEngine [] (model_file engine_with_model) (model_file engine_with_model)
                        [READ_MODEL])
              2 (mkStudent 2 "22" "Ravi" None None None None))
    as (w' & Hrun & _ & _ & Hatt & _).
  - reflexivity.
  - split; cbn; repeat constructor; cbn; intuition discriminate.
  - reflexivity.
  - exists w'. split; [exact Hrun|exact Hatt].
Defined.

(** ** Routes that read attendance without seeding the day *)

Definition world_new_student : World unit :=
  mkWorld (mkTables [mkStudent 1 "21" "Asha" None None None None] [])
          (mkEngine [] None None []) [] [].

(** C3, at a database with one registered student and no attendance row
    yet (the clock reads day 10): the attendance page seeds the day and
    lists the student as [Absent], as the dashboard seeds it; the JSON
    endpoint and the spreadsheet and PDF exports read the day without
    calling [ensure_day_rows], send no statement, and report no row. *)
Theorem attendance_reads_without_day_rows :
  fst (attendance_page 864000000000 world_new_student) =
    Ok (render_template "attendance.html"
          [("today", VDate 10);
           ("table", VList [VDict [("roll_no", VStr "21"); ("name", VStr "Asha");
                                   ("status", VStr "Absent"); ("timestamp", VStr "")]])]) /\
  sql_log (snd (dashboard 864000000000 world_new_student)) =
    [INSERT_attendance (mkAttendance 1 1 10 "Absent" None); COMMIT] /\
  api_attendance_today 864000000000 world_new_student =
    (Ok (jsonify (VDict [("total", VInt 0); ("present", VInt 0); ("absent", VInt 0);
                         ("rows", VList [])]) 200), world_new_student) /\
  download_attendance_today 864000000000 world_new_student =
    (Ok (send_file (attendance_xlsx 10) []), world_new_student) /\
  download_attendance_by_date (fun _ => Some 10)
    (mkRequest "GET" [] [("date", "1970-01-11")]) world_new_student =
    (Ok (send_file (attendance_xlsx 10) []), world_new_student) /\
  download_attendance_pdf (fun _ => None) (mkRequest "GET" [] []) 864000000000
    world_new_student =
    (Ok (send_file (attendance_pdf 10) []), world_new_student).
Proof. repeat split. Qed.

(** ** Editing a student onto a roll number in use *)

(** C9, at two students with roll numbers 21 and 22: editing the second
    one's roll number to 21 is not checked against the table, and the
    UNIQUE constraint fails at the commit; the same roll number sent to
    the registration route is checked and refused with a warning. *)
Theorem student_edit_duplicate_roll_no_raises :
  student_edit "/srv/data/faces" 2
    (mkRequest "POST" [("roll_no", "21"); ("name", "Ravi")] []) []
    world_two_students
  = (Raise IntegrityError, world_two_students) /\
  register "/srv/data/faces"
    (mkRequest "POST" [("roll_no", "21"); ("name", "Ravi")] []) []
    world_two_students
  = (Ok (redirect "register"),
     mkWorld db_two_students engine_with_model
             [("Roll No already exists", "warning")%string] []).
Proof. split; reflexivity. Qed.

(** * Further properties *)

(** ** The face dataset across capture and training *)

Section Dataset.

Variable image : Type.
Variable FACES_DIR : string.

Definition dataset_ok (e : Engine image) : Prop := int_named (faces_dir e).

Lemma all_samples_written folder f (img : image) n entries :
  In (img, n)
     (all_samples
        (map (fun d => match d with
                       | Directory n0 files =>
                           if String.eqb n0 folder
                           then Directory n0 (put_file image f files)
                           else d
                       | RegularFile _ => d
                       end) entries)) ->
  n = folder \/ In (img, n) (all_samples entries).
Proof.
  induction entries as [|d entries IH]; [intros []|].
  unfold all_samples. cbn [map flat_map]. intros Hin.
  apply in_app_or in Hin as [Hin|Hin].
  - destruct d as [n0|n0 files]; [contradiction|].
    destruct (String.eqb_spec n0 folder) as [->|Hne].
    + left. apply in_map_iff in Hin as [img0 [Heq _]]. now injection Heq.
    + right. apply in_or_app. now left.
  - destruct (IH Hin) as [->|Hin']; [now left|]. right. apply in_or_app. now right.
Qed.

Lemma imwrite_dataset_ok sid file_name roi :
  preserves dataset_ok (imwrite image FACES_DIR (str sid) file_name roi).
Proof.
  intros e He img n Hin. cbn [snd imwrite faces_dir] in Hin.
  apply all_samples_written in Hin as [->|Hin]; [|now apply (He img n)].
  rewrite int_str. discriminate.
Qed.

Lemma makedirs_dataset_ok folder : preserves dataset_ok (makedirs image FACES_DIR folder).
Proof.
  intros e He. unfold makedirs.
  destruct (find _ (faces_dir e)) as [[n|n files]|]; try exact He.
  intros img n Hin. cbn [snd faces_dir] in Hin. unfold all_samples in Hin.
  rewrite flat_map_app in Hin. cbn in Hin. rewrite app_nil_r in Hin.
  now apply (He img n).
Qed.

Lemma save_faces_preserves (I : Engine image -> Prop) sid :
  (forall file_name roi, preserves I (imwrite image FACES_DIR (str sid) file_name roi)) ->
  forall rois count preview, preserves I (save_faces image FACES_DIR sid rois count preview).
Proof.
  intros Hw rois. induction rois as [|roi rois IH]; intros count preview.
  - apply preserves_ret.
  - cbn [save_faces]. apply preserves_bind; [apply Hw|intros _; apply IH].
Qed.

Lemma capture_loop_preserves (I : Engine image -> Prop) sid samples :
  (forall file_name roi, preserves I (imwrite image FACES_DIR (str sid) file_name roi)) ->
  forall cam count preview,
    preserves I (capture_loop image FACES_DIR sid samples cam count preview).
Proof.
  intros Hw cam. induction cam as [|fr cam IH]; intros count preview.
  - apply preserves_ret.
  - cbn [capture_loop]. destruct (count <? samples); [|apply preserves_ret].
    apply preserves_bind; [now apply save_faces_preserves|].
    intros r. destruct (q_pressed (key fr)); [apply preserves_ret|apply IH].
Qed.

Lemma capture_samples_preserves (I : Engine image -> Prop) sid samples cam :
  preserves I (makedirs image FACES_DIR (str sid)) ->
  (forall file_name roi, preserves I (imwrite image FACES_DIR (str sid) file_name roi)) ->
  preserves I (capture_samples FACES_DIR sid samples cam).
Proof.
  intros Hm Hw. unfold capture_samples.
  apply preserves_bind; [exact Hm|intros _].
  apply preserves_bind; [now apply capture_loop_preserves|intros p; apply preserves_ret].
Qed.

Lemma train_or_update_model_total (e : Engine image) :
  dataset_ok e ->
  exists b e', train_or_update_model e = (Ok b, e') /\
               (b = true <-> (0 < sample_count (faces_dir e))%nat).
Proof.
  intros He. unfold train_or_update_model, _load_dataset, sample_count.
  rewrite (load_entries_spec image (faces_dir e) [] [] He). cbn [app].
  destruct (all_samples (faces_dir e)) as [|p l].
  - exists false, e. split; [reflexivity|]. cbn. split; [discriminate|lia].
  - eexists true, _. split; [reflexivity|]. cbn. split; [lia|reflexivity].
Qed.

Lemma has_image_suffix_append (a b : string) :
  has_image_suffix b = true -> has_image_suffix (a ++ b) = true.
Proof.
  unfold has_image_suffix. cbv zeta. rewrite lower_append. intros H.
  apply orb_true_iff in H as [H|H]; [apply orb_true_iff in H as [H|H]|].
  - now rewrite (endswith_append _ _ _ H).
  - rewrite (endswith_append _ _ _ H). now rewrite orb_true_r.
  - rewrite (endswith_append _ _ _ H). now rewrite orb_true_r.
Qed.

Lemma has_image_suffix_sample_name sid count :
  has_image_suffix (sample_name sid count) = true.
Proof.
  unfold sample_name. apply has_image_suffix_append.
  apply (has_image_suffix_append "_"). apply has_image_suffix_png.
Qed.

(** A readable image file of a folder is a sample of the dataset. *)
Lemma all_samples_In (entries : list (dirent image)) n files f img :
  In (Directory n files) entries -> In f files ->
  has_image_suffix (fname f) = true -> imread f = Some img ->
  In (img, n) (all_samples entries).
Proof.
  intros Hd Hf Hsuffix Hread. unfold all_samples. apply in_flat_map.
  exists (Directory n files). split; [exact Hd|].
  apply (in_map (fun img0 => (img0, n))).
  unfold samples_of. apply in_flat_map. exists f. split; [exact Hf|].
  rewrite Hsuffix, Hread. now left.
Qed.

Lemma crop_files_In sid (roi : image) rois : forall count,
  In roi rois ->
  exists k, In (mkFile (sample_name sid k) (Some roi)) (crop_files sid count rois).
Proof.
  induction rois as [|r rois IH]; intros count; [intros []|].
  cbn [crop_files]. intros [->|Hin].
  - exists count. now left.
  - destruct (IH (count + 1) Hin) as [k Hk]. exists k. now right.
Qed.

Lemma combine_map_fst {A B C} (g : A * B -> C) (l : list (A * B)) :
  combine (map fst l) (map g l) = map (fun p => (fst p, g p)) l.
Proof. induction l as [|p l IH]; [reflexivity|]. cbn. now rewrite IH. Qed.

(** What [_load_dataset] returns on a dataset in the layout of
    [capture_samples]: every sample, labelled with its folder's number. *)
Lemma _load_dataset_run (e : Engine image) :
  dataset_ok e ->
  exists images labels,
    _load_dataset e = Ok (images, labels) /\
    images = map fst (all_samples (faces_dir e)) /\
    combine images labels =
    map (fun p => (fst p, label_of (snd p))) (all_samples (faces_dir e)).
Proof.
  intros He. unfold _load_dataset.
  rewrite (load_entries_spec image (faces_dir e) [] [] He). cbn [app].
  eexists _, _. split; [reflexivity|]. split; [reflexivity|]. apply combine_map_fst.
Qed.

(** After a capture, [_load_dataset] returns every crop taken, labelled
    with the student's identity. *)
Lemma capture_samples_loaded sid samples cam (e : Engine image) images labels :
  folder_available sid e -> dataset_ok e ->
  _load_dataset (snd (capture_samples FACES_DIR sid samples cam e)) = Ok (images, labels) ->
  forall roi, In roi (crops_taken samples cam 0) -> In (roi, sid) (combine images labels).
Proof.
  intros Hav Hok Hload roi Hroi.
  set (e1 := snd (capture_samples FACES_DIR sid samples cam e)) in *.
  assert (Hok1 : dataset_ok e1).
  { apply (capture_samples_preserves dataset_ok sid samples cam
             (makedirs_dataset_ok _) (imwrite_dataset_ok sid) e Hok). }
  destruct (_load_dataset_run e1 Hok1) as (images' & labels' & Hload' & _ & Hpairs).
  rewrite Hload in Hload'. injection Hload' as <- <-. rewrite Hpairs.
  destruct (capture_samples_files image FACES_DIR sid samples cam e Hav) as [[files Hdir] Hall].
  fold e1 in Hdir, Hall.
  destruct (crop_files_In sid roi _ 0 Hroi) as [k Hk].
  apply in_map_iff. exists (roi, str sid). split.
  - cbn [fst snd]. unfold label_of. now rewrite int_str.
  - apply (all_samples_In _ _ files (mkFile (sample_name sid k) (Some roi))).
    + exact Hdir.
    + apply (Hall files Hdir). exact Hk.
    + apply has_image_suffix_sample_name.
    + reflexivity.
Qed.

End Dataset.

Arguments dataset_ok {image} _.

(** X1: on a dataset whose sample folders are named by integers, and
    unless a regular file has the name of the student's folder,
    [capture_samples] succeeds and keeps the dataset so; every crop it
    takes is then in the folder named [str(student_id)], [_load_dataset]
    returns each of them with the label [student_id], and the
    [train_or_update_model] that follows never raises: it returns [True]
    exactly when the dataset holds a sample, so whenever a crop was
    taken, and the model it saves and keeps is trained on what
    [_load_dataset] returned. *)
Theorem capture_then_train
        (image : Type) (FACES_DIR : string) (student_id samples : Z)
        (cam : list (frame image)) (e : Engine image) :
  folder_available student_id e ->
  int_named (faces_dir e) ->
  let crops := crops_taken samples cam 0 in
  exists p e1 images labels b e2,
    capture_samples FACES_DIR student_id samples cam e = (Ok p, e1) /\
    int_named (faces_dir e1) /\
    (exists files, In (Directory (str student_id) files) (faces_dir e1)) /\
    (forall files, In (Directory (str student_id) files) (faces_dir e1) ->
                   incl (crop_files student_id 0 crops) files) /\
    _load_dataset e1 = Ok (images, labels) /\
    (forall roi, In roi crops -> In (roi, student_id) (combine images labels)) /\
    train_or_update_model e1 = (Ok b, e2) /\
    (b = true <-> (0 < sample_count (faces_dir e1))%nat) /\
    (crops <> [] -> b = true) /\
    (b = true ->
     model_file e2 = Some (mkTrained images labels) /\
     RECOGNIZER e2 = Some (mkTrained images labels)).
Proof.
  intros Hav Hok crops.
  destruct (capture_samples_run image FACES_DIR student_id samples cam e Hav)
    as (e1 & new & Hrun & _ & _).
  assert (Hok1 : dataset_ok e1).
  { pose proof (capture_samples_preserves image FACES_DIR dataset_ok student_id samples cam
                  (makedirs_dataset_ok image FACES_DIR _)
                  (imwrite_dataset_ok image FACES_DIR student_id) e Hok) as H.
    now rewrite Hrun in H. }
  destruct (capture_samples_files image FACES_DIR student_id samples cam e Hav)
    as [Hfolder Hfiles].
  rewrite Hrun in Hfolder, Hfiles. cbn [snd] in Hfolder, Hfiles.
  destruct (_load_dataset_run image e1 Hok1) as (images & labels & Hload & Himages & _).
  pose proof (capture_samples_loaded image FACES_DIR student_id samples cam e images labels
                Hav Hok) as Hloaded.
  rewrite Hrun in Hloaded. cbn [snd] in Hloaded. specialize (Hloaded Hload).
  destruct (train_or_update_model_total image e1 Hok1) as (b & e2 & Htrain & Hb).
  exists (last (imwrites new) ""%string), e1, images, labels, b, e2.
  split; [exact Hrun|]. split; [exact Hok1|]. split; [exact Hfolder|].
  split; [exact Hfiles|]. split; [exact Hload|]. split; [exact Hloaded|].
  split; [exact Htrain|]. split; [exact Hb|]. split.
  - intros Hne. apply Hb. unfold sample_count.
    fold crops in Hloaded.
    destruct crops as [|roi rest]; [contradiction|].
    specialize (Hloaded roi (or_introl eq_refl)). apply in_combine_l in Hloaded.
    rewrite Himages in Hloaded.
    destruct (all_samples (faces_dir e1)); [contradiction|]. cbn. lia.
  - intros ->. unfold train_or_update_model in Htrain. rewrite Hload in Htrain.
    destruct images as [|img imgs]; [discriminate|].
    injection Htrain as <-. now split.
Qed.

Lemma capture_then_train_witness :
  exists p e1 images labels b e2,
    capture_samples "/srv/data/faces" 7 2 [mkFrame [11; 12] q_key] engine_one_sample
      = (Ok p, e1) /\
    int_named (faces_dir e1) /\
    (forall files, In (Directory "7" files) (faces_dir e1) ->
                   incl [mkFile "7_000.png" (Some 11); mkFile "7_001.png" (Some 12)]%string
                        files) /\
    _load_dataset e1 = Ok (images, labels) /\
    In (11, 7) (combine images labels) /\ In (12, 7) (combine images labels) /\
    train_or_update_model e1 = (Ok b, e2) /\
    b = true /\
    RECOGNIZER e2 = Some (mkTrained images labels).
Proof.
  destruct (capture_then_train Z "/srv/data/faces" 7 2 [mkFrame [11; 12] q_key]
              engine_one_sample)
    as (p & e1 & images & labels & b & e2 & Hrun & Hok & _ & Hfiles & Hload & Hin & Htrain
        & _ & Hb & Hmodel).
  - intros n. vm_compute. discriminate.
  - intros img n Hin. vm_compute in Hin. destruct Hin as [Hin|[]].
    injection Hin as _ <-. discriminate.
  - assert (Hb' : b = true) by (apply Hb; discriminate).
    exists p, e1, images, labels, b, e2.
    split; [exact Hrun|]. split; [exact Hok|]. split; [exact Hfiles|].
    split; [exact Hload|]. split; [apply Hin; now left|].
    split; [apply Hin; right; now left|]. split; [exact Htrain|].
    split; [exact Hb'|]. apply (Hmodel Hb').
Defined.

(** ** Bounds and reach of a capture *)

Lemma crops_saved_bound {image} (samples k : Z) (cam : list (frame image)) : forall count,
  Forall (fun f => Z.of_nat (List.length (faces f)) <= k) cam ->
  count <= samples + k - 1 ->
  count + Z.of_nat (crops_saved samples cam count) <= samples + k - 1.
Proof.
  induction cam as [|fr cam IH]; intros count Hk Hc; [cbn; lia|].
  inversion Hk as [|f l Hf Hl]; subst. cbn [crops_saved].
  destruct (count <? samples) eqn:E; [|cbn; lia].
  apply Z.ltb_lt in E. destruct (q_pressed (key fr)); [lia|].
  specialize (IH (count + Z.of_nat (List.length (faces fr))) Hl). lia.
Qed.

(** X2: when no frame shows more than [k] faces ([k >= 1]),
    [capture_samples] saves at most [samples + k - 1] crops; with one
    face per frame at most, never more than requested. *)
Theorem capture_samples_bounded
        (image : Type) (FACES_DIR : string) (student_id samples k : Z)
        (cam : list (frame image)) (e : Engine image) :
  folder_available student_id e ->
  1 <= k -> 0 <= samples ->
  Forall (fun f => Z.of_nat (List.length (faces f)) <= k) cam ->
  exists p e' new,
    capture_samples FACES_DIR student_id samples cam e = (Ok p, e') /\
    io_log e' = io_log e ++ new /\
    Z.of_nat (List.length (imwrites new)) <= samples + k - 1.
Proof.
  intros Hav Hk Hs Hfaces.
  destruct (capture_samples_run image FACES_DIR student_id samples cam e Hav)
    as (e' & new & Hrun & Hlog & Hlen).
  exists (last (imwrites new) ""%string), e', new. repeat split; try assumption.
  rewrite Hlen. pose proof (crops_saved_bound samples k cam 0 Hfaces). lia.
Qed.

Lemma capture_samples_bounded_witness :
  exists p e' new,
    capture_samples "/srv/data/faces" 7 2
      [mkFrame [11] no_key; mkFrame [] no_key; mkFrame [12] no_key; mkFrame [13] no_key]
      engine_empty = (Ok p, e') /\
    io_log e' = io_log engine_empty ++ new /\
    Z.of_nat (List.length (imwrites new)) <= 2 + 1 - 1.
Proof.
  apply (capture_samples_bounded Z "/srv/data/faces" 7 2 1).
  - intros n. cbn. discriminate.
  - lia.
  - lia.
  - repeat constructor; cbn; lia.
Defined.

Section CaptureReach.

Variable image : Type.
Variable FACES_DIR : string.

(** What a capture for [sid] leaves alone: an entry [d] of the faces
    directory, the model file and the recognizer. *)
Definition apart_from_folder (d : dirent image) (mf r : option (trained image))
           (e : Engine image) : Prop :=
  In d (faces_dir e) /\ model_file e = mf /\ RECOGNIZER e = r.

Lemma imwrite_apart sid d mf r file_name roi :
  dirent_name image d <> str sid ->
  preserves (apart_from_folder d mf r) (imwrite image FACES_DIR (str sid) file_name roi).
Proof.
  intros Hne e (Hin & Hmf & Hr). repeat split; try assumption.
  cbn [snd imwrite faces_dir]. apply in_map_iff. exists d. split; [|exact Hin].
  destruct d as [n|n files]; [reflexivity|]. cbn [dirent_name] in Hne.
  destruct (String.eqb_spec n (str sid)); [contradiction|reflexivity].
Qed.

Lemma makedirs_apart folder d mf r :
  preserves (apart_from_folder d mf r) (makedirs image FACES_DIR folder).
Proof.
  intros e (Hin & Hmf & Hr). unfold makedirs.
  destruct (find _ (faces_dir e)) as [[n|n files]|]; repeat split; try assumption.
  cbn [snd faces_dir]. apply in_or_app. now left.
Qed.

End CaptureReach.

Arguments apart_from_folder {image} _ _ _ _.

(** X3: [capture_samples] writes in the student's own folder only:
    every other entry of the faces directory, the model file and the
    loaded recognizer are the same afterwards, whatever the camera
    shows. *)
Theorem capture_samples_stays_in_folder
        (image : Type) (FACES_DIR : string) (student_id samples : Z)
        (cam : list (frame image)) (e : Engine image) (d : dirent image) :
  In d (faces_dir e) ->
  dirent_name image d <> str student_id ->
  let e' := snd (capture_samples FACES_DIR student_id samples cam e) in
  In d (faces_dir e') /\ model_file e' = model_file e /\ RECOGNIZER e' = RECOGNIZER e.
Proof.
  intros Hin Hne.
  apply (capture_samples_preserves image FACES_DIR
           (apart_from_folder d (model_file e) (RECOGNIZER e)) student_id samples cam).
  - apply makedirs_apart.
  - intros file_name roi. now apply imwrite_apart.
  - now repeat split.
Qed.

Definition engine_two_folders : Engine Z :=
  mkEngine [Directory "7" [mkFile "7_000.png" (Some 41)];
            Directory "8" [mkFile "8_000.png" (Some 51)]]
           (Some (mkTrained [41; 51] [7; 8])) None [].

Lemma capture_samples_stays_in_folder_witness :
  let e' := snd (capture_samples "/srv/data/faces" 7 2 [mkFrame [61; 62] q_key]
                   engine_two_folders) in
  In (Directory "8" [mkFile "8_000.png" (Some 51)]) (faces_dir e') /\
  model_file e' = model_file engine_two_folders /\
  RECOGNIZER e' = RECOGNIZER engine_two_folders.
Proof.
  apply (capture_samples_stays_in_folder Z "/srv/data/faces" 7 2 [mkFrame [61; 62] q_key]
           engine_two_folders (Directory "8" [mkFile "8_000.png" (Some 51)])).
  - cbn. auto.
  - vm_compute. discriminate.
Defined.

(** ** The stop key *)

(** X4: the stop test [cv2.waitKey(1) & 0xFF == ord('q')] looks at the
    low byte of the key code only: it holds exactly when the code is 113
    modulo 256, so not for -1 (no key pressed). *)
Theorem q_pressed_low_byte (k : Z) : q_pressed k = true <-> k mod 256 = 113.
Proof.
  unfold q_pressed. rewrite Z.eqb_eq.
  change 255 with (Z.ones 8). rewrite Z.land_ones by lia. reflexivity.
Qed.

Lemma frames_seen_stop {image} (pre post : list (frame image)) (fr : frame image) :
  q_pressed (key fr) = true ->
  frames_seen (pre ++ fr :: post) = frames_seen (pre ++ [fr]).
Proof.
  intros Hq. induction pre as [|f pre IH]; cbn [app frames_seen].
  - now rewrite Hq.
  - destruct (q_pressed (key f)); [reflexivity|now f_equal].
Qed.

Lemma capture_loop_stop {image} FACES_DIR sid samples
      (pre post : list (frame image)) (fr : frame image) :
  q_pressed (key fr) = true ->
  forall count preview e,
    capture_loop image FACES_DIR sid samples (pre ++ fr :: post) count preview e =
    capture_loop image FACES_DIR sid samples (pre ++ [fr]) count preview e.
Proof.
  intros Hq. induction pre as [|f pre IH]; intros count preview e; cbn [app capture_loop].
  - destruct (count <? samples); [|reflexivity]. now rewrite Hq.
  - destruct (count <? samples); [|reflexivity]. unfold bind.
    destruct (save_faces image FACES_DIR sid (faces f) count preview e) as [[r|x] e1];
      [|reflexivity].
    destruct (q_pressed (key f)); [reflexivity|apply IH].
Qed.

(** X5: once the operator presses [q] on a frame, what the camera would
    deliver afterwards has no influence, on a recognition or on a
    capture: the result and the state are those of the run cut after
    that frame. *)
Theorem stop_key_ends_the_session
        (image : Type) (predict : trained image -> image -> Z * Q) (FACES_DIR : string)
        (threshold : Q) (student_id samples : Z)
        (pre post : list (frame image)) (fr : frame image) (e : Engine image) :
  q_pressed (key fr) = true ->
  recognize_once predict threshold (pre ++ fr :: post) e =
    recognize_once predict threshold (pre ++ [fr]) e /\
  capture_samples FACES_DIR student_id samples (pre ++ fr :: post) e =
    capture_samples FACES_DIR student_id samples (pre ++ [fr]) e.
Proof.
  intros Hq. split.
  - rewrite !recognize_once_prepare. unfold bind.
    destruct (prepare_model e) as [[[|]|x] e1]; try reflexivity. cbn [negb].
    unfold get. destruct (RECOGNIZER e1) as [m|]; [|reflexivity].
    unfold ret. rewrite !recognize_loop_scan. now rewrite (frames_seen_stop pre post fr Hq).
  - unfold capture_samples, bind.
    destruct (makedirs image FACES_DIR (str student_id) e) as [[[]|x] e1]; [|reflexivity].
    now rewrite (capture_loop_stop FACES_DIR student_id samples pre post fr Hq).
Qed.

Lemma stop_key_ends_the_session_witness :
  recognize_once tagged_predict (70 # 1)
    ([mkFrame [(1, 60 # 1)] no_key] ++ mkFrame [] (113 + 256) :: [mkFrame [(2, 10 # 1)] no_key])
    engine_with_model =
  recognize_once tagged_predict (70 # 1)
    ([mkFrame [(1, 60 # 1)] no_key] ++ [mkFrame [] (113 + 256)]) engine_with_model /\
  capture_samples "/srv/data/faces" 7 5
    ([mkFrame [(1, 60 # 1)] no_key] ++ mkFrame [] (113 + 256) :: [mkFrame [(2, 10 # 1)] no_key])
    engine_with_model =
  capture_samples "/srv/data/faces" 7 5
    ([mkFrame [(1, 60 # 1)] no_key] ++ [mkFrame [] (113 + 256)]) engine_with_model.
Proof.
  apply (stop_key_ends_the_session (Z * Q) tagged_predict "/srv/data/faces" (70 # 1) 7 5).
  reflexivity.
Defined.

(** ** Recognition without a model *)

(** X6: with no model file and no sample to train on, [recognize_once]
    returns [None] at once: the camera is not read (the answer is the
    same for every camera) and nothing changes. *)
Theorem recognize_once_without_model
        (image : Type) (predict : trained image -> image -> Z * Q)
        (threshold : Q) (cam : list (frame image)) (e : Engine image) :
  model_file e = None ->
  sample_count (faces_dir e) = 0%nat ->
  recognize_once predict threshold cam e = (Ok None, e).
Proof.
  intros Hmf H0. unfold sample_count in H0. apply length_zero_iff_nil in H0.
  unfold recognize_once, bind, ensure_model_loaded. rewrite Hmf.
  unfold train_or_update_model, _load_dataset.
  rewrite load_entries_spec.
  - now rewrite H0.
  - intros img n Hin. rewrite H0 in Hin. contradiction.
Qed.

Lemma recognize_once_without_model_witness :
  recognize_once tagged_predict (70 # 1) [mkFrame [(1, 10 # 1)] q_key]
    (mkEngine [RegularFile "readme.txt"; Directory "9" [mkFile "9_000.png" None]]
              None None [])
  = (Ok None,
     mkEngine [RegularFile "readme.txt"; Directory "9" [mkFile "9_000.png" None]]
              None None []).
Proof.
  apply (recognize_once_without_model (Z * Q) tagged_predict).
  - reflexivity.
  - reflexivity.
Defined.

(** X7: [recognize_once] never touches the face samples, and when a
    model file exists it is the model used and it is left as it is. *)
Theorem recognize_once_keeps_dataset
        (image : Type) (predict : trained image -> image -> Z * Q)
        (threshold : Q) (cam : list (frame image)) (e : Engine image) :
  let e' := snd (recognize_once predict threshold cam e) in
  faces_dir e' = faces_dir e /\
  (forall m, model_file e = Some m ->
             model_file e' = Some m /\ RECOGNIZER e' = Some m /\
             fst (recognize_once predict threshold cam e) =
               Ok (recognize_loop predict m threshold cam None (999 # 1))).
Proof.
  cbv zeta. unfold recognize_once, bind, ensure_model_loaded.
  destruct (model_file e) as [m|] eqn:Hmf.
  - cbn. split; [reflexivity|].
    intros m' Hm'. injection Hm' as <-. repeat split; try reflexivity; exact Hmf.
  - split; [|discriminate]. unfold train_or_update_model.
    destruct (_load_dataset e) as [[[|img imgs] labels]|x]; reflexivity.
Qed.

Lemma recognize_once_keeps_dataset_witness :
  let e' := snd (recognize_once tagged_predict (70 # 1) [mkFrame [(2, 40 # 1)] q_key]
                   engine_with_model) in
  model_file e' = model_file engine_with_model /\
  RECOGNIZER e' = model_file engine_with_model /\
  fst (recognize_once tagged_predict (70 # 1) [mkFrame [(2, 40 # 1)] q_key]
         engine_with_model) = Ok (Some 2).
Proof.
  apply (proj2 (recognize_once_keeps_dataset (Z * Q) tagged_predict (70 # 1)
                  [mkFrame [(2, 40 # 1)] q_key] engine_with_model)).
  reflexivity.
Defined.

(** ** The schema's constraints are kept *)

Lemma NoDup_snoc {A} (l : list A) (x : A) : NoDup l -> ~ In x l -> NoDup (l ++ [x]).
Proof.
  intros Hl Hx. apply NoDup_app; [assumption|repeat constructor; intros []|].
  intros y Hy [<-|[]]. contradiction.
Qed.

Lemma next_rowid_fresh (ids : list Z) : ~ In (next_rowid ids) ids.
Proof. intros H. apply next_rowid_gt in H. lia. Qed.

Lemma roll_no_taken_false_inv i r l :
  roll_no_taken i r l = false ->
  forall s, In s l -> st_id s <> i -> roll_no s <> r.
Proof.
  unfold roll_no_taken. intros H s Hin Hid Hr.
  assert (Hex : existsb (fun s0 => negb (st_id s0 =? i) && String.eqb (roll_no s0) r) l = true).
  { apply existsb_exists. exists s. split; [assumption|].
    apply andb_true_iff. split.
    - apply negb_true_iff. now apply Z.eqb_neq.
    - now apply String.eqb_eq. }
  rewrite H in Hex. discriminate.
Qed.

Lemma student_day_taken_false_inv i sid d l :
  student_day_taken i sid d l = false ->
  forall a, In a l -> att_id a <> i -> student_day a <> (sid, d).
Proof.
  unfold student_day_taken, student_day. intros H a Hin Hid Hk.
  injection Hk as Hs Hd.
  assert (Hex : existsb (fun a0 => negb (att_id a0 =? i) && (student_id a0 =? sid)
                                   && (day a0 =? d)) l = true).
  { apply existsb_exists. exists a. split; [assumption|].
    rewrite !andb_true_iff, negb_true_iff, Z.eqb_neq, !Z.eqb_eq. auto. }
  rewrite H in Hex. discriminate.
Qed.

Section Replace.

Context {A K : Type} (id : A -> Z) (key : A -> K) (row : A).

Definition replace_by_id (l : list A) : list A :=
  map (fun x => if id x =? id row then row else x) l.

Lemma replace_by_id_ids l : map id (replace_by_id l) = map id l.
Proof.
  unfold replace_by_id. rewrite map_map. apply map_ext. intros x.
  destruct (id x =? id row) eqn:E; [|reflexivity]. apply Z.eqb_eq in E. now symmetry.
Qed.

Lemma replace_by_id_absent l :
  (forall x, In x l -> id x <> id row) -> replace_by_id l = l.
Proof.
  intros H. unfold replace_by_id. rewrite <- (map_id l) at 2. apply map_ext_in.
  intros x Hx. destruct (id x =? id row) eqn:E; [|reflexivity].
  apply Z.eqb_eq in E. now apply H in Hx.
Qed.

Lemma replace_by_id_keys l :
  NoDup (map id l) -> NoDup (map key l) ->
  (forall x, In x l -> id x <> id row -> key x <> key row) ->
  NoDup (map key (replace_by_id l)).
Proof.
  induction l as [|x0 l IH]; intros Hid Hkey Hrow; [constructor|].
  cbn [map] in Hid, Hkey.
  inversion Hid as [|i is_ Hi Hid']; inversion Hkey as [|k ks Hk Hkey']; subst.
  assert (Hrow' : forall x, In x l -> id x <> id row -> key x <> key row).
  { intros x Hx. apply Hrow. now right. }
  unfold replace_by_id. cbn [map]. fold (replace_by_id l).
  destruct (id x0 =? id row) eqn:E.
  - apply Z.eqb_eq in E.
    assert (Hl : forall x, In x l -> id x <> id row).
    { intros x Hx Heq. apply Hi. rewrite E, <- Heq. now apply in_map. }
    rewrite (replace_by_id_absent l Hl). constructor; [|assumption].
    intros Hin. apply in_map_iff in Hin as [x [Hx Hxl]].
    now apply (Hrow' x Hxl (Hl x Hxl)).
  - apply Z.eqb_neq in E. constructor; [|now apply IH].
    intros Hin. apply in_map_iff in Hin as [y [Hy Hyl]].
    unfold replace_by_id in Hyl. apply in_map_iff in Hyl as [x [Hx Hxl]].
    destruct (id x =? id row); subst y.
    + apply (Hrow x0 (or_introl eq_refl) E). now symmetry.
    + apply Hk. rewrite <- Hy. now apply in_map.
Qed.

End Replace.

(** Both the transaction's view and the committed tables meet the
    constraints. *)
Definition session_wf (s : Session) : Prop :=
  wf_tables (view s) /\ wf_tables (durable s).

Lemma flush_op_wf op : preserves session_wf (flush_op op).
Proof.
  intros s [Hv Hd]. destruct Hv as [Hspk Hroll Hapk Hsd]. unfold flush_op.
  destruct op as [r n e k c|sid d st|row|row].
  - destruct (roll_no_taken _ r _) eqn:E; [now split; [split|]|].
    split; [|exact Hd]. cbn [snd view]. split; cbn [students attendance]; try assumption.
    + rewrite map_app. cbn [map st_id]. apply NoDup_snoc; [assumption|].
      apply next_rowid_fresh.
    + rewrite map_app. cbn [map roll_no]. apply NoDup_snoc; [assumption|].
      intros Hin. apply in_map_iff in Hin as [s0 [Hr Hs0]].
      apply (roll_no_taken_false_inv _ _ _ E s0 Hs0); [|exact Hr].
      intros Heq. apply (next_rowid_fresh (map st_id (students (view s)))).
      rewrite <- Heq. now apply in_map.
  - destruct (student_day_taken _ sid d _) eqn:E; [now split; [split|]|].
    split; [|exact Hd]. cbn [snd view]. split; cbn [students attendance]; try assumption.
    + rewrite map_app. cbn [map att_id]. apply NoDup_snoc; [assumption|].
      apply next_rowid_fresh.
    + rewrite map_app. cbn [map student_day]. apply NoDup_snoc; [assumption|].
      intros Hin. apply in_map_iff in Hin as [a0 [Hk Ha0]].
      apply (student_day_taken_false_inv _ _ _ _ E a0 Ha0); [|exact Hk].
      intros Heq. apply (next_rowid_fresh (map att_id (attendance (view s)))).
      rewrite <- Heq. now apply in_map.
  - destruct (find_student _ _); [|now split; [split|]].
    destruct (Student_eq_dec _ _); [now split; [split|]|].
    destruct (roll_no_taken _ _ _) eqn:E; [now split; [split|]|].
    split; [|exact Hd]. cbn [snd view]. split; cbn [students attendance]; try assumption.
    + change (replace_student row (students (view s)))
        with (replace_by_id st_id row (students (view s))).
      now rewrite replace_by_id_ids.
    + change (replace_student row (students (view s)))
        with (replace_by_id st_id row (students (view s))).
      apply replace_by_id_keys; try assumption.
      intros x Hx Hid. now apply (roll_no_taken_false_inv _ _ _ E x Hx).
  - destruct (find_attendance _ _); [|now split; [split|]].
    destruct (Attendance_eq_dec _ _); [now split; [split|]|].
    destruct (student_day_taken _ _ _ _) eqn:E; [now split; [split|]|].
    split; [|exact Hd]. cbn [snd view]. split; cbn [students attendance]; try assumption.
    + change (replace_attendance row (attendance (view s)))
        with (replace_by_id att_id row (attendance (view s))).
      now rewrite replace_by_id_ids.
    + change (replace_attendance row (attendance (view s)))
        with (replace_by_id att_id row (attendance (view s))).
      apply replace_by_id_keys; try assumption.
      intros x Hx Hid. now apply (student_day_taken_false_inv _ _ _ _ E x Hx).
Qed.

Lemma flush_ops_wf ops : preserves session_wf (flush_ops ops).
Proof.
  induction ops as [|op ops IH]; cbn [flush_ops].
  - apply preserves_ret.
  - apply preserves_bind; [apply flush_op_wf|intros _; exact IH].
Qed.

Lemma flush_wf : preserves session_wf flush.
Proof.
  intros s Hs. unfold flush. pose proof (flush_ops_wf (pending s) s Hs) as H.
  unfold bind. destruct (flush_ops (pending s) s) as [[[]|x] s']; cbn [snd] in *; exact H.
Qed.

Lemma commit_wf : preserves session_wf commit.
Proof.
  unfold commit. apply preserves_bind; [exact flush_wf|]. intros _ s [Hv Hd].
  now split.
Qed.

Lemma add_wf op : preserves session_wf (add op).
Proof. intros s Hs. exact Hs. Qed.

Lemma one_or_none_wf {A} (rows : list A) : preserves session_wf (one_or_none rows).
Proof.
  destruct rows as [|r [|r' rows]]; [apply preserves_ret|apply preserves_ret|apply preserves_raise].
Qed.

Lemma ensure_day_rows_wf d : preserves session_wf (ensure_day_rows d).
Proof.
  unfold ensure_day_rows, query_students_all.
  apply preserves_bind;
    [apply preserves_bind; [exact flush_wf|intros _; apply preserves_read]|].
  intros studs. apply preserves_bind; [|intros _; exact commit_wf].
  apply for_each_ok. intros x. unfold ensure_day_row, query_attendance_by_student_day.
  apply preserves_bind;
    [apply preserves_bind; [exact flush_wf|intros _; apply preserves_read]|].
  intros rows. apply preserves_bind; [apply one_or_none_wf|].
  intros [a|]; [apply preserves_ret|apply add_wf].
Qed.

Section RoutesConstraints.

Variable image : Type.
Variable predict : trained image -> image -> Z * Q.
Variable FACES_DIR : string.
Variable strptime_date : string -> option date.

Definition world_wf (w : World image) : Prop := wf_tables (db w).

Definition handler_wf (h : Session * World image) : Prop := session_wf (fst h).

Lemma in_session_wf {A} (m : SM A) :
  preserves session_wf m -> preserves handler_wf (in_session (image := image) m).
Proof.
  intros Hm [s w] Hs. unfold in_session, handler_wf in *. cbn [fst snd] in *.
  specialize (Hm s Hs). now destruct (m s).
Qed.

Lemma in_world_wf {A} (m : M (World image) A) : preserves handler_wf (in_world m).
Proof.
  intros [s w] Hs. unfold in_world, handler_wf in *. cbn [fst snd] in *.
  now destruct (m w).
Qed.

Lemma in_engine_wf {A} (m : EM image A) : preserves world_wf (in_engine m).
Proof. intros w Hw. unfold in_engine, world_wf in *. now destruct (m (engine w)). Qed.

Lemma with_SessionLocal_wf {A} (body : M (Session * World image) A) :
  preserves handler_wf body -> preserves world_wf (with_SessionLocal body).
Proof.
  intros Hbody w Hw. unfold with_SessionLocal.
  specialize (Hbody (SessionLocal (db w), w)).
  destruct (body (SessionLocal (db w), w)) as [r h]. cbn [snd] in *.
  unfold world_wf. cbn [db]. apply Hbody. now split.
Qed.

Ltac keep_wf :=
  repeat first
    [ apply preserves_ret | apply preserves_raise | apply preserves_get
    | apply preserves_read | apply in_world_wf | apply in_engine_wf
    | apply form_strip_ok
    | apply with_SessionLocal_wf
    | apply in_session_wf
    | exact flush_wf | exact commit_wf | apply one_or_none_wf
    | apply ensure_day_rows_wf | apply add_wf
    | apply preserves_bind; [|intro]
    | match goal with
      | |- preserves _ (match ?x with _ => _ end) => destruct x
      end ].

Lemma serves_wf w w' :
  serves predict FACES_DIR strptime_date w w' -> world_wf w -> world_wf w'.
Proof.
  intros H Hw. destruct H.
  - refine ((_ : preserves world_wf (dashboard utc)) w Hw).
    unfold dashboard. keep_wf.
  - refine ((_ : preserves world_wf (register FACES_DIR req cam)) w Hw).
    unfold register. keep_wf.
  - refine ((_ : preserves world_wf students_page) w Hw).
    unfold students_page. keep_wf.
  - refine ((_ : preserves world_wf (student_edit FACES_DIR sid req cam)) w Hw).
    unfold student_edit. keep_wf.
  - refine ((_ : preserves world_wf download_students) w Hw).
    unfold download_students. keep_wf.
  - refine ((_ : preserves world_wf (attendance_page utc)) w Hw).
    unfold attendance_page, query_attendance_of_day. keep_wf.
  - refine ((_ : preserves world_wf (api_mark_attendance predict cam utc1 utc2)) w Hw).
    unfold api_mark_attendance, query_attendance_by_student_day. keep_wf.
  - refine ((_ : preserves world_wf (api_attendance_today utc)) w Hw).
    unfold api_attendance_today, query_attendance_of_day. keep_wf.
  - refine ((_ : preserves world_wf (download_attendance_today utc)) w Hw).
    unfold download_attendance_today, _download_attendance_for_date,
      query_attendance_of_day. keep_wf.
  - refine ((_ : preserves world_wf (download_attendance_by_date strptime_date req)) w Hw).
    unfold download_attendance_by_date, _download_attendance_for_date,
      query_attendance_of_day. keep_wf.
  - refine ((_ : preserves world_wf (download_attendance_pdf strptime_date req utc)) w Hw).
    unfold download_attendance_pdf, query_attendance_of_day. keep_wf.
Qed.

End RoutesConstraints.

Arguments world_wf {image} _.

(** *** A write that breaks a constraint *)

Lemma find_student_some sid (l : list Student) st :
  find_student sid l = Some st -> In st l /\ st_id st = sid.
Proof.
  intros H. apply find_some in H as [Hin Hid]. now apply Z.eqb_eq in Hid.
Qed.

Lemma in_world_in_engine_Ok {image A} (m : EM image A) (s : Session) (w : World image)
      e' (a : A) :
  m (engine w) = (Ok a, e') ->
  in_world (in_engine m) (s, w) =
  (Ok a, (s, mkWorld (db w) e' (flashes w) (sql_log w))).
Proof.
  intros H. unfold in_world. cbn [fst snd]. now rewrite (in_engine_Ok m w e' a H).
Qed.

Lemma bind_Raise {S A B} (m : M S A) (f : A -> M S B) s x s' :
  m s = (Raise x, s') -> bind m f s = (Raise x, s').
Proof. intros H. unfold bind. now rewrite H. Qed.

Lemma roll_no_taken_by i r (l : list Student) (other : Student) :
  In other l -> st_id other <> i -> roll_no other = r -> roll_no_taken i r l = true.
Proof.
  intros Hin Hid Hr. unfold roll_no_taken. apply existsb_exists. exists other.
  split; [exact Hin|]. apply andb_true_iff. split.
  - apply negb_true_iff. now apply Z.eqb_neq.
  - now apply String.eqb_eq.
Qed.

(** The commit of an edit that takes another row's roll number: the
    UPDATE is refused, nothing is committed. *)
Lemma commit_dirty_student_taken v dur lg row old :
  find_student (st_id row) (students v) = Some old ->
  old <> row ->
  roll_no_taken (st_id row) (roll_no row) (students v) = true ->
  commit (mkSession v [DirtyStudent row] dur lg) =
  (Raise IntegrityError, mkSession v [DirtyStudent row] dur lg).
Proof.
  intros Hfind Hne Htaken. unfold commit, flush, bind. cbn [pending flush_ops].
  unfold bind, flush_op. cbn [view]. rewrite Hfind.
  destruct (Student_eq_dec old row); [contradiction|]. now rewrite Htaken.
Qed.

(** The value of the [recapture] field is ['on'] or it is not. *)
Lemma recapture_cases (o : option string) :
  o = Some "on"%string \/
  forall (T : Type) (a b : T),
    match o with Some "on"%string => a | _ => b end = b.
Proof.
  destruct o as [s|]; [|right; intros; reflexivity].
  destruct s as [|c1 s]; [right; intros; reflexivity|].
  destruct c1 as [[] [] [] [] [] [] [] []]; try (right; intros; reflexivity).
  destruct s as [|c2 s]; [right; intros; reflexivity|].
  destruct c2 as [[] [] [] [] [] [] [] []]; try (right; intros; reflexivity).
  destruct s; [left; reflexivity|right; intros; reflexivity].
Qed.

(** A capture succeeds, or a regular file has the name of the folder
    and nothing is done. *)
Lemma capture_samples_outcome {image} FACES_DIR sid samples cam (e : Engine image) :
  (folder_available sid e /\
   exists p e1, capture_samples FACES_DIR sid samples cam e = (Ok p, e1)) \/
  (~ folder_available sid e /\
   capture_samples FACES_DIR sid samples cam e = (Raise FileExistsError, e)).
Proof.
  destruct (find (fun d => String.eqb (dirent_name image d) (str sid)) (faces_dir e))
    as [[n|n files]|] eqn:E.
  - right. split; [intros H; now apply (H n)|].
    unfold capture_samples, bind, makedirs. now rewrite E.
  - assert (Hav : folder_available sid e) by (intros n0; rewrite E; discriminate).
    left. split; [exact Hav|].
    destruct (capture_samples_run image FACES_DIR sid samples cam e Hav)
      as (e1 & new & Hrun & _). eexists _, e1. exact Hrun.
  - assert (Hav : folder_available sid e) by (intros n0; rewrite E; discriminate).
    left. split; [exact Hav|].
    destruct (capture_samples_run image FACES_DIR sid samples cam e Hav)
      as (e1 & new & Hrun & _). eexists _, e1. exact Hrun.
Qed.

(** An edit that gives a student the roll number of another one is
    refused by the database: the route raises and the tables, the
    statement log and the flashed messages are what they were. *)
Lemma student_edit_duplicate_raises
      {image : Type} (FACES_DIR : string) (sid : Z) (req : request)
      (cam : list (frame image)) (w : World image) (st other : Student) (r n : string) :
  wf_tables (db w) ->
  find_student sid (students (db w)) = Some st ->
  In other (students (db w)) -> st_id other <> sid ->
  method req = "POST"%string ->
  dict_get "roll_no" (form req) = Some r ->
  dict_get "name" (form req) = Some n ->
  roll_no other = strip r ->
  exists x w2,
    student_edit FACES_DIR sid req cam w = (Raise x, w2) /\
    db w2 = db w /\ sql_log w2 = sql_log w /\ flashes w2 = flashes w /\
    (x = IntegrityError \/
     (x = FileExistsError /\ ~ folder_available sid (engine w))).
Proof.
  intros Hwf Hfind Hother Hoid Hm Hr Hn Hroll.
  destruct (find_student_some _ _ _ Hfind) as [Hin Hid].
  set (email := strip (dict_get_default "email" (form req))).
  set (klass := strip (dict_get_default "klass" (form req))).
  set (section := strip (dict_get_default "section" (form req))).
  unfold student_edit, with_SessionLocal.
  unfold bind at 1. unfold get at 1. cbn [fst view SessionLocal]. rewrite Hfind, Hm.
  cbn [String.eqb Ascii.eqb Bool.eqb].
  unfold form_strip, form_get_strip. rewrite Hr, Hn.
  unfold bind at 1. unfold ret at 1. unfold bind at 1. unfold ret at 1.
  fold email klass section. rewrite Hid.
  set (s0 := mkSession (db w) [] (db w) []).
  (* the commit is refused whatever the image path *)
  assert (Hcommit : forall (path : option string) (w1 : World image),
    (in_session (add (DirtyStudent
        (mkStudent sid (strip r) (strip n) (Some email) (Some klass) (Some section) path))) ;;;
     in_session commit ;;;
     in_world (in_engine train_or_update_model) ;;;
     in_world (flash "Student updated" "success") ;;;
     ret (redirect "students"))
      (s0, w1)
    = (Raise IntegrityError,
       (mkSession (db w)
          [DirtyStudent (mkStudent sid (strip r) (strip n) (Some email) (Some klass)
                                   (Some section) path)] (db w) [],
        w1))).
  { intros path w1.
    set (row := mkStudent sid (strip r) (strip n) (Some email) (Some klass) (Some section) path).
    rewrite (bind_Ok _ _ _ _ _
               (in_session_Ok (add (DirtyStudent row)) s0
                  (mkSession (db w) [DirtyStudent row] (db w) []) w1 tt eq_refl)).
    apply bind_Raise. unfold in_session. cbn [fst snd].
    rewrite (commit_dirty_student_taken (db w) (db w) [] row st).
    - reflexivity.
    - exact Hfind.
    - intros Heq. apply Hoid.
      assert (Hsame : roll_no other = roll_no st) by (rewrite Heq; exact Hroll).
      apply (NoDup_map_inj roll_no (students (db w)) other st
               (wf_roll_no _ Hwf) Hother Hin) in Hsame as ->.
      exact Hid.
    - now apply (roll_no_taken_by sid (strip r) _ other). }
  destruct (recapture_cases (dict_get "recapture" (form req))) as [Hrec|Hrec].
  - rewrite Hrec.
    destruct (capture_samples_outcome FACES_DIR sid 15 cam (engine w))
      as [[Hav (p & e1 & Hcap)]|[Hnav Hcap]].
    + rewrite (bind_Ok _ _ _ _ _
                 (bind_Ok _ _ _ _ _ (in_world_in_engine_Ok _ s0 w e1 p Hcap))).
      unfold ret at 1. rewrite Hcommit. cbn [fst snd durable flashes sql_log log].
      eexists _, _. split; [reflexivity|]. cbn [db sql_log flashes].
      rewrite app_nil_r. repeat split. now left.
    + assert (Hraise : in_world (in_engine (capture_samples FACES_DIR sid 15 cam)) (s0, w)
                       = (Raise FileExistsError, (s0, w))).
      { unfold in_world, in_engine. cbn [fst snd]. rewrite Hcap. now destruct w. }
      rewrite (bind_Raise _ _ _ _ _ (bind_Raise _ _ _ _ _ Hraise)).
      cbn [fst snd durable flashes sql_log log s0].
      eexists _, _. split; [reflexivity|]. cbn [db sql_log flashes].
      rewrite app_nil_r. repeat split. right. now split.
  - rewrite Hrec. unfold bind at 1. unfold ret at 1.
    rewrite Hcommit. cbn [fst snd durable flashes sql_log log].
    eexists _, _. split; [reflexivity|]. cbn [db sql_log flashes].
    rewrite app_nil_r. repeat split. now left.
Qed.

(** X8: whatever requests are served, the tables keep the schema's
    constraints, which the database checks at every flush: distinct
    student and attendance identities, distinct roll numbers, one
    attendance row at most per (student, day).  In a state so reached, a
    write that would break one is refused: a POST to the edit route that
    gives a student the roll number of another raises, [IntegrityError]
    at the commit (or [FileExistsError] before it, when a recapture is
    asked for and a regular file has the name of the student's folder),
    and the tables, the statement log and the flashed messages are what
    they were: nothing of the refused write stays. *)
Theorem routes_keep_constraints
        (image : Type) (predict : trained image -> image -> Z * Q)
        (FACES_DIR : string) (strptime_date : string -> option date)
        (w w' : World image) :
  reaches predict FACES_DIR strptime_date w w' ->
  wf_tables (db w) ->
  wf_tables (db w') /\
  (forall (sid : Z) (req : request) (cam : list (frame image))
          (st other : Student) (r n : string),
     find_student sid (students (db w')) = Some st ->
     In other (students (db w')) -> st_id other <> sid ->
     method req = "POST"%string ->
     dict_get "roll_no" (form req) = Some r ->
     dict_get "name" (form req) = Some n ->
     roll_no other = strip r ->
     exists x w2,
       student_edit FACES_DIR sid req cam w' = (Raise x, w2) /\
       db w2 = db w' /\ sql_log w2 = sql_log w' /\ flashes w2 = flashes w' /\
       (x = IntegrityError \/
        (x = FileExistsError /\ ~ folder_available sid (engine w')))).
Proof.
  intros Hreach Hw.
  assert (Hw' : wf_tables (db w')).
  { induction Hreach as [w|w1 w2 w3 _ IH Hstep]; [exact Hw|].
    apply (serves_wf image predict FACES_DIR strptime_date w2 w3 Hstep). now apply IH. }
  split; [exact Hw'|].
  intros sid req cam st other r n Hfind Hother Hoid Hm Hr Hn Hroll.
  now apply (student_edit_duplicate_raises FACES_DIR sid req cam w' st other r n).
Qed.

Definition world_three_students : World (Z * Q) :=
  snd (register "/srv/data/faces"
         (mkRequest "POST" [("roll_no", "23"); ("name", "Mira")]%string [])
         [mkFrame [(3, 40 # 1)] q_key] world_two_students).

Lemma routes_keep_constraints_witness :
  wf_tables (db world_three_students) /\
  exists x w2,
    student_edit "/srv/data/faces" 2
      (mkRequest "POST" [("roll_no", " 21"); ("name", "Ravi")]%string []) []
      world_three_students = (Raise x, w2) /\
    db w2 = db world_three_students.
Proof.
  destruct (routes_keep_constraints (Z * Q) tagged_predict "/srv/data/faces"
              (fun _ => None) world_two_students world_three_students)
    as [Hwf Hrefused].
  - eapply reaches_step; [apply reaches_refl|]. apply serves_register.
  - split; cbn; repeat constructor; cbn; intuition discriminate.
  - split; [exact Hwf|].
    destruct (Hrefused 2
                (mkRequest "POST" [("roll_no", " 21"); ("name", "Ravi")]%string []) []
                (mkStudent 2 "22" "Ravi" None None None None)
                (mkStudent 1 "21" "Asha" None None None None) " 21"%string "Ravi"%string)
      as (x & w2 & Hrun & Hdb & _).
    + reflexivity.
    + vm_compute. auto.
    + discriminate.
    + reflexivity.
    + reflexivity.
    + reflexivity.
    + reflexivity.
    + exists x, w2. split; [exact Hrun|exact Hdb].
Defined.

(** ** Routes that only read *)

Lemma world_eta {image} (w : World image) :
  mkWorld (db w) (engine w) (flashes w) (sql_log w ++ []) = w.
Proof. destruct w. cbn. now rewrite app_nil_r. Qed.

(** A single query in a session of its own: the answer is computed on
    the database as it is, and nothing changes. *)
Lemma with_SessionLocal_query {image A} (g : Session -> A) (w : World image) :
  with_SessionLocal (in_session (flush ;;; (fun s => (Ok (g s), s)))) w =
  (Ok (g (SessionLocal (db w))), w).
Proof.
  unfold with_SessionLocal, in_session, bind, flush, SessionLocal. cbn.
  now rewrite world_eta.
Qed.

(** X9: the listing and export routes are read-only: the JSON endpoint,
    the spreadsheet and PDF exports (also when the date argument is
    missing or malformed and they raise), the student list and the roster
    export leave the database, the face data, the flashed messages and
    the statement log as they were. *)
Theorem listing_routes_read_only
        (image : Type) (strptime_date : string -> option date)
        (utc : Z) (d : date) (req : request) (w : World image) :
  snd (api_attendance_today utc w) = w /\
  snd (_download_attendance_for_date d w) = w /\
  snd (download_attendance_today utc w) = w /\
  snd (download_attendance_by_date strptime_date req w) = w /\
  snd (download_attendance_pdf strptime_date req utc w) = w /\
  snd (students_page w) = w /\
  snd (download_students w) = w.
Proof.
  assert (Hday : forall d0, snd (_download_attendance_for_date d0 w) = w).
  { intros d0. unfold _download_attendance_for_date, query_attendance_of_day.
    unfold bind at 1. now rewrite with_SessionLocal_query. }
  repeat split.
  - unfold api_attendance_today, query_attendance_of_day.
    unfold bind at 1. now rewrite with_SessionLocal_query.
  - apply Hday.
  - apply Hday.
  - unfold download_attendance_by_date.
    destruct (dict_get "date" (args req)) as [dstr|]; [|reflexivity].
    destruct (strptime_date dstr); [apply Hday|reflexivity].
  - unfold download_attendance_pdf, query_attendance_of_day.
    unfold bind at 1.
    destruct (dict_get "date" (args req)) as [[|c dstr]|].
    + unfold ret at 1. unfold bind at 1. now rewrite with_SessionLocal_query.
    + destruct (strptime_date (String c dstr)); [|reflexivity].
      unfold ret at 1. unfold bind at 1. now rewrite with_SessionLocal_query.
    + unfold ret at 1. unfold bind at 1. now rewrite with_SessionLocal_query.
  - unfold students_page. unfold bind at 1. now rewrite with_SessionLocal_query.
  - unfold download_students. unfold bind at 1. now rewrite with_SessionLocal_query.
Qed.

(** X10: editing a student identity that is not in the table changes
    nothing: the route flashes [Student not found] and redirects to the
    student list, whatever the method and the form. *)
Theorem student_edit_not_found
        (image : Type) (FACES_DIR : string) (sid : Z) (req : request)
        (cam : list (frame image)) (w : World image) :
  find_student sid (students (db w)) = None ->
  student_edit FACES_DIR sid req cam w =
  (Ok (redirect "students"),
   mkWorld (db w) (engine w) (flashes w ++ [("Student not found", "danger")%string])
           (sql_log w)).
Proof.
  intros Hnone. unfold student_edit, with_SessionLocal, bind, get, SessionLocal.
  cbn [fst view]. rewrite Hnone.
  unfold in_world, flash, ret. cbn. now rewrite app_nil_r.
Qed.

Lemma student_edit_not_found_witness :
  student_edit "/srv/data/faces" 9
    (mkRequest "POST" [("roll_no", "21"); ("name", "Nobody")]%string [])
    [mkFrame [(1, 75 # 1)] q_key] world_two_students =
  (Ok (redirect "students"),
   mkWorld db_two_students engine_with_model [("Student not found", "danger")%string] []).
Proof.
  apply (student_edit_not_found (Z * Q) "/srv/data/faces" 9
           (mkRequest "POST" [("roll_no", "21"); ("name", "Nobody")]%string [])
           [mkFrame [(1, 75 # 1)] q_key] world_two_students).
  reflexivity.
Defined.

(** ** Marking a label that is no student *)

Section MarkingSteps.

Variable image : Type.
Variables (sid : Z) (today : date) (now : datetime).
Variable A : Type.
(** What follows the second commit. *)
Variable k : M (Session * World image) A.

(** The block of [api_mark_attendance] up to its last commit. *)
Definition mark_then : M (Session * World image) A :=
  rows <- in_session (query_attendance_by_student_day sid today) ;;
  found <- in_session (one_or_none rows) ;;
  att <- (match found with
          | Some a => ret a
          | None =>
              in_session (add (NewAttendance sid today "Absent")) ;;;
              in_session commit ;;;
              h <- get ;;
              ret (last (attendance (view (fst h)))
                        (mkAttendance 0 sid today "Absent" None))
          end) ;;
  in_session (add (DirtyAttendance
    (mkAttendance (att_id att) (student_id att) (day att) "Present" (Some now)))) ;;;
  in_session commit ;;;
  k.

Lemma mark_then_found (t : Tables) (w : World image) (a : Attendance) :
  wf_tables t ->
  attendance_of sid today (attendance t) = [a] ->
  exists lg,
    let t' := mkTables (students t) (map (mark_present sid today now) (attendance t)) in
    mark_then (SessionLocal t, w) = k (mkSession t' [] t' lg, w).
Proof.
  intros Hwf Hfound. unfold mark_then.
  destruct (key_of_found sid today _ a Hfound) as (Hin & Hs & Hd).
  assert (Hq : query_attendance_by_student_day sid today (SessionLocal t)
               = (Ok [a], SessionLocal t)).
  { rewrite <- Hfound. reflexivity. }
  rewrite (bind_Ok _ _ _ _ _ (in_session_Ok _ _ _ w _ Hq)).
  rewrite (bind_Ok _ _ _ _ _
             (in_session_Ok (one_or_none [a]) _ (SessionLocal t) w (Some a) eq_refl)).
  unfold bind at 1. unfold ret at 1.
  set (row := mkAttendance (att_id a) (student_id a) (day a) "Present" (Some now)).
  assert (Hrow : row = mark_present sid today now a).
  { unfold mark_present.
    replace ((student_id a =? sid) && (day a =? today)) with true; [reflexivity|].
    now rewrite Hs, Hd, !Z.eqb_refl. }
  rewrite (bind_Ok _ _ _ _ _
             (in_session_Ok (add (DirtyAttendance row)) (SessionLocal t)
                            (mkSession t [DirtyAttendance row] t []) w tt eq_refl)).
  assert (Htaken : student_day_taken (att_id row) (student_id row) (day row)
                                     (attendance t) = false).
  { cbn [att_id student_id day row]. rewrite Hs, Hd.
    apply (student_day_taken_self sid today _ a (wf_student_day _ Hwf) Hfound). }
  pose proof (commit_dirty_attendance t t [] row a
                (find_attendance_In _ a (wf_attendance_pk _ Hwf) Hin) Htaken) as Hc.
  destruct (Attendance_eq_dec a row) as [Heq|Hne].
  - rewrite (bind_Ok _ _ _ _ _ (in_session_Ok _ _ _ w _ Hc)).
    exists ([] ++ [COMMIT]). cbv zeta.
    rewrite (mark_present_fixed sid today now _ a (wf_student_day _ Hwf) Hfound).
    + destruct t; reflexivity.
    + now rewrite <- Hrow.
  - rewrite (bind_Ok _ _ _ _ _ (in_session_Ok _ _ _ w _ Hc)).
    exists (([] ++ [UPDATE_attendance row]) ++ [COMMIT]). cbv zeta.
    rewrite <- (replace_attendance_mark sid today now _ a
                  (wf_attendance_pk _ Hwf) (wf_student_day _ Hwf) Hfound).
    rewrite <- Hrow. reflexivity.
Qed.

Lemma mark_then_absent (t : Tables) (w : World image) :
  attendance_of sid today (attendance t) = [] ->
  let i := next_rowid (map att_id (attendance t)) in
  let t' := mkTables (students t)
                     (attendance t ++ [mkAttendance i sid today "Present" (Some now)]) in
  mark_then (SessionLocal t, w) =
  k (mkSession t' [] t'
               [INSERT_attendance (mkAttendance i sid today "Absent" None); COMMIT;
                UPDATE_attendance (mkAttendance i sid today "Present" (Some now)); COMMIT],
     w).
Proof.
  intros Hnone i t'. unfold mark_then.
  assert (Hq : query_attendance_by_student_day sid today (SessionLocal t)
               = (Ok [], SessionLocal t)).
  { rewrite <- Hnone. reflexivity. }
  rewrite (bind_Ok _ _ _ _ _ (in_session_Ok _ _ _ w _ Hq)).
  rewrite (bind_Ok _ _ _ _ _
             (in_session_Ok (one_or_none []) _ (SessionLocal t) w None eq_refl)).
  set (absent := mkAttendance i sid today "Absent" None).
  set (present := mkAttendance i sid today "Present" (Some now)).
  set (t1 := mkTables (students t) (attendance t ++ [absent])).
  assert (Hatt : (in_session (image := image) (add (NewAttendance sid today "Absent")) ;;;
                  in_session commit ;;;
                  h <- get ;;
                  ret (last (attendance (view (fst h)))
                            (mkAttendance 0 sid today "Absent" None)))
                   (SessionLocal t, w)
                 = (Ok absent, (mkSession t1 [] t1 [INSERT_attendance absent; COMMIT], w))).
  { rewrite (bind_Ok _ _ _ _ _
               (in_session_Ok (add (NewAttendance sid today "Absent")) (SessionLocal t)
                  (mkSession t [NewAttendance sid today "Absent"] t []) w tt eq_refl)).
    rewrite (bind_Ok _ _ _ _ _
               (in_session_Ok _ _ _ w _ (commit_new_attendance t t [] sid today _ Hnone))).
    unfold bind, get, ret. cbn [fst view attendance]. now rewrite last_last. }
  rewrite (bind_Ok _ _ _ _ _ Hatt). cbn [att_id student_id day absent].
  rewrite (bind_Ok _ _ _ _ _
             (in_session_Ok (add (DirtyAttendance present))
                            (mkSession t1 [] t1 [INSERT_attendance absent; COMMIT])
                            (mkSession t1 [DirtyAttendance present] t1
                                       [INSERT_attendance absent; COMMIT])
                            w tt eq_refl)).
  assert (Hfresh : forall a0, In a0 (attendance t) -> (att_id a0 =? i) = false).
  { intros a0 Hin. apply Z.eqb_neq.
    pose proof (next_rowid_gt (map att_id (attendance t)) (att_id a0) (in_map _ _ _ Hin)).
    unfold i. lia. }
  assert (Hfind : find_attendance (att_id present) (attendance t1) = Some absent).
  { apply find_attendance_fresh; [exact Hfresh|reflexivity]. }
  assert (Htaken : student_day_taken (att_id present) (student_id present) (day present)
                                     (attendance t1) = false).
  { unfold student_day_taken, t1, present, absent. cbn [attendance att_id student_id day].
    rewrite existsb_app. cbn [existsb att_id]. rewrite Z.eqb_refl.
    cbn [negb andb orb]. rewrite orb_false_r.
    apply (student_day_taken_false i sid today _ Hnone). }
  pose proof (commit_dirty_attendance t1 t1 [INSERT_attendance absent; COMMIT]
                present absent Hfind Htaken) as Hc.
  destruct (Attendance_eq_dec absent present) as [Heq|_]; [discriminate Heq|].
  rewrite (bind_Ok _ _ _ _ _ (in_session_Ok _ _ _ w _ Hc)).
  assert (Hrep : replace_attendance present (attendance t ++ [absent])
                 = attendance t ++ [present]).
  { unfold replace_attendance. rewrite map_app. cbn [map att_id absent present].
    rewrite Z.eqb_refl. f_equal.
    rewrite <- (map_id (attendance t)) at 2. apply map_ext_in.
    intros a0 Hin. now rewrite (Hfresh a0 Hin). }
  cbv zeta. unfold t1 at 1 2 3 4. cbn [attendance students]. rewrite Hrep. reflexivity.
Qed.

End MarkingSteps.

Arguments mark_then {image} _ _ _ {A} _.

(** X11: a recognized label with no row in the student table (a faces
    folder without its student) still gets its attendance row: the row
    for (label, today) is committed as [Present] with the timestamp, and
    only then does the lookup of the student fail with [AttributeError].
    The error does not undo the write. *)
Theorem api_mark_attendance_unknown_label
        (image : Type) (predict : trained image -> image -> Z * Q)
        (cam : list (frame image)) (utc1 utc2 : Z) (w : World image)
        (e' : Engine image) (sid : Z) :
  recognize_once predict (70 # 1) cam (engine w) = (Ok (Some sid), e') ->
  wf_tables (db w) ->
  find_student sid (students (db w)) = None ->
  let today := date_of (datetime_now utc1) in
  let now := datetime_now utc2 in
  exists w',
    api_mark_attendance predict cam utc1 utc2 w = (Raise AttributeError, w') /\
    students (db w') = students (db w) /\
    exists a, attendance_of sid today (attendance (db w')) = [a] /\
              status a = "Present"%string /\ timestamp a = Some now.
Proof.
  intros Hrec Hwf Hstu today now.
  set (k := (h <- get (S := Session * World image) ;;
             match find_student sid (students (view (fst h))) with
             | None => raise AttributeError
             | Some stu =>
                 ret (jsonify (VDict [("ok", VBool true); ("roll_no", VStr (roll_no stu));
                                      ("name", VStr (name stu));
                                      ("time", VStr (strftime_HMS now))]) 200)
             end)).
  assert (Hrun : api_mark_attendance predict cam utc1 utc2 w =
                 with_SessionLocal (mark_then sid today now k)
                                   (mkWorld (db w) e' (flashes w) (sql_log w))).
  { unfold api_mark_attendance.
    now rewrite (bind_Ok _ _ _ _ _ (in_engine_Ok _ w e' (Some sid) Hrec)). }
  rewrite Hrun. unfold with_SessionLocal. cbn [db].
  pose proof (attendance_of_unique sid today _ (wf_student_day _ Hwf)) as Hle.
  destruct (attendance_of sid today (attendance (db w))) as [|a [|a' rest]] eqn:Hfound.
  - rewrite (mark_then_absent image sid today now _ k (db w) _ Hfound).
    unfold k, bind, get. cbn [fst view students]. rewrite Hstu. unfold raise.
    eexists. split; [reflexivity|]. cbn [db durable fst students attendance].
    split; [reflexivity|].
    eexists. rewrite attendance_of_app, Hfound. unfold attendance_of.
    cbn [filter student_id day app]. rewrite !Z.eqb_refl. cbn [andb].
    repeat split; reflexivity.
  - destruct (mark_then_found image sid today now _ k (db w)
                (mkWorld (db w) e' (flashes w) (sql_log w)) a Hwf Hfound) as [lg Hbody].
    cbv zeta in Hbody. rewrite Hbody.
    unfold k, bind, get. cbn [fst view students]. rewrite Hstu. unfold raise.
    eexists. split; [reflexivity|]. cbn [db durable fst students attendance].
    split; [reflexivity|].
    exists (mkAttendance (att_id a) (student_id a) (day a) "Present" (Some now)).
    rewrite attendance_of_mark_present, Hfound.
    destruct (key_of_found sid today _ a Hfound) as (_ & Hs & Hd).
    split; [|split; reflexivity]. cbn [map]. unfold mark_present.
    replace ((student_id a =? sid) && (day a =? today)) with true; [reflexivity|].
    now rewrite Hs, Hd, !Z.eqb_refl.
  - cbn in Hle. lia.
Qed.

Lemma api_mark_attendance_unknown_label_witness :
  exists w',
    api_mark_attendance tagged_predict [mkFrame [(9, 40 # 1)] q_key]
      864000000000 864000000500 world_two_students = (Raise AttributeError, w') /\
    students (db w') = students db_two_students /\
    exists a, attendance_of 9 10 (attendance (db w')) = [a] /\
              status a = "Present"%string /\ timestamp a = Some 883800000500.
Proof.
  apply (api_mark_attendance_unknown_label (Z * Q) tagged_predict
           [mkFrame [(9, 40 # 1)] q_key] 864000000000 864000000500 world_two_students
           (mkEngine [] (model_file engine_with_model) (model_file engine_with_model)
                     [READ_MODEL]) 9).
  - reflexivity.
  - split; cbn; repeat constructor; cbn; intuition discriminate.
  - reflexivity.
Defined.

(** ** Listings: order and completeness *)

Section Ordering.

Context {A : Type} (roll : A -> string).

Definition roll_no_le (x y : A) : Prop := String.leb (roll x) (roll y) = true.

Lemma insert_by_roll_no_perm x l : Permutation (insert_by_roll_no roll x l) (x :: l).
Proof.
  induction l as [|y l IH]; cbn [insert_by_roll_no]; [reflexivity|].
  destruct (String.leb (roll x) (roll y)); [reflexivity|].
  rewrite IH. apply perm_swap.
Qed.

Lemma order_by_roll_no_perm l : Permutation (order_by_roll_no roll l) l.
Proof.
  induction l as [|x l IH]; [reflexivity|].
  unfold order_by_roll_no. cbn [fold_right]. fold (order_by_roll_no roll l).
  rewrite insert_by_roll_no_perm. now constructor.
Qed.

Lemma insert_by_roll_no_HdRel y x l :
  roll_no_le y x -> HdRel roll_no_le y l -> HdRel roll_no_le y (insert_by_roll_no roll x l).
Proof.
  intros Hyx Hl. destruct l as [|z l]; cbn [insert_by_roll_no]; [now constructor|].
  destruct (String.leb (roll x) (roll z)); constructor; [assumption|].
  now inversion Hl.
Qed.

Lemma insert_by_roll_no_sorted x l :
  Sorted roll_no_le l -> Sorted roll_no_le (insert_by_roll_no roll x l).
Proof.
  induction l as [|y l IH]; intros Hs; cbn [insert_by_roll_no].
  - repeat constructor.
  - destruct (String.leb (roll x) (roll y)) eqn:E.
    + constructor; [assumption|now constructor].
    + inversion Hs as [|y' l' Hs' Hhd]; subst. constructor; [now apply IH|].
      apply insert_by_roll_no_HdRel; [|assumption].
      unfold roll_no_le. destruct (String.leb_total (roll x) (roll y)) as [H|H];
        [congruence|exact H].
Qed.

Lemma order_by_roll_no_sorted l : Sorted roll_no_le (order_by_roll_no roll l).
Proof.
  induction l as [|x l IH]; [constructor|].
  unfold order_by_roll_no. cbn [fold_right]. now apply insert_by_roll_no_sorted.
Qed.

End Ordering.

(** The row of the roster export for a student. *)
Definition roster_row (r : Student) : value :=
  VDict [("Roll No", VStr (roll_no r)); ("Name", VStr (name r));
         ("Email", VOptStr (email r)); ("Class", VOptStr (klass r));
         ("Section", VOptStr (section r))].

(** X12: the roster export and the student list hold every student of
    the table exactly once, by ascending roll number (byte order), with
    each field as stored. *)
Theorem roster_is_complete_and_ordered (image : Type) (w : World image) :
  exists rows,
    Permutation rows (students (db w)) /\
    Sorted (roll_no_le roll_no) rows /\
    download_students w = (Ok (send_file students_xlsx (map roster_row rows)), w) /\
    students_page w =
      (Ok (render_template "students.html" [("rows", VList (map value_of_student rows))]), w).
Proof.
  exists (order_by_roll_no roll_no (students (db w))).
  split; [apply order_by_roll_no_perm|]. split; [apply order_by_roll_no_sorted|].
  split.
  - unfold download_students. unfold bind at 1. now rewrite with_SessionLocal_query.
  - unfold students_page. unfold bind at 1. now rewrite with_SessionLocal_query.
Qed.

Section Join.

Variable d : date.

Lemma attendance_join_In t a s :
  In (a, s) (attendance_join d t) <->
  In a (attendance t) /\ day a = d /\ In s (students t) /\ st_id s = student_id a.
Proof.
  unfold attendance_join. rewrite in_flat_map. split.
  - intros [a0 [Ha0 Hin]]. destruct (day a0 =? d) eqn:E; [|contradiction].
    apply Z.eqb_eq in E. apply in_map_iff in Hin as [s0 [Heq Hs0]].
    injection Heq as -> ->. apply filter_In in Hs0 as [Hs0 Hid]. apply Z.eqb_eq in Hid.
    auto.
  - intros (Ha & Hd & Hs & Hid). exists a. split; [assumption|].
    rewrite Hd, Z.eqb_refl. apply in_map. apply filter_In. split; [assumption|].
    now apply Z.eqb_eq.
Qed.

Lemma list_sum_map_add {B} (f g : B -> nat) (l : list B) :
  list_sum (map (fun x => f x + g x)%nat l) = (list_sum (map f l) + list_sum (map g l))%nat.
Proof.
  unfold list_sum. induction l as [|x l IH]; [reflexivity|].
  cbn [map fold_right]. rewrite IH. lia.
Qed.

Lemma students_of_row a (S : list Student) :
  list_sum (map (fun s => List.length (attendance_of (st_id s) d [a])) S) =
  if day a =? d
  then List.length (filter (fun s => st_id s =? student_id a) S)
  else 0%nat.
Proof.
  unfold list_sum. induction S as [|s S IH].
  - now destruct (day a =? d).
  - cbn [map fold_right filter]. rewrite IH. unfold attendance_of. cbn [filter].
    rewrite (Z.eqb_sym (st_id s) (student_id a)).
    destruct (student_id a =? st_id s), (day a =? d); reflexivity.
Qed.

(** The join has one line per (row of the day, student of the row); it
    can be counted student by student. *)
Lemma attendance_join_length t :
  List.length (attendance_join d t) =
  list_sum (map (fun s => List.length (attendance_of (st_id s) d (attendance t)))
                (students t)).
Proof.
  destruct t as [S A]. unfold attendance_join. cbn [students attendance].
  induction A as [|a A IH].
  - cbn. induction S as [|s S IHS]; [reflexivity|exact IHS].
  - cbn [flat_map]. rewrite length_app, IH.
    rewrite (map_ext (fun s => List.length (attendance_of (st_id s) d (a :: A)))
                     (fun s => (List.length (attendance_of (st_id s) d [a])
                                + List.length (attendance_of (st_id s) d A))%nat)).
    + rewrite list_sum_map_add, students_of_row.
      destruct (day a =? d); [now rewrite length_map|reflexivity].
    + intros s. change (a :: A) with ([a] ++ A).
      now rewrite attendance_of_app, length_app.
Qed.

(** When every student has exactly one row for the day, the join pairs
    every student with a row, once. *)
Lemma attendance_join_students t :
  NoDup (map st_id (students t)) ->
  (forall s, In s (students t) ->
             List.length (attendance_of (st_id s) d (attendance t)) = 1%nat) ->
  Permutation (students t) (map snd (attendance_join d t)).
Proof.
  intros Hpk Hone. apply NoDup_Permutation_bis.
  - now apply NoDup_map_inv in Hpk.
  - rewrite length_map, attendance_join_length.
    rewrite (map_ext_in _ (fun _ => 1%nat)) by exact Hone.
    clear. unfold list_sum.
    induction (students t) as [|s S IH]; [reflexivity|].
    cbn [map fold_right List.length]. lia.
  - intros s Hs. specialize (Hone s Hs).
    destruct (attendance_of (st_id s) d (attendance t)) as [|a l] eqn:E; [discriminate|].
    assert (Ha : In a (attendance_of (st_id s) d (attendance t))) by (rewrite E; now left).
    apply attendance_of_In in Ha as [Ha Hk]. unfold student_day in Hk.
    injection Hk as Hsid Hd.
    apply in_map_iff. exists (a, s). split; [reflexivity|].
    apply attendance_join_In. auto.
Qed.

End Join.

(** X13: on a database that meets the schema's constraints, the
    attendance page shows every student exactly once, by ascending roll
    number, each with an attendance row of today that belongs to that
    student: a student registered a moment ago is listed (as seeded by
    the page itself). *)
Theorem attendance_page_lists_every_student
        (image : Type) (utc : Z) (w : World image) :
  wf_tables (db w) ->
  let today := date_of (datetime_now utc) in
  exists rows,
    fst (attendance_page utc w) =
      Ok (render_template "attendance.html"
            [("today", VDate today);
             ("table", VList (map (listing_row "roll_no" "name" "status" "timestamp") rows))]) /\
    Permutation (students (db w)) (map snd rows) /\
    Sorted (roll_no_le (fun r : Attendance * Student => roll_no (snd r))) rows /\
    (forall r, In r rows ->
               In (fst r) (attendance (db (snd (attendance_page utc w)))) /\
               day (fst r) = today /\ student_id (fst r) = st_id (snd r)).
Proof.
  intros Hwf today.
  pose proof (ensure_day_rows_run today (db w) (wf_student_day _ Hwf)) as Hrun.
  cbv zeta in Hrun.
  set (new := missing_rows today (students (db w)) (attendance (db w))) in *.
  set (t' := mkTables (students (db w)) (attendance (db w) ++ new)) in *.
  set (rows := order_by_roll_no (fun r : Attendance * Student => roll_no (snd r))
                                (attendance_join today t')).
  assert (Hpage : attendance_page utc w =
                  (Ok (render_template "attendance.html"
                         [("today", VDate today);
                          ("table", VList (map (listing_row "roll_no" "name" "status"
                                                            "timestamp") rows))]),
                   mkWorld t' (engine w) (flashes w)
                           (sql_log w ++ map INSERT_attendance new ++ [COMMIT]))).
  { unfold attendance_page. fold today. unfold bind at 1. unfold with_SessionLocal.
    rewrite (bind_Ok _ _ _ _ _ (in_session_Ok _ _ _ w _ Hrun)).
    unfold in_session, query_attendance_of_day, bind, flush. cbn. reflexivity. }
  exists rows. rewrite Hpage. cbn [fst snd db]. split; [reflexivity|].
  assert (Hperm : Permutation rows (attendance_join today t')) by apply order_by_roll_no_perm.
  split; [|split].
  - rewrite (Permutation_map snd Hperm).
    apply (attendance_join_students today t').
    + exact (wf_student_pk _ Hwf).
    + intros s Hs. cbn [students attendance t'] in *.
      now apply missing_rows_exactly_one; [exact (wf_student_day _ Hwf)|].
  - apply order_by_roll_no_sorted.
  - intros [a s] Hr. apply (Permutation_in _ Hperm) in Hr.
    apply attendance_join_In in Hr as (Ha & Hd & Hs & Hid). cbn [fst snd]. auto.
Qed.

Lemma attendance_page_lists_every_student_witness :
  exists rows,
    fst (attendance_page 864000000000 world_two_students) =
      Ok (render_template "attendance.html"
            [("today", VDate 10);
             ("table", VList (map (listing_row "roll_no" "name" "status" "timestamp") rows))]) /\
    Permutation (students db_two_students) (map snd rows).
Proof.
  destruct (attendance_page_lists_every_student (Z * Q) 864000000000 world_two_students)
    as (rows & Hpage & Hperm & _).
  - split; cbn; repeat constructor; cbn; intuition discriminate.
  - exists rows. split; [exact Hpage|exact Hperm].
Defined.

(** X14: for a day on which every student has exactly one attendance
    row (the state the dashboard and the attendance page leave behind),
    the JSON endpoint and the spreadsheet export list every student
    exactly once; [total] is the number of students, [present] the number
    of rows whose status is [Present], and [absent] the rest. *)
Theorem seeded_day_is_reported_in_full
        (image : Type) (utc : Z) (w : World image) :
  let today := date_of (datetime_now utc) in
  NoDup (map st_id (students (db w))) ->
  (forall s, In s (students (db w)) ->
             List.length (attendance_of (st_id s) today (attendance (db w))) = 1%nat) ->
  exists rows,
    Permutation (students (db w)) (map snd rows) /\
    download_attendance_today utc w =
      (Ok (send_file (attendance_xlsx today)
             (map (listing_row "Roll No" "Name" "Status" "Timestamp") rows)), w) /\
    let total := Z.of_nat (List.length (students (db w))) in
    let present :=
      Z.of_nat (List.length (filter (fun r : Attendance * Student =>
                                       String.eqb (status (fst r)) "Present") rows)) in
    api_attendance_today utc w =
      (Ok (jsonify (VDict [("total", VInt total); ("present", VInt present);
                           ("absent", VInt (total - present));
                           ("rows", VList (map (listing_row "Roll No" "Name" "Status"
                                                            "Timestamp") rows))]) 200), w) /\
    0 <= present <= total.
Proof.
  intros today Hpk Hone.
  set (rows := order_by_roll_no (fun r : Attendance * Student => roll_no (snd r))
                                (attendance_join today (db w))).
  assert (Hperm : Permutation rows (attendance_join today (db w)))
    by apply order_by_roll_no_perm.
  assert (Hstud : Permutation (students (db w)) (map snd rows)).
  { rewrite (Permutation_map snd Hperm). now apply attendance_join_students. }
  assert (Hlen : List.length rows = List.length (students (db w))).
  { rewrite (Permutation_length Hstud). now rewrite length_map. }
  exists rows. split; [exact Hstud|]. split.
  - unfold download_attendance_today, _download_attendance_for_date, query_attendance_of_day.
    unfold bind at 1. now rewrite with_SessionLocal_query.
  - cbv zeta. split.
    + unfold api_attendance_today, query_attendance_of_day.
      unfold bind at 1. rewrite with_SessionLocal_query. unfold ret.
      fold today. change (view (SessionLocal (db w))) with (db w). fold rows.
      rewrite filter_map_swap, !length_map, Hlen. reflexivity.
    + rewrite <- Hlen. pose proof (filter_length_le
        (fun r : Attendance * Student => String.eqb (status (fst r)) "Present") rows).
      lia.
Qed.

Lemma seeded_day_is_reported_in_full_witness :
  exists rows,
    Permutation (students (db (snd (dashboard 864000000000 world_two_students))))
                (map snd rows) /\
    download_attendance_today 864000000000 (snd (dashboard 864000000000 world_two_students)) =
      (Ok (send_file (attendance_xlsx 10)
             (map (listing_row "Roll No" "Name" "Status" "Timestamp") rows)),
       snd (dashboard 864000000000 world_two_students)).
Proof.
  destruct (seeded_day_is_reported_in_full (Z * Q) 864000000000
              (snd (dashboard 864000000000 world_two_students)))
    as (rows & Hperm & Hxlsx & _).
  - cbn. repeat constructor; cbn; intuition discriminate.
  - intros s Hs. cbn in Hs. destruct Hs as [<-|[<-|[]]]; reflexivity.
  - exists rows. split; [exact Hperm|exact Hxlsx].
Defined.

(** ** app.py and models.py: accounts and login

    The [users] table and the session cookie of flask-login stand apart
    from the rest: no route above reads them.  The two functions of
    werkzeug are parameters: [generate_password_hash] stands for the hash
    the call at start-up produces, [check_password_hash] for the
    library's check (it may raise on a missing password). *)

Module Auth.

(** Table [users]. *)
Record User : Type := mkUser {
  user_id : Z;
  username : string;
  password_hash : string
}.

(** Class [AuthUser]: [id] is a string, as flask-login stores it. *)
Record AuthUser : Type := mkAuthUser {
  id : string;
  auth_username : string
}.

(** [AuthUser(db_user)] *)
Definition AuthUser_of (db_user : User) : AuthUser :=
  mkAuthUser (str (user_id db_user)) (username db_user).

(** The browser's side: the user id kept in the session cookie, and the
    flashed messages. *)
Record Client : Type := mkClient {
  session_user_id : option string;
  client_flashes : list (string * string)
}.

Section Accounts.

Variable generate_password_hash : string -> string.
Variable check_password_hash : string -> option string -> result bool.

(** [s.query(User).filter_by(username=n)]; a missing form field gives
    [None], which matches no row ([username] is not nullable). *)
Definition users_named (n : option string) (users : list User) : list User :=
  match n with
  | Some n => filter (fun u => String.eqb (username u) n) users
  | None => []
  end.

(** [s.get(User, i)] *)
Definition get_user (i : Z) (users : list User) : option User :=
  find (fun u => user_id u =? i) users.

(** [load_user(user_id)] *)
Definition load_user (users : list User) (user_id : string) : result (option AuthUser) :=
  match int user_id with
  | None => Raise ValueError
  | Some i => Ok (option_map AuthUser_of (get_user i users))
  end.

(** The bootstrap block run when the application is loaded; it returns
    the table it leaves. *)
Definition bootstrap (users : list User) : result (list User) :=
  match users_named (Some "admin") users with
  | [] =>
      Ok (users ++ [mkUser (next_rowid (map user_id users)) "admin"
                           (generate_password_hash "admin123")])
  | [_] => Ok users
  | _ => Raise MultipleResultsFound
  end.

Definition flash_client (message category : string) : M Client unit :=
  fun c => (Ok tt, mkClient (session_user_id c)
                            (client_flashes c ++ [(message, category)])).

(** [login_user(AuthUser(u))] *)
Definition login_user (u : AuthUser) : M Client unit :=
  fun c => (Ok tt, mkClient (Some (id u)) (client_flashes c)).

(** Route [/login]. *)
Definition login (users : list User) (req : request) : M Client response :=
  (if String.eqb (method req) "POST" then
     let username := dict_get "username" (form req) in
     let password := dict_get "password" (form req) in
     accepted <-
       (match users_named username users with
        | [] => ret None
        | [u] =>
            match check_password_hash (password_hash u) password with
            | Ok true => ret (Some u)
            | Ok false => ret None
            | Raise x => raise x
            end
        | _ => raise MultipleResultsFound
        end) ;;
     match accepted with
     | Some u => login_user (AuthUser_of u) ;;; ret (redirect "dashboard")
     | None =>
         flash_client "Invalid credentials" "danger" ;;;
         ret (render_template "login.html" [])
     end
   else ret (render_template "login.html" []))%py.

(** Route [/logout]. *)
Definition logout : M Client response :=
  fun c => (Ok (redirect "login"), mkClient None (client_flashes c)).

End Accounts.

End Auth.

Import Auth.

Lemma users_named_unique (users : list User) (u : User) :
  NoDup (map username users) -> In u users ->
  users_named (Some (username u)) users = [u].
Proof. intros Hnd Hin. unfold users_named. now apply filter_unique_key. Qed.

Lemma users_named_is_named (users : list User) (n : string) (u : User) (rest : list User) :
  users_named (Some n) users = u :: rest -> In u users /\ username u = n.
Proof.
  intros H. assert (Hin : In u (users_named (Some n) users)) by (rewrite H; now left).
  unfold users_named in Hin. apply filter_In in Hin as [Hin Hn].
  now apply String.eqb_eq in Hn.
Qed.

(** X15: the start-up block leaves exactly one account named [admin]:
    on a table with distinct user names it never raises, adds the account
    (with the hash of [admin123]) only when it is missing, keeps every
    existing row and the distinctness of names, and a second run changes
    nothing. *)
Theorem bootstrap_idempotent
        (generate_password_hash : string -> string) (users : list User) :
  NoDup (map username users) ->
  exists added,
    bootstrap generate_password_hash users = Ok (users ++ added) /\
    bootstrap generate_password_hash (users ++ added) = Ok (users ++ added) /\
    NoDup (map username (users ++ added)) /\
    List.length (users_named (Some "admin") (users ++ added)) = 1%nat /\
    (added = [] \/
     added = [mkUser (next_rowid (map user_id users)) "admin"
                     (generate_password_hash "admin123")]).
Proof.
  intros Hnd. unfold bootstrap.
  destruct (users_named (Some "admin") users) as [|u rest] eqn:E.
  - set (admin := mkUser (next_rowid (map user_id users)) "admin"
                         (generate_password_hash "admin123")).
    assert (Hnamed : users_named (Some "admin") (users ++ [admin]) = [admin]).
    { unfold users_named in *. rewrite filter_app, E. reflexivity. }
    exists [admin]. rewrite Hnamed. repeat split; auto.
    rewrite map_app. cbn [map username admin]. apply NoDup_snoc; [assumption|].
    intros Hin. apply in_map_iff in Hin as [u [Hu Hin]].
    assert (Hf : In u (users_named (Some "admin") users)).
    { unfold users_named. apply filter_In. split; [assumption|]. now apply String.eqb_eq. }
    rewrite E in Hf. contradiction.
  - destruct (users_named_is_named _ _ _ _ E) as [Hin Hname].
    pose proof (users_named_unique users u Hnd Hin) as Hone.
    rewrite Hname, E in Hone. injection Hone as ->.
    exists []. rewrite !app_nil_r, E. repeat split; auto.
Qed.

Lemma bootstrap_idempotent_witness :
  exists added,
    bootstrap (fun p => ("pbkdf2$" ++ p)%string) [mkUser 1 "clerk" "x"] =
      Ok ([mkUser 1 "clerk" "x"] ++ added) /\
    bootstrap (fun p => ("pbkdf2$" ++ p)%string) ([mkUser 1 "clerk" "x"] ++ added) =
      Ok ([mkUser 1 "clerk" "x"] ++ added) /\
    NoDup (map username ([mkUser 1 "clerk" "x"] ++ added)) /\
    List.length (users_named (Some "admin") ([mkUser 1 "clerk" "x"] ++ added)) = 1%nat /\
    (added = [] \/
     added = [mkUser (next_rowid (map user_id [mkUser 1 "clerk" "x"])) "admin"
                     ("pbkdf2$" ++ "admin123")%string]).
Proof.
  apply (bootstrap_idempotent (fun p => ("pbkdf2$" ++ p)%string) [mkUser 1 "clerk" "x"]).
  cbn. repeat constructor. intros [].
Defined.

(** X16: a login attempt that names no account, or whose password the
    hash check refuses, logs nobody in: the session cookie is as before,
    [Invalid credentials] is flashed and the form is shown again.  For an
    unknown name the password is not even looked at. *)
Theorem login_refused
        (check_password_hash : string -> option string -> result bool)
        (users : list User) (req : request) (c : Client) :
  method req = "POST"%string ->
  NoDup (map username users) ->
  (forall u, In u users -> Some (username u) = dict_get "username" (form req) ->
             check_password_hash (password_hash u) (dict_get "password" (form req))
             = Ok false) ->
  login check_password_hash users req c =
  (Ok (render_template "login.html" []),
   mkClient (session_user_id c)
            (client_flashes c ++ [("Invalid credentials", "danger")%string])).
Proof.
  intros Hm Hnd Hcheck. unfold login. rewrite Hm. cbn [String.eqb Ascii.eqb Bool.eqb].
  destruct (dict_get "username" (form req)) as [n|] eqn:En; [|reflexivity].
  destruct (users_named (Some n) users) as [|u rest] eqn:E; [reflexivity|].
  destruct (users_named_is_named _ _ _ _ E) as [Hin Hname].
  pose proof (users_named_unique users u Hnd Hin) as Hone.
  rewrite Hname, E in Hone. injection Hone as ->.
  unfold bind at 1. rewrite (Hcheck u Hin) by now rewrite Hname. reflexivity.
Qed.

Definition toy_check (h : string) (p : option string) : result bool :=
  match p with
  | Some p => Ok (String.eqb h ("pbkdf2$" ++ p)%string)
  | None => Raise AttributeError
  end.

Lemma login_refused_witness :
  login toy_check [mkUser 1 "admin" "pbkdf2$admin123"]
    (mkRequest "POST" [("username", "admin"); ("password", "letmein")]%string [])
    (mkClient None []) =
  (Ok (render_template "login.html" []),
   mkClient None [("Invalid credentials", "danger")%string]).
Proof.
  apply (login_refused toy_check [mkUser 1 "admin" "pbkdf2$admin123"]
           (mkRequest "POST" [("username", "admin"); ("password", "letmein")]%string [])
           (mkClient None [])).
  - reflexivity.
  - cbn. repeat constructor. intros [].
  - intros u [<-|[]] _. reflexivity.
Defined.

Lemma get_user_In (users : list User) (u : User) :
  NoDup (map user_id users) -> In u users -> get_user (user_id u) users = Some u.
Proof.
  intros Hnd Hin. unfold get_user.
  destruct (find (fun u0 => user_id u0 =? user_id u) users) as [v|] eqn:E.
  - apply find_some in E as [Hv Hid]. apply Z.eqb_eq in Hid.
    f_equal. now apply (NoDup_map_inj user_id users).
  - exfalso. apply (find_none _ _ E u) in Hin. rewrite Z.eqb_refl in Hin. discriminate.
Qed.

(** X17: a login with the name of an account and a password its hash
    accepts stores the account's identity, as a string, in the session
    cookie and redirects to the dashboard; [load_user] turns the stored
    string back into that very account on every later request. *)
Theorem login_then_load_user
        (check_password_hash : string -> option string -> result bool)
        (users : list User) (req : request) (c : Client) (u : User) :
  method req = "POST"%string ->
  NoDup (map username users) ->
  NoDup (map user_id users) ->
  In u users ->
  dict_get "username" (form req) = Some (username u) ->
  check_password_hash (password_hash u) (dict_get "password" (form req)) = Ok true ->
  login check_password_hash users req c =
    (Ok (redirect "dashboard"), mkClient (Some (str (user_id u))) (client_flashes c)) /\
  load_user users (str (user_id u)) =
    Ok (Some (mkAuthUser (str (user_id u)) (username u))).
Proof.
  intros Hm Hname Hpk Hin Hn Hcheck. split.
  - unfold login. rewrite Hm. cbn [String.eqb Ascii.eqb Bool.eqb].
    rewrite Hn, (users_named_unique users u Hname Hin).
    unfold bind at 1. rewrite Hcheck. reflexivity.
  - unfold load_user. rewrite int_str, (get_user_In users u Hpk Hin). reflexivity.
Qed.

Lemma login_then_load_user_witness :
  login toy_check [mkUser 1 "clerk" "x"; mkUser 2 "admin" "pbkdf2$admin123"]
    (mkRequest "POST" [("username", "admin"); ("password", "admin123")]%string [])
    (mkClient None []) =
    (Ok (redirect "dashboard"), mkClient (Some "2"%string) []) /\
  load_user [mkUser 1 "clerk" "x"; mkUser 2 "admin" "pbkdf2$admin123"] "2" =
    Ok (Some (mkAuthUser "2" "admin")).
Proof.
  apply (login_then_load_user toy_check
           [mkUser 1 "clerk" "x"; mkUser 2 "admin" "pbkdf2$admin123"]
           (mkRequest "POST" [("username", "admin"); ("password", "admin123")]%string [])
           (mkClient None []) (mkUser 2 "admin" "pbkdf2$admin123")).
  - reflexivity.
  - cbn. repeat constructor; cbn; intuition discriminate.
  - cbn. repeat constructor; cbn; intuition discriminate.
  - cbn. auto.
  - reflexivity.
  - reflexivity.
Defined.

(** ** Registering a new student *)

Lemma roll_no_taken_absent i r (l : list Student) :
  (forall s, In s l -> roll_no s <> r) -> roll_no_taken i r l = false.
Proof.
  intros H. unfold roll_no_taken. destruct (existsb _ l) eqn:E; [|reflexivity].
  apply existsb_exists in E as [s [Hin Hs]]. apply andb_true_iff in Hs as [_ Hr].
  apply String.eqb_eq in Hr. now apply H in Hin.
Qed.

Lemma commit_new_student v dur lg r n e k c :
  roll_no_taken (next_rowid (map st_id (students v))) r (students v) = false ->
  let row := mkStudent (next_rowid (map st_id (students v))) r n e k c None in
  let v' := mkTables (students v ++ [row]) (attendance v) in
  commit (mkSession v [NewStudent r n e k c] dur lg) =
  (Ok tt, mkSession v' [] v' ((lg ++ [INSERT_student row]) ++ [COMMIT])).
Proof.
  intros H row v'. unfold commit, flush, bind. cbn [pending flush_ops].
  unfold bind, flush_op, ret. cbn [view]. rewrite H. reflexivity.
Qed.

Lemma commit_dirty_student v dur lg row old :
  find_student (st_id row) (students v) = Some old ->
  old <> row ->
  roll_no_taken (st_id row) (roll_no row) (students v) = false ->
  let v' := mkTables (replace_student row (students v)) (attendance v) in
  commit (mkSession v [DirtyStudent row] dur lg) =
  (Ok tt, mkSession v' [] v' ((lg ++ [UPDATE_student row]) ++ [COMMIT])).
Proof.
  intros Hfind Hne Htaken v'. unfold commit, flush, bind. cbn [pending flush_ops].
  unfold bind, flush_op, ret. cbn [view]. rewrite Hfind.
  destruct (Student_eq_dec old row); [contradiction|]. rewrite Htaken. reflexivity.
Qed.

Lemma find_student_fresh (l : list Student) (x : Student) :
  (forall s, In s l -> (st_id s =? st_id x) = false) ->
  find_student (st_id x) (l ++ [x]) = Some x.
Proof.
  intros Hfresh. unfold find_student. induction l as [|s l IH].
  - cbn [app find]. now rewrite Z.eqb_refl.
  - cbn [app find]. rewrite (Hfresh s (or_introl eq_refl)).
    apply IH. intros s1 H1. apply Hfresh. now right.
Qed.


Lemma train_or_update_model_faces {image} (e : Engine image) :
  faces_dir (snd (train_or_update_model e)) = faces_dir e.
Proof.
  unfold train_or_update_model.
  destruct (_load_dataset e) as [[[|img imgs] labels]|x]; reflexivity.
Qed.

(** X18: a POST to [/register] with a roll number nobody has (once
    stripped), on a dataset whose sample folders are named by integers
    and where no regular file has the name of the new student's folder,
    adds exactly one student, with the stripped form fields and the next
    free identity, and leaves the attendance table alone.  Samples are
    captured for that identity and the model is retrained: the engine is
    left as [capture_samples] then [train_or_update_model] leave it.  The
    student's image path is the last crop captured, if any; the database
    receives INSERT and COMMIT, then UPDATE and COMMIT when there is an
    image path to store; the flashed notice tells whether there was
    anything to train on, and the route redirects to the student list. *)
Theorem register_new_student
        (image : Type) (FACES_DIR : string) (req : request) (cam : list (frame image))
        (w : World image) (r n : string) :
  method req = "POST"%string ->
  dict_get "roll_no" (form req) = Some r ->
  dict_get "name" (form req) = Some n ->
  (forall s, In s (students (db w)) -> roll_no s <> strip r) ->
  let i := next_rowid (map st_id (students (db w))) in
  let row := fun path =>
    mkStudent i (strip r) (strip n)
              (Some (strip (dict_get_default "email" (form req))))
              (Some (strip (dict_get_default "klass" (form req))))
              (Some (strip (dict_get_default "section" (form req))))
              path in
  folder_available i (engine w) ->
  int_named (faces_dir (engine w)) ->
  exists (w' : World image) (preview : string) (trained : bool) (e1 e2 : Engine image),
    register FACES_DIR req cam w = (Ok (redirect "students"), w') /\
    capture_samples FACES_DIR i 20 cam (engine w) = (Ok preview, e1) /\
    train_or_update_model e1 = (Ok trained, e2) /\
    engine w' = e2 /\
    students (db w') =
      students (db w) ++ [row (if String.eqb preview "" then None else Some preview)] /\
    attendance (db w') = attendance (db w) /\
    sql_log w' =
      sql_log w ++ [INSERT_student (row None); COMMIT] ++
      (if String.eqb preview "" then [] else [UPDATE_student (row (Some preview)); COMMIT]) /\
    flashes w' = flashes w ++
      [((if trained then "Student registered and model updated"
         else "Student registered (insufficient data to train yet)")%string,
        "success"%string)] /\
    (trained = true <-> (0 < sample_count (faces_dir e1))%nat) /\
    (forall files,
       In (Directory (str i) files) (faces_dir (engine w')) ->
       incl (crop_files i 0 (crops_taken 20 cam 0)) files).
Proof.
  intros Hm Hr Hn Hfree i row_of Hav Hok. subst row_of. cbv beta.
  set (email := strip (dict_get_default "email" (form req))).
  set (klass := strip (dict_get_default "klass" (form req))).
  set (section := strip (dict_get_default "section" (form req))).
  set (row := mkStudent i (strip r) (strip n) (Some email) (Some klass) (Some section) None).
  set (t1 := mkTables (students (db w) ++ [row]) (attendance (db w))).
  destruct (capture_samples_run image FACES_DIR i 20 cam (engine w) Hav)
    as (e1 & new & Hcap & _ & _).
  set (preview := last (imwrites new) ""%string) in *.
  assert (Hok1 : dataset_ok e1).
  { pose proof (capture_samples_preserves image FACES_DIR dataset_ok i 20 cam
                  (makedirs_dataset_ok image FACES_DIR _)
                  (imwrite_dataset_ok image FACES_DIR i) (engine w) Hok) as H.
    now rewrite Hcap in H. }
  destruct (train_or_update_model_total image e1 Hok1) as (b & e2 & Htrain & Hb).
  assert (Hfiles : forall files,
             In (Directory (str i) files) (faces_dir e2) ->
             incl (crop_files i 0 (crops_taken 20 cam 0)) files).
  { destruct (capture_samples_files image FACES_DIR i 20 cam (engine w) Hav) as [_ H].
    rewrite Hcap in H. cbn [snd] in H.
    pose proof (train_or_update_model_faces e1) as Hfaces. rewrite Htrain in Hfaces.
    cbn [snd] in Hfaces. now rewrite Hfaces. }
  assert (Htaken : roll_no_taken i (strip r) (students (db w)) = false)
    by now apply roll_no_taken_absent.
  assert (Hfresh : forall s, In s (students (db w)) -> (st_id s =? i) = false).
  { intros s Hs. apply Z.eqb_neq.
    pose proof (next_rowid_gt (map st_id (students (db w))) (st_id s) (in_map _ _ _ Hs)).
    unfold i. lia. }
  unfold register. rewrite Hm. cbn [String.eqb Ascii.eqb Bool.eqb].
  unfold form_strip, form_get_strip. rewrite Hr, Hn.
  unfold bind at 1. unfold ret at 1. unfold bind at 1. unfold ret at 1.
  fold email klass section.
  unfold with_SessionLocal.
  assert (Hq : (flush ;;; (fun s : Session =>
                  (Ok (filter (fun st0 => String.eqb (roll_no st0) (strip r))
                              (students (view s))), s)))
                 (SessionLocal (db w)) = (Ok [], SessionLocal (db w))).
  { change ((Ok (filter (fun st0 => String.eqb (roll_no st0) (strip r)) (students (db w))),
             SessionLocal (db w)) = (Ok [], SessionLocal (db w))).
    f_equal. f_equal. destruct (filter _ (students (db w))) as [|s l] eqn:E; [reflexivity|].
    assert (Hs : In s (filter (fun st0 => String.eqb (roll_no st0) (strip r))
                              (students (db w)))) by (rewrite E; now left).
    apply filter_In in Hs as [Hs Hroll]. apply String.eqb_eq in Hroll.
    now apply Hfree in Hs. }
  rewrite (bind_Ok _ _ _ _ _ (in_session_Ok _ _ _ w _ Hq)).
  rewrite (bind_Ok _ _ _ _ _
             (in_session_Ok (one_or_none []) _ (SessionLocal (db w)) w None eq_refl)).
  rewrite (bind_Ok _ _ _ _ _
             (in_session_Ok (add (NewStudent (strip r) (strip n) (Some email) (Some klass)
                                             (Some section)))
                (SessionLocal (db w))
                (mkSession (db w) [NewStudent (strip r) (strip n) (Some email) (Some klass)
                                              (Some section)] (db w) [])
                w tt eq_refl)).
  rewrite (bind_Ok _ _ _ _ _
             (in_session_Ok _ _ _ w _
                (commit_new_student (db w) (db w) [] (strip r) (strip n) (Some email)
                                    (Some klass) (Some section) Htaken))).
  fold i row. unfold bind at 1. unfold get at 1. cbn [fst view students].
  rewrite last_last. fold t1.
  cbn [st_id roll_no name Models.email Models.klass Models.section row].
  rewrite (bind_Ok _ _ _ _ _ (in_world_in_engine_Ok _ _ w e1 preview Hcap)).
  set (lg1 := ([] ++ [INSERT_student row]) ++ [COMMIT]).
  set (w1 := mkWorld (db w) e1 (flashes w) (sql_log w)).
  destruct (String.eqb preview "") eqn:Ep.
  - unfold bind at 1. unfold ret at 1.
    rewrite (bind_Ok _ _ _ _ _ (in_world_in_engine_Ok _ _ w1 e2 b Htrain)).
    unfold bind, in_world, flash, ret. cbn [fst snd].
    eexists _, preview, b, e1, e2. split; [reflexivity|].
    cbn [db engine flashes sql_log durable log fst snd students attendance t1].
    rewrite Ep.
    split; [exact Hcap|]. split; [exact Htrain|]. split; [reflexivity|].
    split; [reflexivity|]. split; [reflexivity|].
    split; [now rewrite app_nil_r|]. split; [reflexivity|]. split; [exact Hb|exact Hfiles].
  - set (row' := mkStudent i (strip r) (strip n) (Some email) (Some klass) (Some section)
                           (Some preview)).
    unfold bind at 1.
    rewrite (bind_Ok (in_session (add (DirtyStudent row'))) (fun _ => in_session commit) _ _ _
               (in_session_Ok (add (DirtyStudent row'))
                  (mkSession t1 [] t1 lg1) (mkSession t1 [DirtyStudent row'] t1 lg1)
                  w1 tt eq_refl)).
    assert (Hfind : find_student (st_id row') (students t1) = Some row).
    { apply (find_student_fresh (students (db w)) row). exact Hfresh. }
    assert (Htaken' : roll_no_taken (st_id row') (roll_no row') (students t1) = false).
    { unfold roll_no_taken, t1. cbn [students st_id roll_no row'].
      rewrite existsb_app. cbn [existsb st_id row]. rewrite Z.eqb_refl.
      cbn [negb andb orb]. rewrite orb_false_r.
      now apply roll_no_taken_absent. }
    assert (Hne : row <> row') by discriminate.
    pose proof (commit_dirty_student t1 t1 lg1 row' row Hfind Hne Htaken') as Hc.
    cbv zeta in Hc.
    rewrite (in_session_Ok _ _ _ w1 _ Hc).
    rewrite (bind_Ok _ _ _ _ _ (in_world_in_engine_Ok _ _ w1 e2 b Htrain)).
    unfold bind, in_world, flash, ret. cbn [fst snd].
    assert (Hrep : replace_student row' (students t1) = students (db w) ++ [row']).
    { unfold replace_student, t1. cbn [students]. rewrite map_app.
      cbn [map st_id row row']. rewrite Z.eqb_refl. f_equal.
      rewrite <- (map_id (students (db w))) at 2. apply map_ext_in.
      intros s Hs. now rewrite (Hfresh s Hs). }
    eexists _, preview, b, e1, e2. split; [reflexivity|].
    cbn [db engine flashes sql_log durable log fst snd students attendance t1].
    unfold t1 in Hrep. cbn [students] in Hrep. rewrite Hrep, Ep.
    split; [exact Hcap|]. split; [exact Htrain|]. split; [reflexivity|].
    split; [reflexivity|]. split; [reflexivity|].
    split; [unfold lg1; now rewrite <- !app_assoc|]. split; [reflexivity|].
    split; [exact Hb|exact Hfiles].
Qed.

Lemma register_new_student_witness :
  exists (w' : World (Z * Q)) (preview : string) (trained : bool) (e1 e2 : Engine (Z * Q)),
    register "/srv/data/faces"
      (mkRequest "POST" [("roll_no", " 23 "); ("name", "Mira"); ("klass", "B ")]%string [])
      [mkFrame [(3, 40 # 1)] q_key] world_two_students = (Ok (redirect "students"), w') /\
    capture_samples "/srv/data/faces" 3 20 [mkFrame [(3, 40 # 1)] q_key]
      (engine world_two_students) = (Ok preview, e1) /\
    train_or_update_model e1 = (Ok trained, e2) /\
    engine w' = e2 /\
    students (db w') =
      students db_two_students ++
      [mkStudent 3 "23" "Mira" (Some "") (Some "B") (Some "")
                 (if String.eqb preview "" then None else Some preview)]%string.
Proof.
  destruct (register_new_student (Z * Q) "/srv/data/faces"
              (mkRequest "POST" [("roll_no", " 23 "); ("name", "Mira"); ("klass", "B ")]%string [])
              [mkFrame [(3, 40 # 1)] q_key] world_two_students " 23 " "Mira")
    as (w' & preview & trained & e1 & e2 & Hrun & Hcap & Htrain & He & Hst & _).
  - reflexivity.
  - reflexivity.
  - reflexivity.
  - intros s [<-|[<-|[]]]; discriminate.
  - intros n. cbn. discriminate.
  - intros img n [].
  - exists w', preview, trained, e1, e2.
    split; [exact Hrun|]. split; [exact Hcap|]. split; [exact Htrain|].
    split; [exact He|exact Hst].
Defined.

(** ** The dashboard's counts *)

Lemma no_present_among_absent (d : date) (l : list Attendance) :
  (forall a, In a l -> status a = "Absent"%string) ->
  filter (fun a => (day a =? d) && String.eqb (status a) "Present") l = [].
Proof.
  intros H. induction l as [|a l IH]; [reflexivity|].
  cbn [filter]. rewrite (H a (or_introl eq_refl)). cbn [String.eqb Ascii.eqb Bool.eqb].
  rewrite andb_false_r. apply IH. intros a0 Ha0. apply H. now right.
Qed.

(** X19: the dashboard reports the number of students and the number of
    rows of today that are [Present]; seeding the day, which it does
    first, adds [Absent] rows only and so does not change that count. *)
Theorem dashboard_counts (image : Type) (utc : Z) (w : World image) :
  wf_tables (db w) ->
  let today := date_of (datetime_now utc) in
  fst (dashboard utc w) =
  Ok (render_template "dashboard.html"
        [("total", VInt (Z.of_nat (List.length (students (db w)))));
         ("present",
          VInt (Z.of_nat (List.length
                  (filter (fun a => (day a =? today) && String.eqb (status a) "Present")
                          (attendance (db w))))));
         ("day", VDate today)]).
Proof.
  intros Hwf today.
  pose proof (ensure_day_rows_run today (db w) (wf_student_day _ Hwf)) as Hrun.
  cbv zeta in Hrun.
  unfold dashboard. fold today. unfold bind at 1. unfold with_SessionLocal.
  rewrite (bind_Ok _ _ _ _ _ (in_session_Ok _ _ _ w _ Hrun)).
  match goal with
  | |- context [in_session ?m (?s1, w)] =>
      rewrite (in_session_Ok m s1 s1 w
                 (Z.of_nat (List.length (students (view s1))),
                  Z.of_nat (List.length
                    (filter (fun a => (day a =? today) && String.eqb (status a) "Present")
                            (attendance (view s1))))) eq_refl)
  end.
  unfold ret. cbn [fst snd view students attendance]. rewrite filter_app.
  rewrite (no_present_among_absent today (missing_rows today _ _)).
  - now rewrite app_nil_r.
  - intros a Ha. now apply missing_rows_absent in Ha.
Qed.

Lemma dashboard_counts_witness :
  fst (dashboard 864000000000 world_two_students) =
  Ok (render_template "dashboard.html"
        [("total", VInt 2); ("present", VInt 1); ("day", VDate 10)]).
Proof.
  apply (dashboard_counts (Z * Q) 864000000000 world_two_students).
  split; cbn; repeat constructor; cbn; intuition discriminate.
Defined.

(** ** Editing a student *)

Lemma roll_no_taken_others i r (l : list Student) :
  (forall s, In s l -> st_id s <> i -> roll_no s <> r) -> roll_no_taken i r l = false.
Proof.
  intros H. unfold roll_no_taken. destruct (existsb _ l) eqn:E; [|reflexivity].
  apply existsb_exists in E as [s [Hin Hs]]. apply andb_true_iff in Hs as [Hid Hr].
  apply negb_true_iff, Z.eqb_neq in Hid. apply String.eqb_eq in Hr.
  exfalso. exact (H s Hin Hid Hr).
Qed.


Lemma replace_student_same (l : list Student) (row : Student) :
  NoDup (map st_id l) -> In row l -> replace_student row l = l.
Proof.
  intros Hnd Hin. unfold replace_student. rewrite <- (map_id l) at 2.
  apply map_ext_in. intros s Hs. destruct (st_id s =? st_id row) eqn:E; [|reflexivity].
  apply Z.eqb_eq in E. symmetry. now apply (NoDup_map_inj st_id l).
Qed.

Lemma commit_dirty_student_any v dur lg row old :
  NoDup (map st_id (students v)) ->
  find_student (st_id row) (students v) = Some old ->
  roll_no_taken (st_id row) (roll_no row) (students v) = false ->
  exists lg',
    let v' := mkTables (replace_student row (students v)) (attendance v) in
    commit (mkSession v [DirtyStudent row] dur lg) = (Ok tt, mkSession v' [] v' lg').
Proof.
  intros Hnd Hfind Htaken. unfold commit, flush, bind. cbn [pending flush_ops].
  unfold bind, flush_op, ret. cbn [view]. rewrite Hfind.
  destruct (Student_eq_dec old row) as [->|Hne].
  - exists (lg ++ [COMMIT]). cbv zeta.
    rewrite (replace_student_same _ row Hnd (proj1 (find_student_some _ _ _ Hfind))).
    destruct v; reflexivity.
  - rewrite Htaken. eexists. reflexivity.
Qed.

(** X20: a POST to the edit route of an existing student, with a roll
    number no other student has (once stripped), on a dataset whose
    sample folders are named by integers (and, when the [recapture] field
    is ['on'], where no regular file has the name of the student's
    folder), rewrites that student's row and no other: roll number, name,
    email, class and section are the stripped form fields, the identity
    is kept, and the image path changes only when a recapture was asked
    for and saved a crop.  The attendance table is left alone.  The model
    is retrained after the commit: the engine is left as
    [train_or_update_model] leaves it, run on the engine as it was or, on
    a recapture, as [capture_samples] left it.  [Student updated] is
    flashed and the route redirects to the student list. *)
Theorem student_edit_updates
        (image : Type) (FACES_DIR : string) (sid : Z) (req : request)
        (cam : list (frame image)) (w : World image)
        (st : Student) (r n : string) :
  method req = "POST"%string ->
  find_student sid (students (db w)) = Some st ->
  dict_get "roll_no" (form req) = Some r ->
  dict_get "name" (form req) = Some n ->
  wf_tables (db w) ->
  (forall s, In s (students (db w)) -> st_id s <> sid -> roll_no s <> strip r) ->
  let recapture :=
    match dict_get "recapture" (form req) with
    | Some "on"%string => true
    | _ => false
    end in
  (recapture = true -> folder_available sid (engine w)) ->
  int_named (faces_dir (engine w)) ->
  exists (w' : World image) (path : option string) (e1 e2 : Engine image) (trained : bool),
    student_edit FACES_DIR sid req cam w = (Ok (redirect "students"), w') /\
    students (db w') =
      replace_student
        (mkStudent sid (strip r) (strip n)
                   (Some (strip (dict_get_default "email" (form req))))
                   (Some (strip (dict_get_default "klass" (form req))))
                   (Some (strip (dict_get_default "section" (form req))))
                   path)
        (students (db w)) /\
    path =
      (if recapture
       then match fst (capture_samples FACES_DIR sid 15 cam (engine w)) with
            | Ok ""%string | Raise _ => image_path st
            | Ok p => Some p
            end
       else image_path st) /\
    e1 = (if recapture then snd (capture_samples FACES_DIR sid 15 cam (engine w))
          else engine w) /\
    train_or_update_model e1 = (Ok trained, e2) /\
    engine w' = e2 /\
    (trained = true <-> (0 < sample_count (faces_dir e1))%nat) /\
    (recapture = true ->
     forall files,
       In (Directory (str sid) files) (faces_dir (engine w')) ->
       incl (crop_files sid 0 (crops_taken 15 cam 0)) files) /\
    attendance (db w') = attendance (db w) /\
    flashes w' = flashes w ++ [("Student updated", "success")%string].
Proof.
  intros Hm Hfind Hr Hn Hwf Hfree recapture Hav Hok.
  assert (Hmatch : forall (T : Type) (a b : T),
             match dict_get "recapture" (form req) with
             | Some "on"%string => a
             | _ => b
             end = if recapture then a else b).
  { intros T a b. unfold recapture.
    destruct (recapture_cases (dict_get "recapture" (form req))) as [Ho|Ho].
    - now rewrite Ho.
    - now rewrite (Ho T a b), (Ho bool true false). }
  clearbody recapture.
  destruct (find_student_some _ _ _ Hfind) as [Hin Hid].
  set (email := strip (dict_get_default "email" (form req))).
  set (klass := strip (dict_get_default "klass" (form req))).
  set (section := strip (dict_get_default "section" (form req))).
  unfold student_edit, with_SessionLocal.
  unfold bind at 1. unfold get at 1. cbn [fst view SessionLocal]. rewrite Hfind, Hm.
  cbn [String.eqb Ascii.eqb Bool.eqb].
  unfold form_strip, form_get_strip. rewrite Hr, Hn.
  unfold bind at 1. unfold ret at 1. unfold bind at 1. unfold ret at 1.
  fold email klass section. rewrite Hmatch, Hid.
  (* the image path and the engine after the optional recapture *)
  assert (Hpath : exists path e1,
             (if recapture
              then
                preview <- in_world (in_engine (capture_samples FACES_DIR sid 15 cam)) ;;
                ret (if String.eqb preview "" then image_path st else Some preview)
              else ret (image_path st))
               (mkSession (db w) [] (db w) [], w)
             = (Ok path, (mkSession (db w) [] (db w) [],
                          mkWorld (db w) e1 (flashes w) (sql_log w))) /\
             dataset_ok e1 /\
             path = (if recapture
                     then match fst (capture_samples FACES_DIR sid 15 cam (engine w)) with
                          | Ok ""%string | Raise _ => image_path st
                          | Ok p => Some p
                          end
                     else image_path st) /\
             e1 = (if recapture then snd (capture_samples FACES_DIR sid 15 cam (engine w))
                   else engine w)).
  { destruct recapture.
    - destruct (capture_samples_run image FACES_DIR sid 15 cam (engine w) (Hav eq_refl))
        as (e1 & new & Hcap & _ & _).
      assert (Hok1 : dataset_ok e1).
      { pose proof (capture_samples_preserves image FACES_DIR dataset_ok sid 15 cam
                      (makedirs_dataset_ok image FACES_DIR _)
                      (imwrite_dataset_ok image FACES_DIR sid) (engine w) Hok) as H.
        now rewrite Hcap in H. }
      exists (if String.eqb (last (imwrites new) "") "" then image_path st
              else Some (last (imwrites new) ""%string)), e1.
      split; [|split; [exact Hok1|split]].
      + rewrite (bind_Ok _ _ _ _ _ (in_world_in_engine_Ok _ _ w e1 _ Hcap)). reflexivity.
      + rewrite Hcap. cbn [fst]. now destruct (last (imwrites new) ""%string).
      + now rewrite Hcap.
    - exists (image_path st), (engine w).
      split; [|split; [exact Hok|split; reflexivity]].
      unfold ret. destruct w; reflexivity. }
  destruct Hpath as (path & e1 & Hpath & Hok1 & Hpatheq & He1).
  rewrite (bind_Ok _ _ _ _ _ Hpath).
  set (row := mkStudent sid (strip r) (strip n) (Some email) (Some klass) (Some section) path).
  set (w1 := mkWorld (db w) e1 (flashes w) (sql_log w)).
  rewrite (bind_Ok _ _ _ _ _
             (in_session_Ok (add (DirtyStudent row)) (mkSession (db w) [] (db w) [])
                (mkSession (db w) [DirtyStudent row] (db w) []) w1 tt eq_refl)).
  assert (Hfind' : find_student (st_id row) (students (db w)) = Some st) by exact Hfind.
  assert (Htaken : roll_no_taken (st_id row) (roll_no row) (students (db w)) = false).
  { apply roll_no_taken_others. exact Hfree. }
  destruct (commit_dirty_student_any (db w) (db w) [] row st (wf_student_pk _ Hwf)
              Hfind' Htaken) as [lg Hc].
  cbv zeta in Hc.
  rewrite (bind_Ok _ _ _ _ _ (in_session_Ok _ _ _ w1 _ Hc)).
  destruct (train_or_update_model_total image e1 Hok1) as (b & e2 & Htrain & Hb).
  rewrite (bind_Ok _ _ _ _ _ (in_world_in_engine_Ok _ _ w1 e2 b Htrain)).
  unfold bind, in_world, flash, ret. cbn [fst snd].
  eexists _, path, e1, e2, b. split; [reflexivity|].
  cbn [db engine flashes durable fst snd students attendance].
  split; [reflexivity|]. split; [exact Hpatheq|]. split; [exact He1|].
  split; [exact Htrain|]. split; [reflexivity|]. split; [exact Hb|].
  split; [|split; reflexivity].
  intros -> files Hdir.
  destruct (capture_samples_files image FACES_DIR sid 15 cam (engine w) (Hav eq_refl))
    as [_ H].
  rewrite <- He1 in H. apply H.
  pose proof (train_or_update_model_faces e1) as Hfaces. rewrite Htrain in Hfaces.
  cbn [snd] in Hfaces. now rewrite <- Hfaces.
Qed.

Lemma student_edit_updates_witness :
  exists (w' : World (Z * Q)) (path : option string) (e1 e2 : Engine (Z * Q)) (trained : bool),
    student_edit "/srv/data/faces" 2
      (mkRequest "POST" [("roll_no", "24 "); ("name", " Ravi K"); ("recapture", "on")]%string [])
      [mkFrame [(2, 40 # 1)] q_key]
      world_two_students = (Ok (redirect "students"), w') /\
    students (db w') =
      [mkStudent 1 "21" "Asha" None None None None;
       mkStudent 2 "24" "Ravi K" (Some "") (Some "") (Some "") path]%string /\
    path = Some "/srv/data/faces/2/2_000.png"%string /\
    train_or_update_model e1 = (Ok trained, e2) /\
    engine w' = e2 /\
    trained = true.
Proof.
  destruct (student_edit_updates (Z * Q) "/srv/data/faces" 2
              (mkRequest "POST" [("roll_no", "24 "); ("name", " Ravi K"); ("recapture", "on")]%string [])
              [mkFrame [(2, 40 # 1)] q_key]
              world_two_students (mkStudent 2 "22" "Ravi" None None None None)
              "24 " " Ravi K")
    as (w' & path & e1 & e2 & trained & Hrun & Hst & Hpath & He1 & Htrain & He & Hb & _).
  (* a recapture in front of one face *)
  - reflexivity.
  - reflexivity.
  - reflexivity.
  - reflexivity.
  - split; cbn; repeat constructor; cbn; intuition discriminate.
  - intros s [<-|[<-|[]]] Hid; [discriminate|now contradiction Hid].
  - intros _ n. cbn. discriminate.
  - intros img n [].
  - exists w', path, e1, e2, trained.
    split; [exact Hrun|]. split; [exact Hst|]. split; [exact Hpath|].
    split; [exact Htrain|]. split; [exact He|].
    apply Hb. rewrite He1. vm_compute. lia.
Defined.
